(** * Raster-mask vectorisation pipeline (src/dataviz/tif2vectors2.py)

    A shallow embedding of the post-processing pipeline of
    [tif2vectors2.py]: the confidence threshold, the Chaikin ring smoother,
    the transactional layer rewrite [clear_and_repopulate_layer], the five
    layer stages and the orchestration in [run_processing].

    Python floats are IEEE-754 doubles and are modelled by Rocq's primitive
    floats, Python ints by [Z], dicts by [gmap], lists by [list].  The calls
    into GDAL/OGR/GEOS whose result the program cannot predict (validity,
    repair, area, driver errors) are taken from an explicit engine and driver
    record, so every function below is executable once these are given. *)

From Stdlib Require Import ZArith List Bool Lia.
From Stdlib Require Import Floats.PrimFloat Floats.FloatOps Floats.SpecFloat.
From stdpp Require Import base option list gmap strings fin_maps.

Local Open Scope Z_scope.

(** ** Python scalars *)

Module Py.

(** [int(x)] on a float: truncation toward zero of the exact value
    [±m·2^e]; [None] stands for the [ValueError]/[OverflowError] raised on
    NaN and infinities. *)
Definition int_of_float (x : float) : option Z :=
  match Prim2SF x with
  | S754_zero _ => Some 0
  | S754_finite s m e =>
      let mag := if 0 <=? e then Z.pos m * 2 ^ e else Z.pos m / 2 ^ (- e) in
      Some (if s then - mag else mag)
  | S754_infinity _ | S754_nan => None
  end.

(** [round(x)] on a float: nearest integer, ties to even. *)
Definition round (x : float) : option Z :=
  match Prim2SF x with
  | S754_zero _ => Some 0
  | S754_finite s m e =>
      let mag :=
        if 0 <=? e then Z.pos m * 2 ^ e
        else
          let d := 2 ^ (- e) in
          let q := Z.pos m / d in
          let r := Z.pos m mod d in
          if 2 * r <? d then q
          else if d <? 2 * r then q + 1
          else if Z.even q then q else q + 1 in
      Some (if s then - mag else mag)
  | S754_infinity _ | S754_nan => None
  end.

(** [float(z)] for a Python int. *)
Definition float_of_int (z : Z) : float :=
  SF2Prim (binary_normalize prec emax z 0 false).

End Py.

(** ** Thresholder (run_processing, lines 753-754; initial_polygonize_band,
    lines 675-679) *)

(** [max(0, min(255, int(pct / 100.0 * 255)))] *)
Definition threshold_255 (confidence_threshold_pct : float) : option Z :=
  z ← Py.int_of_float (confidence_threshold_pct / 100 * 255)%float;
  Some (Z.max 0 (Z.min 255 z)).

(** The cutoff as the specification words it:
    [clamp(round(percent / 100 * 255), 0, 255)]. *)
Definition spec_cutoff (percent : float) : option Z :=
  z ← Py.round (percent / 100 * 255)%float;
  Some (Z.max 0 (Z.min 255 z)).

(** [(band_array >= threshold_value).astype(np.uint8)], one cell. *)
Definition thresholded_cell (threshold_value pixel : Z) : Z :=
  if threshold_value <=? pixel then 1 else 0.

Definition thresholded_array (threshold_value : Z) (band_array : list (list Z))
  : list (list Z) :=
  map (map (thresholded_cell threshold_value)) band_array.

(** [np.sum(thresholded_array)] *)
Definition np_sum (a : list (list Z)) : Z :=
  foldr (fun row acc => foldr Z.add 0 row + acc) 0 a.

(** ** Log messages, driver calls and the trace of a run *)

Inductive Stage :=
| Simplification | MinAreaFilter | GeometryFixing | ChaikinSmoothing | DNFilter.

Inductive Class := Roads | Buildings.

(** The messages handed to [log_message]; the numbers a message prints are
    its arguments, its wording is left out. *)
Inductive LogMsg :=
| LogText (s : string)
(* _apply_chaikin_to_ring *)
| WarnChaikinBelowMinimum (iter_num : nat)
(* clear_and_repopulate_layer *)
| SkipRewriteEmpty
| Repopulating (original_count kept_count : Z)
| WarnDeletedCount (deleted_count original_count : Z)
| ErrClearing
| WarnSetGeometryFailed
| WarnSetFieldFailed (name : string)
| WarnCreateFailed
| WarnAddedCount (added_count kept_count : Z)
| ErrAdding
| RepopulateComplete (final_count kept_count : Z)
| WarnFinalCount (final_count kept_count : Z)
(* the stages *)
| StageSkipped (st : Stage)
| StageApplying (st : Stage)
| StageLayerEmpty (st : Stage)
| StageFinished (st : Stage)
| WarnSimplifyFailed (fid : Z)
| WarnAreaFailed (fid : Z)
| AreaFilterComplete (removed_count : Z)
| WarnMakeValidCrashed (fid : Z)
| WarnRepairInvalid (fid : Z)
| WarnAddPartFailed (fid : Z)
| InfoRepairedFromCollection (fid : Z)
| WarnExtractInvalid (fid : Z)
| WarnNoValidParts (fid : Z)
| WarnIncompatibleType (fid : Z)
| WarnMakeValidEmpty (fid : Z)
| GeometryFixingComplete (invalid_count repaired_count discarded_count : Z)
| ErrNoDNField
| WarnDNRead (fid : Z)
| SkipRewriteAllMet (feature_count : Z)
| WarnChaikinInvalidRing (fid : Z) (k i : nat)
| ErrChaikinRing (fid : Z) (k i : nat)
| WarnAddSmoothedPartFailed (fid : Z) (k : nat)
| WarnPartInvalidAfterSmoothing (fid : Z) (k : nat)
| WarnMultiInvalidAfterSmoothing (fid : Z)
| WarnSmoothedMakeValidFailed (fid : Z)
(* get_raster_info, initial_polygonize_band *)
| WarnSrsImport
| WarnSrsImportRef
| WarnNoProjection
| WarnSrsReset
| ErrBandNumber (band_num : Z)
| ErrNoBand (band_num : Z)
| ErrBandRead (band_num : Z)
| ApplyingThreshold (threshold_value : Z)
| WarnNoPixels (threshold_value : Z)
| FoundPixels (pixels_above : Z)
| ErrMemRaster
| ErrNoDNBeforePolygonize
| ErrPolygonize (result : Z)
| PolygonizeAdded (added : Z)
(* run_processing *)
| ErrCreateDir
| ErrRemoveOutput
| ErrOutputExists
| ErrNoRasters
| ErrProjectionMismatch (first_path current_path : string)
| AllProjectionsMatch
| ErrValidation
| WarnGeographic
| ErrNoGPKG
| ErrOpenForPolygonize (path : string)
| WarnPolygonizeFailed (cls : Class) (path : string)
| ErrCriticalRaster (path : string)
| GlobalPostProcessing (cls : Class)
| SkipSmoothingPriorErrors
| SkipPostEmpty (cls : Class)
| SkipPostFailures (cls : Class)
| ErrCritical
| SummarySuccess (cls : Class) (success : bool)
| ProcessingComplete
| FinalFeatureCounts (roads buildings : Z)
| ProcessingFailed.

Definition OGRErr : Type := Z.
Definition OGRERR_NONE : OGRErr := 0.
Definition OGRERR_UNSUPPORTED_GEOMETRY_TYPE : OGRErr := 3.
Definition OGRERR_FAILURE : OGRErr := 6.

Inductive Event :=
| Log (m : LogMsg)
| QueuePut (s : string)
| StartTransaction_called (err : OGRErr)
| DeleteFeature_called (fid : Z) (err : OGRErr)
| SetGeometry_called (index : nat) (err : OGRErr)
| CreateFeature_called (index : nat) (err : OGRErr)
| CommitTransaction_called (err : OGRErr)
| RollbackTransaction_called (err : OGRErr)
| makedirs_called (ok : bool)
| CreateField_called (err : OGRErr)
| DeleteDataSource_called (err : OGRErr)
| remove_called (ok : bool)
| CreateDataSource_called (ok : bool).

(** A Python computation: the events it produced and either its return
    value or the exception that left it. *)
Inductive Outcome (A : Type) :=
| Returned (a : A)
| Raised (e : string).
Arguments Returned {A} a.
Arguments Raised {A} e.

Definition Run (A : Type) : Type := list Event * Outcome A.

#[export] Instance run_ret : MRet Run := fun A a => ([], Returned a).
#[export] Instance run_bind : MBind Run := fun A B f m =>
  match m with
  | (t, Returned a) => let '(t', r) := f a in (t ++ t', r)
  | (t, Raised e) => (t, Raised e)
  end.

Definition emit (ev : Event) : Run unit := ([ev], Returned tt).
Definition log_message (m : LogMsg) : Run unit := emit (Log m).
Definition raise {A} (e : string) : Run A := ([], Raised e).

(** [try: body except Exception as e: handler e] *)
Definition try_except {A} (body : Run A) (handler : string -> Run A) : Run A :=
  match body with
  | (t, Returned a) => (t, Returned a)
  | (t, Raised e) => let '(t', r) := handler e in (t ++ t', r)
  end.

Fixpoint foldM {A S} (f : S -> A -> Run S) (l : list A) (s : S) : Run S :=
  match l with
  | [] => mret s
  | a :: l' => s' ← f s a; foldM f l' s'
  end.

(** The module runs [gdal.UseExceptions()] and [ogr.UseExceptions()] at
    import time (lines 25-26): a binding call whose C function returns a
    non-zero [OGRErr] raises [RuntimeError] instead of returning the code. *)
Definition ogr_call (mk : OGRErr -> Event) (err : OGRErr) : Run OGRErr :=
  _ ← emit (mk err);
  if err =? OGRERR_NONE then mret err else raise "RuntimeError".

(** ** Chaikin corner cutting (_apply_chaikin_to_ring, lines 284-345) *)

Definition point : Type := float * float.

Definition chaikin_r (p_i p_i_plus_1 : point) : point :=
  ((0.75 * p_i.1 + 0.25 * p_i_plus_1.1)%float,
   (0.75 * p_i.2 + 0.25 * p_i_plus_1.2)%float).

Definition chaikin_q (p_i p_i_plus_1 : point) : point :=
  ((0.25 * p_i.1 + 0.75 * p_i_plus_1.1)%float,
   (0.25 * p_i.2 + 0.75 * p_i_plus_1.2)%float).

(** The inner loop [for i in range(num_pts - 1)]: the two appends of
    segment [i]. *)
Definition chaikin_emit (current_points : list point) (i : nat) : list point :=
  match current_points !! i, current_points !! S i with
  | Some p_i, Some p_i_plus_1 =>
      [chaikin_r p_i p_i_plus_1; chaikin_q p_i p_i_plus_1]
  | _, _ => []
  end.

Definition temp_ring_pts (current_points : list point) : list point :=
  flat_map (chaikin_emit current_points) (seq 0 (length current_points - 1)).

(** One pass of the outer loop body after the [num_pts < 4] guard:
    [None] is the [else: break] branch. *)
Definition chaikin_pass (current_points : list point) : option (list point) :=
  match temp_ring_pts current_points with
  | [] => None
  | first :: rest => Some ((first :: rest) ++ [first])
  end.

(** The outer loop [for iter_num in range(iterations)], with the warnings
    it logs. *)
Fixpoint chaikin_loop (remaining iter_num : nat) (current_points : list point)
  : list point * list LogMsg :=
  match remaining with
  | O => (current_points, [])
  | S remaining' =>
      if (length current_points <? 4)%nat
      then (current_points, [WarnChaikinBelowMinimum iter_num])
      else
        match chaikin_pass current_points with
        | Some new_points => chaikin_loop remaining' (S iter_num) new_points
        | None => (current_points, [])
        end
  end.

Definition _apply_chaikin_to_ring (points : list point) (iterations : Z)
  : list point * list LogMsg :=
  if (length points <? 4)%nat then (points, [])
  else chaikin_loop (Z.to_nat iterations) 0 points.

Definition unit_square_ring : list point :=
  [(0, 0); (1, 0); (1, 1); (0, 1); (0, 0)]%float.

(** ** OGR geometries *)

Inductive wkbFlat :=
| wkbUnknown | wkbPoint | wkbLineString | wkbPolygon | wkbMultiPoint
| wkbMultiLineString | wkbMultiPolygon | wkbGeometryCollection | wkbLinearRing.

#[export] Instance wkbFlat_eq_dec : EqDecision wkbFlat.
Proof. solve_decision. Defined.

(** A geometry type code: the flat type and the 2.5D flag that
    [ogr.GT_Flatten] strips. *)
Record wkbGeometryType := { flat_type : wkbFlat; is_25D : bool }.

Definition GT_Flatten (t : wkbGeometryType) : wkbFlat := flat_type t.

(** A vertex as [GetPoints()] returns it: [(x, y)] or [(x, y, z)]. *)
Record Vertex := { vx : float; vy : float; vz : option float }.

#[warnings="-register-all"]
Inductive Geometry :=
| Point (v : Vertex)
| LineString (pts : list Vertex)
| LinearRing (pts : list Vertex)
| Polygon (rings : list Geometry)
| MultiPoint (parts : list Geometry)
| MultiLineString (parts : list Geometry)
| MultiPolygon (parts : list Geometry)
| GeometryCollection (parts : list Geometry).

Definition GetGeometryType (g : Geometry) : wkbGeometryType :=
  {| flat_type :=
       match g with
       | Point _ => wkbPoint
       | LineString _ => wkbLineString
       | LinearRing _ => wkbLinearRing
       | Polygon _ => wkbPolygon
       | MultiPoint _ => wkbMultiPoint
       | MultiLineString _ => wkbMultiLineString
       | MultiPolygon _ => wkbMultiPolygon
       | GeometryCollection _ => wkbGeometryCollection
       end;
     is_25D := false |}.

(** [GetGeometryCount()] / [GetGeometryRef(i)]: the sub-geometries. *)
Definition sub_geometries (g : Geometry) : list Geometry :=
  match g with
  | Point _ | LineString _ | LinearRing _ => []
  | Polygon l | MultiPoint l | MultiLineString l | MultiPolygon l
  | GeometryCollection l => l
  end.

Definition GetPoints (g : Geometry) : list Vertex :=
  match g with
  | Point v => [v]
  | LineString pts | LinearRing pts => pts
  | _ => []
  end.

Fixpoint IsEmpty (g : Geometry) : bool :=
  match g with
  | Point _ => false
  | LineString pts | LinearRing pts => match pts with [] => true | _ => false end
  | Polygon l | MultiPoint l | MultiLineString l | MultiPolygon l
  | GeometryCollection l => forallb IsEmpty l
  end.

(** [ogr.Geometry(type)]: a fresh empty geometry. *)
Definition new_Geometry (t : wkbGeometryType) : Geometry :=
  match GT_Flatten t with
  | wkbLineString => LineString []
  | wkbLinearRing => LinearRing []
  | wkbPolygon => Polygon []
  | wkbMultiPoint => MultiPoint []
  | wkbMultiLineString => MultiLineString []
  | wkbMultiPolygon => MultiPolygon []
  | _ => GeometryCollection []
  end.

(** [container.AddGeometry(child)]: the error code of the C call and the
    container afterwards.  A container accepts only its own member type. *)
Definition AddGeometry_code (container child : Geometry) : OGRErr * Geometry :=
  match container, child with
  | Polygon l, LinearRing _ => (OGRERR_NONE, Polygon (l ++ [child]))
  | MultiPoint l, Point _ => (OGRERR_NONE, MultiPoint (l ++ [child]))
  | MultiLineString l, LineString _ => (OGRERR_NONE, MultiLineString (l ++ [child]))
  | MultiPolygon l, Polygon _ => (OGRERR_NONE, MultiPolygon (l ++ [child]))
  | GeometryCollection l, _ => (OGRERR_NONE, GeometryCollection (l ++ [child]))
  | _, _ => (OGRERR_UNSUPPORTED_GEOMETRY_TYPE, container)
  end.

Definition AddGeometry (container child : Geometry) : Run (OGRErr * Geometry) :=
  let '(err, container') := AddGeometry_code container child in
  if err =? OGRERR_NONE then mret (err, container') else raise "RuntimeError".

(** The geometry engine (GEOS behind OGR): validity, repair, simplification
    and area are its answers, not the program's. *)
Class GeometryEngine := {
  IsValid : Geometry -> bool;
  MakeValid : Geometry -> Outcome (option Geometry);
  SimplifyPreserveTopology : Geometry -> float -> Outcome (option Geometry);
  Area : Geometry -> Outcome float;
}.

Definition engine_call {A} (o : Outcome A) : Run A := ([], o).

(** ** OGR features and layers *)

Inductive FieldValue :=
| FInteger (z : Z)
| FReal (x : float)
| FString (s : string).

(** The Python values that travel in an attribute dict: a field value,
    [None], or an object [SetField] has no conversion for. *)
Inductive PyValue :=
| PyField (v : FieldValue)
| PyNone
| PyObject.

Record Feature := {
  FID : Z;
  geometry : option Geometry;
  fields : gmap string FieldValue;
}.

(** [feature.GetField(name)]: [None] for an unset or null field. *)
Definition GetField (feature : Feature) (name : string) : PyValue :=
  match fields feature !! name with
  | Some v => PyField v
  | None => PyNone
  end.

(** [new_feature.SetField(name, value)] *)
Definition SetField (feature : Feature) (name : string) (value : PyValue)
  : Run Feature :=
  match value with
  | PyField v =>
      mret {| FID := FID feature; geometry := geometry feature;
              fields := <[name := v]> (fields feature) |}
  | PyNone =>
      mret {| FID := FID feature; geometry := geometry feature;
              fields := delete name (fields feature) |}
  | PyObject => raise "NotImplementedError"
  end.

Record Layer := {
  layer_defn : list string;         (* the field names of the schema *)
  GetGeomType : wkbGeometryType;
  layer_features : list Feature;
  next_fid : Z;
}.

Definition GetFeatureCount (layer : Layer) : Z :=
  Z.of_nat (length (layer_features layer)).

Fixpoint index_of (name : string) (names : list string) (i : Z) : Z :=
  match names with
  | [] => -1
  | n :: rest => if String.eqb n name then i else index_of name rest (i + 1)
  end.

(** [layer_defn.GetFieldIndex(name)] *)
Definition GetFieldIndex (layer_defn : list string) (name : string) : Z :=
  index_of name layer_defn 0.

Definition with_features (layer : Layer) (fs : list Feature) (next : Z) : Layer :=
  {| layer_defn := layer_defn layer; GetGeomType := GetGeomType layer;
     layer_features := fs; next_fid := next |}.

(** The effect of a successful [DeleteFeature] / [CreateFeature]. *)
Definition delete_feature (fid : Z) (layer : Layer) : Layer :=
  with_features layer
    (filter (fun f => FID f ≠ fid) (layer_features layer)) (next_fid layer).

Definition create_feature (new_feature : Feature) (layer : Layer) : Layer :=
  with_features layer
    (layer_features layer ++
       [{| FID := next_fid layer; geometry := geometry new_feature;
           fields := fields new_feature |}])
    (next_fid layer + 1).

(** What the GeoPackage driver answers to the calls of a rewrite: the raw
    [OGRErr] of each call. *)
Record Driver := {
  start_err : OGRErr;
  delete_err : Z -> OGRErr;            (* by FID *)
  set_geometry_err : Geometry -> OGRErr;
  create_err : nat -> OGRErr;          (* by position in features_data *)
  commit_err : OGRErr;
}.

Definition healthy_driver : Driver :=
  {| start_err := OGRERR_NONE; delete_err := fun _ => OGRERR_NONE;
     set_geometry_err := fun _ => OGRERR_NONE;
     create_err := fun _ => OGRERR_NONE; commit_err := OGRERR_NONE |}.

(** One entry of [features_data]: [{'geom': ..., 'attributes': ...}]. *)
Record FeatureData := {
  data_geom : option Geometry;
  data_attributes : gmap string PyValue;
}.

(** [geom.Clone()]: geometries are values here, a clone is the value. *)
Definition Clone (g : Geometry) : Geometry := g.

(** ** The transactional rewrite (clear_and_repopulate_layer, lines 95-172) *)

Section Rewrite.
Context (drv : Driver).

(** The body of [for fid in fids_to_delete] (lines 111-114). *)
Definition delete_step (st : Layer * Z) (fid : Z) : Run (Layer * Z) :=
  err ← ogr_call (DeleteFeature_called fid) (delete_err drv fid);
  if err =? OGRERR_NONE
  then mret (delete_feature fid st.1, st.2 + 1)
  else mret st.

(** The body of the first [try]: open the transaction, delete every
    feature by FID, warn on a count mismatch.  The layer it returns is
    the layer inside the transaction. *)
Definition clear_block (layer : Layer) (original_count : Z) : Run Layer :=
  _ ← ogr_call StartTransaction_called (start_err drv);
  let fids_to_delete := map FID (layer_features layer) in
  '(work, deleted_count) ← foldM delete_step fids_to_delete (layer, 0);
  _ ← (if deleted_count =? original_count then mret tt
       else log_message (WarnDeletedCount deleted_count original_count));
  mret work.

(** The body of [for name, value in attrs.items()] (lines 141-146). *)
Definition set_field_step (layer_defn : list string) (feature : Feature)
    (item : string * PyValue) : Run Feature :=
  let field_index := GetFieldIndex layer_defn item.1 in
  if 0 <=? field_index
  then try_except (SetField feature item.1 item.2)
         (fun _ => _ ← log_message (WarnSetFieldFailed item.1); mret feature)
  else mret feature.

Definition set_fields (layer_defn : list string) (new_feature : Feature)
    (attrs : gmap string PyValue) : Run Feature :=
  foldM (set_field_step layer_defn) (map_to_list attrs) new_feature.

(** One iteration of [for data in features_data]. *)
Definition add_block_step (layer_defn : list string) (st : Layer * Z)
    (item : nat * FeatureData) : Run (Layer * Z) :=
  let geom := data_geom item.2 in
  let attrs := data_attributes item.2 in
  match geom with
  | None => mret st
  | Some geom =>
      if IsEmpty geom then mret st
      else
        let new_feature := {| FID := -1; geometry := None; fields := ∅ |} in
        let geom_clone := Clone geom in
        err ← ogr_call (SetGeometry_called item.1)
                (set_geometry_err drv geom_clone);
        if negb (err =? OGRERR_NONE)
        then _ ← log_message WarnSetGeometryFailed; mret st
        else
          let new_feature :=
            {| FID := FID new_feature; geometry := Some geom_clone;
               fields := fields new_feature |} in
          new_feature ← set_fields layer_defn new_feature attrs;
          err ← ogr_call (CreateFeature_called item.1) (create_err drv item.1);
          if err =? OGRERR_NONE
          then mret (create_feature new_feature st.1, st.2 + 1)
          else _ ← log_message WarnCreateFailed; mret st
  end.

(** The body of the second [try]: add the candidates, commit, warn on a
    count mismatch. *)
Definition add_block (layer_defn : list string) (work : Layer)
    (features_data : list FeatureData) (kept_count : Z) : Run (Layer * Z) :=
  '(work, added_count) ←
    foldM (add_block_step layer_defn)
          (zip (seq 0 (length features_data)) features_data) (work, 0);
  _ ← ogr_call CommitTransaction_called (commit_err drv);
  _ ← (if added_count =? kept_count then mret tt
       else log_message (WarnAddedCount added_count kept_count));
  mret (work, added_count).

(** [layer.RollbackTransaction()]: fails when no transaction is open,
    which is the case exactly when [StartTransaction] itself failed. *)
Definition RollbackTransaction : Run OGRErr :=
  ogr_call RollbackTransaction_called
    (if start_err drv =? OGRERR_NONE then OGRERR_NONE else OGRERR_FAILURE).

(** The first [try] statement (lines 107-122): [None] is the
    [return False] of its handler. *)
Definition clearing_try (layer : Layer) (original_count : Z)
  : Run (option Layer) :=
  try_except
    (work ← clear_block layer original_count; mret (Some work))
    (fun _ => _ ← RollbackTransaction;
              _ ← log_message ErrClearing; mret None).

(** The second [try] statement (lines 125-165). *)
Definition adding_try (layer_defn : list string) (work : Layer)
    (features_data : list FeatureData) (kept_count : Z)
  : Run (option (Layer * Z)) :=
  try_except
    (r ← add_block layer_defn work features_data kept_count; mret (Some r))
    (fun _ => _ ← RollbackTransaction;
              _ ← log_message ErrAdding;
              _ ← log_message (LogText "traceback"); mret None).

(** Lines 167-172. *)
Definition report_final (work : Layer) (kept_count : Z) : Run (bool * Layer) :=
  let final_count := GetFeatureCount work in
  _ ← log_message (RepopulateComplete final_count kept_count);
  _ ← (if final_count =? kept_count then mret tt
       else log_message (WarnFinalCount final_count kept_count));
  mret (true, work).

(** The result is the returned boolean and the layer as the call leaves
    it: on rollback the layer as it was when the transaction started. *)
Definition clear_and_repopulate_layer (layer : Layer)
    (features_data : list FeatureData) : Run (bool * Layer) :=
  let layer_defn := layer_defn layer in
  let original_count := GetFeatureCount layer in
  let kept_count := Z.of_nat (length features_data) in
  if (kept_count =? 0) && (original_count =? 0)
  then _ ← log_message SkipRewriteEmpty; mret (true, layer)
  else
    _ ← log_message (Repopulating original_count kept_count);
    cleared ← clearing_try layer original_count;
    match cleared with
    | None => mret (false, layer)
    | Some work =>
        added ← adding_try layer_defn work features_data kept_count;
        match added with
        | None => mret (false, layer)
        | Some (work, added_count) => report_final work kept_count
        end
    end.

End Rewrite.

(** ** The layer stages *)

Section Stages.
Context `{GeometryEngine} (drv : Driver).

(** [{name: feature.GetField(name) for name in field_names}] *)
Definition read_attrs (field_names : list string) (feature : Feature)
  : gmap string PyValue :=
  list_to_map (map (fun name => (name, GetField feature name)) field_names).

(** *** simplify_layer (lines 174-224) *)

Definition simplify_feature (tolerance : float) (field_names : list string)
    (processed_features_data : list FeatureData) (feature : Feature)
  : Run (list FeatureData) :=
  let geom := geometry feature in
  let attrs := read_attrs field_names feature in
  simplified_geom ←
    match geom with
    | Some geom =>
        try_except
          (let geom_clone := Clone geom in
           simplified ← engine_call (SimplifyPreserveTopology geom_clone tolerance);
           match simplified with
           | Some simplified =>
               if negb (IsEmpty simplified) then mret (Some simplified)
               else mret (Some (Clone geom))
           | None => mret (Some (Clone geom))
           end)
          (fun _ => _ ← log_message (WarnSimplifyFailed (FID feature));
                    mret (Some (Clone geom)))
    | None => mret None
    end;
  mret (processed_features_data ++
          [{| data_geom := simplified_geom; data_attributes := attrs |}]).

Definition simplify_layer (layer : Layer) (tolerance : float)
  : Run (bool * Layer) :=
  if (tolerance <=? 0)%float
  then _ ← log_message (StageSkipped Simplification); mret (true, layer)
  else
    _ ← log_message (StageApplying Simplification);
    let feature_count := GetFeatureCount layer in
    if feature_count =? 0
    then _ ← log_message (StageLayerEmpty Simplification); mret (true, layer)
    else
      let field_names := layer_defn layer in
      processed_features_data ←
        foldM (simplify_feature tolerance field_names) (layer_features layer) [];
      r ← clear_and_repopulate_layer drv layer processed_features_data;
      _ ← log_message (StageFinished Simplification);
      mret r.

(** *** filter_layer_by_min_area (lines 226-282) *)

Definition area_filter_feature (min_area : float) (field_names : list string)
    (st : list FeatureData * Z) (feature : Feature)
  : Run (list FeatureData * Z) :=
  let features_to_keep := st.1 in
  let removed_count := st.2 in
  let geom := geometry feature in
  '(keep, removed_count) ←
    match geom with
    | Some g =>
        if negb (IsEmpty g)
        then try_except
               (area ← engine_call (Area g);
                if (min_area <=? area)%float then mret (true, removed_count)
                else mret (false, removed_count + 1))
               (fun _ => _ ← log_message (WarnAreaFailed (FID feature));
                         mret (false, removed_count + 1))
        else mret (false, removed_count + 1)
    | None => mret (false, removed_count + 1)
    end;
  if keep : bool
  then
    let attrs := read_attrs field_names feature in
    mret (features_to_keep ++
            [{| data_geom := Clone <$> geom; data_attributes := attrs |}],
          removed_count)
  else mret (features_to_keep, removed_count).

Definition filter_layer_by_min_area (layer : Layer) (min_area : float)
  : Run (bool * Layer) :=
  if (min_area <=? 0)%float
  then _ ← log_message (StageSkipped MinAreaFilter); mret (true, layer)
  else
    _ ← log_message (StageApplying MinAreaFilter);
    let feature_count := GetFeatureCount layer in
    if feature_count =? 0
    then _ ← log_message (StageLayerEmpty MinAreaFilter); mret (true, layer)
    else
      let field_names := layer_defn layer in
      '(features_to_keep, removed_count) ←
        foldM (area_filter_feature min_area field_names)
              (layer_features layer) ([], 0);
      _ ← log_message (AreaFilterComplete removed_count);
      r ← clear_and_repopulate_layer drv layer features_to_keep;
      _ ← log_message (StageFinished MinAreaFilter);
      mret r.

(** *** fix_layer_geometries (lines 493-598) *)

Record FixCounts := {
  invalid_count : Z;
  repaired_count : Z;
  discarded_count : Z;
}.

Definition count_invalid (c : FixCounts) : FixCounts :=
  {| invalid_count := invalid_count c + 1; repaired_count := repaired_count c;
     discarded_count := discarded_count c |}.
Definition count_repaired (c : FixCounts) : FixCounts :=
  {| invalid_count := invalid_count c; repaired_count := repaired_count c + 1;
     discarded_count := discarded_count c |}.
Definition count_discarded (c : FixCounts) : FixCounts :=
  {| invalid_count := invalid_count c; repaired_count := repaired_count c;
     discarded_count := discarded_count c + 1 |}.

(** The loop over the members of a repaired geometry collection
    (lines 553-560). *)
Definition extract_part (fid : Z) (st : Geometry * bool) (part : Geometry)
  : Run (Geometry * bool) :=
  if negb (IsEmpty part)
     && bool_decide (GT_Flatten (GetGeometryType part) = wkbPolygon)
     && IsValid part
  then
    '(err, collection_extract) ← AddGeometry st.1 (Clone part);
    if err =? OGRERR_NONE then mret (collection_extract, true)
    else _ ← log_message (WarnAddPartFailed fid); mret st
  else mret st.

(** The decision for one feature (lines 522-580): the geometry to keep,
    if any, and the counters. *)
Definition fix_geometry (target_geom_type : wkbGeometryType) (fid : Z)
    (geom : option Geometry) (c : FixCounts)
  : Run (option Geometry * FixCounts) :=
  let target_flat_geom_type := GT_Flatten target_geom_type in
  match geom with
  | None => mret (None, count_discarded c)
  | Some geom =>
      if IsEmpty geom then mret (None, count_discarded c)
      else if IsValid geom then mret (Some (Clone geom), c)
      else
        let c := count_invalid c in
        '(repaired_geom, c) ←
          try_except
            (repaired_geom ← engine_call (MakeValid geom);
             mret (repaired_geom, c))
            (fun _ => _ ← log_message (WarnMakeValidCrashed fid);
                      mret (None, count_discarded c));
        match repaired_geom with
        | None =>
            _ ← log_message (WarnMakeValidEmpty fid);
            mret (None, count_discarded c)
        | Some repaired_geom =>
            if IsEmpty repaired_geom
            then _ ← log_message (WarnMakeValidEmpty fid);
                 mret (None, count_discarded c)
            else
              let repaired_type := GetGeometryType repaired_geom in
              let repaired_flat_type := GT_Flatten repaired_type in
              if bool_decide (repaired_flat_type = target_flat_geom_type)
              then
                if IsValid repaired_geom
                then mret (Some (Clone repaired_geom), count_repaired c)
                else _ ← log_message (WarnRepairInvalid fid);
                     mret (None, count_discarded c)
              else if bool_decide (repaired_flat_type = wkbGeometryCollection)
                      && (bool_decide (target_flat_geom_type = wkbPolygon)
                          || bool_decide (target_flat_geom_type = wkbMultiPolygon))
              then
                let collection_extract := new_Geometry target_geom_type in
                '(collection_extract, valid_parts_found) ←
                  foldM (extract_part fid) (sub_geometries repaired_geom)
                        (collection_extract, false);
                if valid_parts_found : bool
                then
                  if IsValid collection_extract
                  then _ ← log_message (InfoRepairedFromCollection fid);
                       mret (Some (Clone collection_extract), count_repaired c)
                  else _ ← log_message (WarnExtractInvalid fid);
                       mret (None, count_discarded c)
                else _ ← log_message (WarnNoValidParts fid);
                     mret (None, count_discarded c)
              else _ ← log_message (WarnIncompatibleType fid);
                   mret (None, count_discarded c)
        end
  end.

Definition fix_feature (target_geom_type : wkbGeometryType)
    (field_names : list string) (st : list FeatureData * FixCounts)
    (feature : Feature) : Run (list FeatureData * FixCounts) :=
  let geom := geometry feature in
  let attrs := read_attrs field_names feature in
  let fid := FID feature in
  '(final_geom, c) ← fix_geometry target_geom_type fid geom st.2;
  match final_geom with
  | Some final_geom =>
      mret (st.1 ++ [{| data_geom := Some final_geom;
                        data_attributes := attrs |}], c)
  | None => mret (st.1, c)
  end.

Definition no_counts : FixCounts :=
  {| invalid_count := 0; repaired_count := 0; discarded_count := 0 |}.

Definition fix_layer_geometries (layer : Layer) : Run (bool * Layer) :=
  _ ← log_message (StageApplying GeometryFixing);
  let feature_count := GetFeatureCount layer in
  if feature_count =? 0
  then _ ← log_message (StageLayerEmpty GeometryFixing); mret (true, layer)
  else
    let field_names := layer_defn layer in
    let target_geom_type := GetGeomType layer in
    '(processed_data, c) ←
      foldM (fix_feature target_geom_type field_names)
            (layer_features layer) ([], no_counts);
    _ ← log_message (GeometryFixingComplete (invalid_count c)
                       (repaired_count c) (discarded_count c));
    r ← clear_and_repopulate_layer drv layer processed_data;
    _ ← log_message (StageFinished GeometryFixing);
    mret r.

(** *** filter_layer_by_dn (lines 600-650) *)

(** Python's [dn == keep_dn_value] for an int [keep_dn_value]. *)
Definition py_eq_int (dn : PyValue) (keep_dn_value : Z) : bool :=
  match dn with
  | PyField (FInteger z) => z =? keep_dn_value
  | PyField (FReal x) => (x =? Py.float_of_int keep_dn_value)%float
  | _ => false
  end.

Definition dn_filter_feature (keep_dn_value : Z) (field_names : list string)
    (st : list FeatureData * Z) (feature : Feature)
  : Run (list FeatureData * Z) :=
  try_except
    (let dn := GetField feature "DN" in
     if py_eq_int dn keep_dn_value
     then
       match geometry feature with
       | Some geom =>
           if negb (IsEmpty geom) && IsValid geom
           then
             let attrs := read_attrs field_names feature in
             mret (st.1 ++ [{| data_geom := Some (Clone geom);
                               data_attributes := attrs |}], st.2 + 1)
           else mret st
       | None => mret st
       end
     else mret st)
    (fun _ => _ ← log_message (WarnDNRead (FID feature)); mret st).

Definition filter_layer_by_dn (layer : Layer) (keep_dn_value : Z)
  : Run (bool * Layer) :=
  _ ← log_message (StageApplying DNFilter);
  let feature_count := GetFeatureCount layer in
  if feature_count =? 0
  then _ ← log_message (StageLayerEmpty DNFilter); mret (true, layer)
  else
    let dn_idx := GetFieldIndex (layer_defn layer) "DN" in
    if dn_idx <? 0
    then _ ← log_message ErrNoDNField; mret (false, layer)
    else
      let field_names := layer_defn layer in
      '(features_to_keep, kept_count) ←
        foldM (dn_filter_feature keep_dn_value field_names)
              (layer_features layer) ([], 0);
      if (kept_count =? feature_count) && (0 <? feature_count)
      then _ ← log_message (SkipRewriteAllMet feature_count); mret (true, layer)
      else
        r ← clear_and_repopulate_layer drv layer features_to_keep;
        _ ← log_message (StageFinished DNFilter);
        mret r.

End Stages.

(** *** smooth_layer_chaikin (lines 348-491) *)

Section Smoothing.
Context `{GeometryEngine} (drv : Driver).

(** Python's [==] on two [(x, y)] tuples of floats. *)
Definition point_eqb (p q : point) : bool :=
  ((p.1 =? q.1) && (p.2 =? q.2))%float.

Definition run_chaikin (points_2d : list point) (iterations : Z)
  : Run (list point) :=
  let '(pts, msgs) := _apply_chaikin_to_ring points_2d iterations in
  (map Log msgs, Returned pts).

(** The [for pt_idx, pt in enumerate(smoothed_points_2d)] loop: every
    point is added, except that a last point differing from the first is
    replaced by the first. *)
Fixpoint ring_points_loop (first : point) (l : list point) : list point :=
  match l with
  | [] => []
  | [pt] => if negb (point_eqb first pt) then [first] else [pt]
  | pt :: rest => pt :: ring_points_loop first rest
  end.

(** Lines 433-438: append the first point when the ring is still open. *)
Definition ensure_closed (pts : list point) : list point :=
  match pts, last pts with
  | p_first :: _, Some p_last =>
      if negb (p_first.1 =? p_last.1)%float || negb (p_first.2 =? p_last.2)%float
      then pts ++ [p_first] else pts
  | _, _ => pts
  end.

Definition make_vertex (has_z : bool) (z_val : float) (pt : point) : Vertex :=
  {| vx := pt.1; vy := pt.2; vz := if has_z then Some z_val else None |}.

Definition add_to (container child : Geometry) : Run Geometry :=
  '(_, container') ← AddGeometry container child; mret container'.

(** One ring of one polygon part (lines 395-451). *)
Definition smooth_ring (iterations : Z) (fid : Z) (k : nat)
    (new_poly : Geometry) (item : nat * Geometry) : Run Geometry :=
  let i := item.1 in
  let ring := item.2 in
  if IsEmpty ring
     || negb (bool_decide (GT_Flatten (GetGeometryType ring) = wkbLinearRing))
  then mret new_poly
  else
    let points := GetPoints ring in
    if (length points <? 4)%nat then add_to new_poly (Clone ring)
    else
      try_except
        (let points_2d := map (fun p => (vx p, vy p)) points in
         let points_2d :=
           match points_2d, last points_2d with
           | p0 :: _, Some pl =>
               if negb (point_eqb p0 pl) && (1 <? length points_2d)%nat
               then points_2d ++ [p0] else points_2d
           | _, _ => points_2d
           end in
         smoothed_points_2d ← run_chaikin points_2d iterations;
         if (4 <=? length smoothed_points_2d)%nat
         then
           let has_z := match points with
                        | p0 :: _ => bool_decide (is_Some (vz p0))
                        | [] => false
                        end in
           let z_val := match points with
                        | p0 :: _ => default 0%float (vz p0)
                        | [] => 0%float
                        end in
           let first := default (0, 0)%float (head smoothed_points_2d) in
           let ring_pts :=
             ensure_closed (ring_points_loop first smoothed_points_2d) in
           let new_ring := LinearRing (map (make_vertex has_z z_val) ring_pts) in
           if IsValid new_ring then add_to new_poly new_ring
           else _ ← log_message (WarnChaikinInvalidRing fid k i);
                add_to new_poly (Clone ring)
         else add_to new_poly (Clone ring))
        (fun _ => _ ← log_message (ErrChaikinRing fid k i);
                  add_to new_poly (Clone ring)).

(** One polygon part (lines 384-459). *)
Definition smooth_part (iterations : Z) (fid : Z)
    (new_multi_poly : Geometry) (item : nat * Geometry) : Run Geometry :=
  let k := item.1 in
  let part := item.2 in
  if IsEmpty part
     || negb (bool_decide (GT_Flatten (GetGeometryType part) = wkbPolygon))
  then mret new_multi_poly
  else
    let rings := sub_geometries part in
    new_poly ← foldM (smooth_ring iterations fid k)
                     (zip (seq 0 (length rings)) rings) (Polygon []);
    if negb (IsEmpty new_poly)
    then
      if IsValid new_poly
      then
        '(err, multi) ← AddGeometry new_multi_poly (Clone new_poly);
        if err =? OGRERR_NONE then mret multi
        else _ ← log_message (WarnAddSmoothedPartFailed fid k); mret multi
      else _ ← log_message (WarnPartInvalidAfterSmoothing fid k);
           mret new_multi_poly
    else mret new_multi_poly.

(** The geometry written for one feature (lines 368-477). *)
Definition smooth_geometry (iterations : Z) (fid : Z) (geom : option Geometry)
  : Run (option Geometry) :=
  match geom with
  | None => mret None
  | Some geom =>
      if IsEmpty geom then mret None
      else
        let flat_geom_type := GT_Flatten (GetGeometryType geom) in
        if bool_decide (flat_geom_type = wkbPolygon)
           || bool_decide (flat_geom_type = wkbMultiPolygon)
        then
          let parts := if bool_decide (flat_geom_type = wkbMultiPolygon)
                       then sub_geometries geom else [geom] in
          new_multi_poly ← foldM (smooth_part iterations fid)
                                 (zip (seq 0 (length parts)) parts)
                                 (MultiPolygon []);
          if negb (IsEmpty new_multi_poly)
          then
            if negb (IsValid new_multi_poly)
            then
              _ ← log_message (WarnMultiInvalidAfterSmoothing fid);
              repaired_multi ← engine_call (MakeValid new_multi_poly);
              match repaired_multi with
              | Some repaired_multi =>
                  if negb (IsEmpty repaired_multi) && IsValid repaired_multi
                  then mret (Some (Clone repaired_multi))
                  else _ ← log_message (WarnSmoothedMakeValidFailed fid);
                       mret (Some (Clone geom))
              | None => _ ← log_message (WarnSmoothedMakeValidFailed fid);
                        mret (Some (Clone geom))
              end
            else mret (Some (Clone new_multi_poly))
          else mret (Some (Clone geom))
        else mret (Some (Clone geom))
  end.

Definition smooth_feature (iterations : Z) (field_names : list string)
    (processed_data : list FeatureData) (feature : Feature)
  : Run (list FeatureData) :=
  let geom := geometry feature in
  let attrs := read_attrs field_names feature in
  processed_geom ← smooth_geometry iterations (FID feature) geom;
  mret (processed_data ++
          [{| data_geom := processed_geom; data_attributes := attrs |}]).

Definition smooth_layer_chaikin (layer : Layer) (iterations : Z)
  : Run (bool * Layer) :=
  _ ← log_message (StageApplying ChaikinSmoothing);
  let feature_count := GetFeatureCount layer in
  if feature_count =? 0
  then _ ← log_message (StageLayerEmpty ChaikinSmoothing); mret (true, layer)
  else
    let field_names := layer_defn layer in
    processed_data ←
      foldM (smooth_feature iterations field_names) (layer_features layer) [];
    r ← clear_and_repopulate_layer drv layer processed_data;
    _ ← log_message (StageFinished ChaikinSmoothing);
    mret r.

End Smoothing.

(** ** Rasters (get_raster_info, lines 41-93; initial_polygonize_band,
    lines 652-735) *)

(** [osr.SpatialReference]: opaque descriptors with the operations the
    program calls on them. *)
Class SpatialRef := {
  SRS : Type;
  empty_SRS : SRS;                          (* osr.SpatialReference() *)
  ImportFromWkt : string -> Outcome SRS;
  ExportToWkt : SRS -> Outcome string;
  IsSame : SRS -> SRS -> bool;
  IsProjected : SRS -> bool;
}.

Record Band := {
  ReadAsArray : Outcome (option (list (list Z)));
}.

Record RasterDS := {
  RasterCount : Z;
  GetProjection : string;
  GetProjectionRef : string;
  GetGeoTransform : list Z;
  GetRasterBand : Z -> option Band;
}.

(** Truth value of a Python [str] or [None]. *)
Definition truthy (s : option string) : bool :=
  match s with
  | Some s => negb (String.eqb s "")
  | None => false
  end.

Section Rasters.
Context `{SpatialRef}.

Record RasterInfo := {
  info_bands : Z;
  info_projection_wkt : option string;
  info_srs : SRS;
}.

Definition get_raster_info (raster_ds : RasterDS) : Run RasterInfo :=
  let projection_wkt := Some (GetProjection raster_ds) in
  let srs := empty_SRS in
  '(srs, projection_wkt) ←
    (if truthy projection_wkt
     then try_except
            (srs' ← engine_call (ImportFromWkt (GetProjection raster_ds));
             mret (srs', projection_wkt))
            (fun _ => _ ← log_message WarnSrsImport; mret (srs, None))
     else mret (srs, projection_wkt));
  '(srs, projection_wkt) ←
    (if negb (truthy projection_wkt) && truthy (Some (GetProjectionRef raster_ds))
     then
       let proj_ref := GetProjectionRef raster_ds in
       try_except
         (srs_ref ← engine_call (ImportFromWkt proj_ref);
          mret (srs_ref, Some proj_ref))
         (fun _ => _ ← log_message WarnSrsImportRef; mret (srs, projection_wkt))
     else mret (srs, projection_wkt));
  _ ← (if negb (truthy projection_wkt)
          || bool_decide (GetGeoTransform raster_ds = [])
          || bool_decide (GetGeoTransform raster_ds = [0; 1; 0; 0; 0; 1])
       then log_message WarnNoProjection else mret tt);
  '(srs, projection_wkt) ←
    (if negb (truthy projection_wkt)
     then try_except
            (wkt_check ← engine_call (ExportToWkt srs);
             if truthy (Some wkt_check) then mret (srs, Some wkt_check)
             else _ ← log_message WarnSrsReset; mret (empty_SRS, projection_wkt))
            (fun _ => _ ← log_message WarnSrsReset;
                      mret (empty_SRS, projection_wkt))
     else mret (srs, projection_wkt));
  mret {| info_bands := RasterCount raster_ds;
          info_projection_wkt := projection_wkt; info_srs := srs |}.

End Rasters.

(** What [gdal.Polygonize] and the in-memory raster driver answer. *)
Record Extractor := {
  mem_create : Outcome bool;
  Polygonize : list (list Z) -> Outcome (Z * list (Geometry * Z));
}.

(** The features [gdal.Polygonize] appends: one per region, its pixel
    value written to the field at [dn_field_index]. *)
Definition append_polygons (dn_field : string) (regions : list (Geometry * Z))
    (out_layer : Layer) : Layer :=
  foldl (fun layer r =>
           create_feature {| FID := -1; geometry := Some r.1;
                             fields := {[ dn_field := FInteger r.2 ]} |} layer)
        out_layer regions.

Definition initial_polygonize_band (ex : Extractor) (raster_ds : RasterDS)
    (band_num : Z) (threshold_255 : Z) (out_layer : Layer) : Run (bool * Layer) :=
  if (band_num <=? 0) || (RasterCount raster_ds <? band_num)
  then _ ← log_message (ErrBandNumber band_num); mret (false, out_layer)
  else
    match GetRasterBand raster_ds band_num with
    | None => _ ← log_message (ErrNoBand band_num); mret (false, out_layer)
    | Some band =>
        band_array ←
          try_except
            (band_array ← engine_call (ReadAsArray band);
             match band_array with
             | None => raise "MemoryError"
             | Some a => mret (Some a)
             end)
            (fun _ => _ ← log_message (ErrBandRead band_num); mret None);
        match band_array with
        | None => mret (false, out_layer)
        | Some band_array =>
            let threshold_value := threshold_255 in
            _ ← log_message (ApplyingThreshold threshold_value);
            let thresholded := thresholded_array threshold_value band_array in
            let pixels_above := np_sum thresholded in
            if pixels_above =? 0
            then _ ← log_message (WarnNoPixels threshold_value);
                 mret (true, out_layer)
            else
              _ ← log_message (FoundPixels pixels_above);
              temp_ok ←
                try_except
                  (temp_ds ← engine_call (mem_create ex);
                   if temp_ds : bool then mret true else raise "RuntimeError")
                  (fun _ => _ ← log_message ErrMemRaster; mret false);
              if negb temp_ok then mret (false, out_layer)
              else
                let dn_field_index := GetFieldIndex (layer_defn out_layer) "DN" in
                if dn_field_index <? 0
                then _ ← log_message ErrNoDNBeforePolygonize; mret (false, out_layer)
                else
                  let count_before := GetFeatureCount out_layer in
                  '(result, regions) ← engine_call (Polygonize ex thresholded);
                  let out_layer :=
                    if result =? 0 then append_polygons "DN" regions out_layer
                    else out_layer in
                  let count_after := GetFeatureCount out_layer in
                  if negb (result =? 0)
                  then _ ← log_message (ErrPolygonize result); mret (false, out_layer)
                  else _ ← log_message (PolygonizeAdded (count_after - count_before));
                       mret (true, out_layer)
        end
    end.

(** ** The orchestrator (run_processing, lines 738-1059) *)

Record Params := {
  input_rasters : list string;
  output_dir : string;
  output_name : string;
  force : bool;
  conf_thresh_bldg_pct : float;
  simplify_bldg : float;
  min_area_bldg : float;
  conf_thresh_road_pct : float;
  simplify_road : float;
  min_area_road : float;
  smooth_roads_chaikin : Z;
}.

(** The file system and the GDAL/OGR services a run talks to. *)
Record World := {
  output_dir_exists : bool;            (* os.path.exists(output_dir) *)
  makedirs_ok : bool;
  output_exists : bool;                (* os.path.exists(output_gpkg_path) *)
  gpkg_driver : bool;                  (* ogr.GetDriverByName('GPKG') is truthy *)
  delete_datasource_err : OGRErr;
  remove_ok : bool;
  open_for_validation : string -> Outcome (option RasterDS);
  open_for_processing : string -> Outcome (option RasterDS);
  create_datasource : Outcome bool;    (* out_ds is not None *)
  create_layer : Class -> Outcome bool;
  create_field_err : Class -> OGRErr;
  extractor : Extractor;
  layer_driver : Class -> Driver;
}.

Definition PROCESS_COMPLETE_SUCCESS : string := "PROCESS_COMPLETE_SUCCESS".
Definition PROCESS_COMPLETE_FAILURE : string := "PROCESS_COMPLETE_FAILURE".

Definition wkbMultiPolygon_type : wkbGeometryType :=
  {| flat_type := wkbMultiPolygon; is_25D := false |}.

Section Orchestrator.
Context `{GeometryEngine} `{SpatialRef} (w : World).

(** Lines 780-818: the output directory and an existing output file.
    [false] is the early [return False]. *)
Definition prepare_output (params : Params) : Run bool :=
  dir_ok ←
    (if negb (output_dir_exists w)
     then
       _ ← emit (makedirs_called (makedirs_ok w));
       if makedirs_ok w then mret true
       else _ ← log_message ErrCreateDir;
            _ ← emit (QueuePut PROCESS_COMPLETE_FAILURE); mret false
     else mret true);
  if negb dir_ok then mret false
  else if output_exists w
  then
    if force params
    then
      try_except
        (if gpkg_driver w
         then
           delete_success ←
             ogr_call DeleteDataSource_called (delete_datasource_err w);
           if negb (delete_success =? OGRERR_NONE) && output_exists w
           then _ ← emit (remove_called (remove_ok w));
                if remove_ok w then mret true else raise "OSError"
           else mret true
         else _ ← emit (remove_called (remove_ok w));
              if remove_ok w then mret true else raise "OSError")
        (fun _ => _ ← log_message ErrRemoveOutput;
                  _ ← emit (QueuePut PROCESS_COMPLETE_FAILURE); mret false)
    else _ ← log_message ErrOutputExists;
         _ ← emit (QueuePut PROCESS_COMPLETE_FAILURE); mret false
  else mret true.

(** One raster of the validation: open it, read its info, check the SRS
    and the band count (lines 833-844 and 853-862). *)
Definition validated_info (path : string) : Run RasterInfo :=
  ds ← engine_call (open_for_validation w path);
  match ds with
  | None => raise "RuntimeError"
  | Some ds =>
      info ← get_raster_info ds;
      if negb (truthy (info_projection_wkt info)) then raise "RuntimeError"
      else if info_bands info <? 2 then raise "RuntimeError"
      else mret info
  end.

(** The body of [for i in range(1, len(input_raster_paths))]. *)
Definition validate_against (first_path : string) (target_srs : SRS)
    (_ : unit) (current_path : string) : Run unit :=
  current_info ← validated_info current_path;
  if negb (IsSame target_srs (info_srs current_info))
  then _ ← log_message (ErrProjectionMismatch first_path current_path);
       raise "RuntimeError"
  else mret tt.

(** Lines 820-882: [None] is the [return False] of the handler. *)
Definition validate_input_rasters (input_raster_paths : list string)
  : Run (option SRS) :=
  match input_raster_paths with
  | [] => _ ← log_message ErrNoRasters;
          _ ← emit (QueuePut PROCESS_COMPLETE_FAILURE); mret None
  | first_raster_path_val :: rest =>
      try_except
        (first_raster_info_val ← validated_info first_raster_path_val;
         let target_srs := info_srs first_raster_info_val in
         _ ← foldM (validate_against first_raster_path_val target_srs) rest tt;
         _ ← log_message AllProjectionsMatch;
         mret (Some target_srs))
        (fun _ => _ ← log_message ErrValidation;
                  _ ← emit (QueuePut PROCESS_COMPLETE_FAILURE); mret None)
  end.

Record Extraction := {
  roads_layer : Layer;
  buildings_layer : Layer;
  all_poly_ok_roads : bool;
  all_poly_ok_buildings : bool;
}.

Definition critical_error (path : string) (roads buildings : Layer)
  : Run Extraction :=
  _ ← log_message (ErrCriticalRaster path);
  mret {| roads_layer := roads; buildings_layer := buildings;
          all_poly_ok_roads := false; all_poly_ok_buildings := false |}.

(** The body of the polygonization loop (lines 931-970).  The one
    [try] of the source is written once per statement that can raise, so
    that the handler sees the layers as the statements before it left
    them. *)
Definition polygonize_raster (threshold_255_roads threshold_255_buildings : Z)
    (st : Extraction) (current_input_raster_path : string) : Run Extraction :=
  let path := current_input_raster_path in
  ds ← try_except (ds ← engine_call (open_for_processing w path); mret (Some ds))
                  (fun _ => mret None);
  match ds with
  | None => critical_error path (roads_layer st) (buildings_layer st)
  | Some None =>
      _ ← log_message (ErrOpenForPolygonize path);
      mret {| roads_layer := roads_layer st;
              buildings_layer := buildings_layer st;
              all_poly_ok_roads := false; all_poly_ok_buildings := false |}
  | Some (Some current_raster_ds_proc) =>
      r ← try_except
            (r ← initial_polygonize_band (extractor w) current_raster_ds_proc 1
                   threshold_255_roads (roads_layer st);
             mret (Some r))
            (fun _ => mret None);
      match r with
      | None => critical_error path (roads_layer st) (buildings_layer st)
      | Some (poly_ok_roads_current, roads) =>
          _ ← (if negb poly_ok_roads_current
               then log_message (WarnPolygonizeFailed Roads path) else mret tt);
          b ← try_except
                (b ← initial_polygonize_band (extractor w) current_raster_ds_proc
                       2 threshold_255_buildings (buildings_layer st);
                 mret (Some b))
                (fun _ => mret None);
          match b with
          | None => critical_error path roads (buildings_layer st)
          | Some (poly_ok_buildings_current, buildings) =>
              _ ← (if negb poly_ok_buildings_current
                   then log_message (WarnPolygonizeFailed Buildings path)
                   else mret tt);
              mret {| roads_layer := roads; buildings_layer := buildings;
                      all_poly_ok_roads :=
                        all_poly_ok_roads st && poly_ok_roads_current;
                      all_poly_ok_buildings :=
                        all_poly_ok_buildings st && poly_ok_buildings_current |}
          end
      end
  end.

(** Lines 975-994: the success flag of the class and its layer. *)
Definition post_process_roads (params : Params) (all_poly_ok_roads : bool)
    (roads_layer : Layer) : Run (bool * Layer) :=
  let drv := layer_driver w Roads in
  if all_poly_ok_roads
  then
    if 0 <? GetFeatureCount roads_layer
    then
      _ ← log_message (GlobalPostProcessing Roads);
      '(simp_ok_r, l) ← simplify_layer drv roads_layer (simplify_road params);
      '(area_ok_r, l) ←
        (if simp_ok_r then filter_layer_by_min_area drv l (min_area_road params)
         else mret (false, l));
      '(fix_geom_ok_r, l) ←
        (if simp_ok_r && area_ok_r then fix_layer_geometries drv l
         else mret (false, l));
      '(smooth_ok_r, l) ←
        (if 0 <? smooth_roads_chaikin params
         then
           if simp_ok_r && area_ok_r && fix_geom_ok_r
           then smooth_layer_chaikin drv l (smooth_roads_chaikin params)
           else _ ← log_message SkipSmoothingPriorErrors; mret (false, l)
         else mret (true, l));
      '(dn_ok_final_r, l) ←
        (if simp_ok_r && area_ok_r && fix_geom_ok_r && smooth_ok_r
         then filter_layer_by_dn drv l 1
         else mret (false, l));
      mret (simp_ok_r && area_ok_r && fix_geom_ok_r && smooth_ok_r
            && dn_ok_final_r, l)
    else _ ← log_message (SkipPostEmpty Roads); mret (true, roads_layer)
  else _ ← log_message (SkipPostFailures Roads); mret (false, roads_layer).

(** Lines 997-1010. *)
Definition post_process_buildings (params : Params)
    (all_poly_ok_buildings : bool) (buildings_layer : Layer)
  : Run (bool * Layer) :=
  let drv := layer_driver w Buildings in
  if all_poly_ok_buildings
  then
    if 0 <? GetFeatureCount buildings_layer
    then
      _ ← log_message (GlobalPostProcessing Buildings);
      '(simp_ok_b, l) ←
        simplify_layer drv buildings_layer (simplify_bldg params);
      '(area_ok_b, l) ←
        (if simp_ok_b then filter_layer_by_min_area drv l (min_area_bldg params)
         else mret (false, l));
      '(fix_geom_ok_b, l) ←
        (if simp_ok_b && area_ok_b then fix_layer_geometries drv l
         else mret (false, l));
      '(dn_ok_b, l) ←
        (if simp_ok_b && area_ok_b && fix_geom_ok_b
         then filter_layer_by_dn drv l 1
         else mret (false, l));
      mret (simp_ok_b && area_ok_b && fix_geom_ok_b && dn_ok_b, l)
    else _ ← log_message (SkipPostEmpty Buildings); mret (true, buildings_layer)
  else _ ← log_message (SkipPostFailures Buildings); mret (false, buildings_layer).

Definition new_layer : Layer :=
  {| layer_defn := []; GetGeomType := wkbMultiPolygon_type;
     layer_features := []; next_fid := 1 |}.

(** [out_ds.CreateLayer(name, srs=target_srs, geom_type=ogr.wkbMultiPolygon)]
    followed by [layer.CreateField(dn_field)]. *)
Definition create_class_layer (cls : Class) : Run Layer :=
  ok ← engine_call (create_layer w cls);
  if negb ok then raise "OGRError"
  else
    _ ← ogr_call CreateField_called (create_field_err w cls);
    mret {| layer_defn := ["DN"]; GetGeomType := GetGeomType new_layer;
            layer_features := []; next_fid := next_fid new_layer |}.

Record ClassResults := {
  success_roads : bool;
  success_buildings : bool;
  final_layers : option (Layer * Layer);
}.

(** The body of the main [try] (lines 907-1010). *)
Definition main_block (params : Params)
    (threshold_255_roads threshold_255_buildings : Z) : Run ClassResults :=
  out_ds ← (ok ← engine_call (create_datasource w);
            _ ← emit (CreateDataSource_called ok); mret ok);
  if negb out_ds then raise "OGRError"
  else
    roads ← create_class_layer Roads;
    buildings ← create_class_layer Buildings;
    ex ← foldM (polygonize_raster threshold_255_roads threshold_255_buildings)
               (input_rasters params)
               {| roads_layer := roads; buildings_layer := buildings;
                  all_poly_ok_roads := true; all_poly_ok_buildings := true |};
    '(ok_r, roads) ← post_process_roads params (all_poly_ok_roads ex) (roads_layer ex);
    '(ok_b, buildings) ←
      post_process_buildings params (all_poly_ok_buildings ex) (buildings_layer ex);
    mret {| success_roads := ok_r; success_buildings := ok_b;
            final_layers := Some (roads, buildings) |}.

(** The value returned and the per-class flags and layers behind it. *)
Definition run_processing (params : Params) : Run (bool * ClassResults) :=
  let failed := {| success_roads := false; success_buildings := false;
                   final_layers := None |} in
  match threshold_255 (conf_thresh_bldg_pct params),
        threshold_255 (conf_thresh_road_pct params) with
  | Some threshold_255_buildings, Some threshold_255_roads =>
      prepared ← prepare_output params;
      if negb prepared then mret (false, failed)
      else
        target_srs ← validate_input_rasters (input_rasters params);
        match target_srs with
        | None => mret (false, failed)
        | Some target_srs =>
            _ ← (if negb (IsProjected target_srs)
                 then log_message WarnGeographic else mret tt);
            if negb (gpkg_driver w)
            then _ ← log_message ErrNoGPKG;
                 _ ← emit (QueuePut PROCESS_COMPLETE_FAILURE);
                 mret (false, failed)
            else
              res ← try_except
                      (main_block params threshold_255_roads
                         threshold_255_buildings)
                      (fun _ => _ ← log_message ErrCritical; mret failed);
              _ ← log_message (SummarySuccess Roads (success_roads res));
              _ ← log_message (SummarySuccess Buildings (success_buildings res));
              let overall_success := success_roads res && success_buildings res in
              _ ← (if overall_success
                   then _ ← log_message ProcessingComplete;
                        _ ← match final_layers res with
                            | Some (r, b) =>
                                log_message (FinalFeatureCounts
                                               (GetFeatureCount r)
                                               (GetFeatureCount b))
                            | None => mret tt
                            end;
                        emit (QueuePut PROCESS_COMPLETE_SUCCESS)
                   else _ ← log_message ProcessingFailed;
                        emit (QueuePut PROCESS_COMPLETE_FAILURE));
              mret (overall_success, res)
        end
  | _, _ => raise "ValueError"
  end.

End Orchestrator.

(** ** Vocabulary of the statements *)

(** The exact value [num / den] of a finite float. *)
Definition exact_value (x : float) : option (Z * Z) :=
  match Prim2SF x with
  | S754_zero _ => Some (0, 1)
  | S754_finite s m e =>
      let n := if s then Z.neg m else Z.pos m in
      Some (if 0 <=? e then (n * 2 ^ e, 1) else (n, 2 ^ (- e)))
  | _ => None
  end.

Definition clamp_255 (z : Z) : Z := Z.max 0 (Z.min 255 z).

(** A driver call that raises under [UseExceptions]. *)
Definition failing (ev : Event) : bool :=
  match ev with
  | StartTransaction_called err | DeleteFeature_called _ err
  | SetGeometry_called _ err | CreateFeature_called _ err
  | CommitTransaction_called err | RollbackTransaction_called err
  | CreateField_called err | DeleteDataSource_called err =>
      negb (err =? OGRERR_NONE)
  | _ => false
  end.

(** The exceptions C1 speaks of: raised by a call of the clearing loop or
    of the adding block (the commit included). *)
Definition raises_in_rewrite (ev : Event) : bool :=
  match ev with
  | DeleteFeature_called _ err | SetGeometry_called _ err
  | CreateFeature_called _ err | CommitTransaction_called err =>
      negb (err =? OGRERR_NONE)
  | _ => false
  end.


(** [traced E Q m]: every event of [m] satisfies [E], and every event
    satisfies [Q] as well when [m] returns. *)
Definition traced (E Q : Event -> Prop) {X} (m : Run X) : Prop :=
  Forall E m.1 /\ forall x, m.2 = Returned x -> Forall Q m.1.

(** The fields [set_fields] leaves on a fresh feature: the attributes that
    name a field of the schema and carry a field value. *)
Definition stored_fields (layer_defn : list string)
    (attrs : gmap string PyValue) : gmap string FieldValue :=
  omap (fun v => match v with PyField x => Some x | _ => None end)
       (filter (fun kv => kv.1 ∈ layer_defn) attrs).

(** The geometry of a candidate the adding loop does not skip. *)
Definition kept_geometry (data : FeatureData) : option Geometry :=
  match data_geom data with
  | Some g => if IsEmpty g then None else Some g
  | None => None
  end.

(** The early exit of [clear_and_repopulate_layer]: nothing to clear and
    nothing to add. *)
Definition no_op (layer : Layer) (features_data : list FeatureData) : Prop :=
  layer_features layer = [] /\ features_data = [].

(** What one [SetField] of the loop does to the stored fields. *)
Definition set_field_pure (layer_defn : list string)
    (m : gmap string FieldValue) (item : string * PyValue)
  : gmap string FieldValue :=
  if bool_decide (item.1 ∈ layer_defn)
  then match item.2 with
       | PyField v => <[item.1 := v]> m
       | PyNone => delete item.1 m
       | PyObject => m
       end
  else m.

(** The events of the clearing block and of the adding loop. *)
Definition clear_event (ev : Event) : bool :=
  match ev with
  | StartTransaction_called _ | DeleteFeature_called _ _
  | Log (WarnDeletedCount _ _) => true
  | _ => false
  end.

Definition add_loop_event (ev : Event) : bool :=
  match ev with
  | SetGeometry_called _ _ | CreateFeature_called _ _
  | Log (WarnSetFieldFailed _) | Log WarnSetGeometryFailed
  | Log WarnCreateFailed => true
  | _ => false
  end.

(** What one iteration of the adding loop does to the layer when its
    calls succeed. *)
Definition add_pure (layer_defn : list string) (work : Layer)
    (data : FeatureData) : Layer :=
  match kept_geometry data with
  | Some g =>
      create_feature
        {| FID := -1; geometry := Some g;
           fields := stored_fields layer_defn (data_attributes data) |} work
  | None => work
  end.

(** The layer a rewrite leaves when every driver call succeeds. *)
Definition rewritten (layer : Layer) (features_data : list FeatureData) : Layer :=
  foldl (add_pure (layer_defn layer))
        (with_features layer [] (next_fid layer)) features_data.

(** The number of candidates the adding loop does not skip. *)
Definition kept_candidates (features_data : list FeatureData) : Z :=
  Z.of_nat (length (omap kept_geometry features_data)).

(** The four ways a call of [clear_and_repopulate_layer] can go. *)
Inductive rewrite_case (drv : Driver) (layer : Layer) (features_data : list FeatureData)
    (t : list Event) (o : Outcome (bool * Layer)) : Prop :=
| case_no_op :
    no_op layer features_data ->
    t = [Log SkipRewriteEmpty] -> o = Returned (true, layer) ->
    rewrite_case drv layer features_data t o
| case_no_transaction e :
    ~ no_op layer features_data ->
    start_err drv <> OGRERR_NONE -> o = Raised e ->
    t = [Log (Repopulating (GetFeatureCount layer)
                (Z.of_nat (length features_data)));
         StartTransaction_called (start_err drv);
         RollbackTransaction_called OGRERR_FAILURE] ->
    rewrite_case drv layer features_data t o
| case_rolled_back :
    ~ no_op layer features_data ->
    o = Returned (false, layer) ->
    RollbackTransaction_called OGRERR_NONE ∈ t ->
    Log ErrClearing ∈ t \/ Log ErrAdding ∈ t ->
    CommitTransaction_called OGRERR_NONE ∉ t ->
    (forall a k, Log (WarnAddedCount a k) ∉ t) ->
    rewrite_case drv layer features_data t o
| case_committed :
    ~ no_op layer features_data ->
    o = Returned (true, rewritten layer features_data) ->
    CommitTransaction_called OGRERR_NONE ∈ t ->
    Forall (fun ev => failing ev = false) t ->
    (forall a k, Log (WarnAddedCount a k) ∈ t
                 <-> a = kept_candidates features_data
                     /\ k = Z.of_nat (length features_data) /\ a <> k) ->
    rewrite_case drv layer features_data t o.

(** ** Example data *)

Definition vertex (x y : float) : Vertex := {| vx := x; vy := y; vz := None |}.

Definition unit_square : Geometry :=
  Polygon [LinearRing [vertex 0 0; vertex 1 0; vertex 1 1; vertex 0 1;
                       vertex 0 0]].

(** A self-intersecting ring. *)
Definition bow_tie : Geometry :=
  Polygon [LinearRing [vertex 0 0; vertex 2 2; vertex 2 0; vertex 0 2;
                       vertex 0 0]].

Definition triangle : Geometry :=
  Polygon [LinearRing [vertex 0 0; vertex 2 0; vertex 1 1; vertex 0 0]].

Definition degenerate_line : Geometry :=
  LineString [vertex 1 1; vertex 1 1].

Definition dn_feature (fid : Z) (g : Geometry) (dn : Z) : Feature :=
  {| FID := fid; geometry := Some g; fields := {[ "DN" := FInteger dn ]} |}.

Definition dn_layer (fs : list Feature) : Layer :=
  {| layer_defn := ["DN"]; GetGeomType := wkbMultiPolygon_type;
     layer_features := fs; next_fid := 1 + Z.of_nat (length fs) |}.

(** A layer whose schema has no DN field. *)
Definition bare_layer (fs : list Feature) : Layer :=
  {| layer_defn := []; GetGeomType := wkbMultiPolygon_type;
     layer_features := fs; next_fid := 1 + Z.of_nat (length fs) |}.

Definition dn_candidate (g : option Geometry) (dn : Z) : FeatureData :=
  {| data_geom := g; data_attributes := {[ "DN" := PyField (FInteger dn) ]} |}.

(** A driver whose [CreateFeature] fails on the second candidate. *)
Definition second_create_fails : Driver :=
  {| start_err := OGRERR_NONE; delete_err := fun _ => OGRERR_NONE;
     set_geometry_err := fun _ => OGRERR_NONE;
     create_err := fun i => if (i =? 1)%nat then OGRERR_FAILURE else OGRERR_NONE;
     commit_err := OGRERR_NONE |}.

(** ** Vocabulary of the stage properties *)

(** What the layer stores of a feature besides its FID. *)
Definition content (f : Feature) : option Geometry * gmap string FieldValue :=
  (geometry f, fields f).

(** The content a rewrite stores for a candidate, if it stores it. *)
Definition written (layer_defn : list string) (d : FeatureData)
  : option (option Geometry * gmap string FieldValue) :=
  g ← kept_geometry d;
  Some (Some g, stored_fields layer_defn (data_attributes d)).

(** The stage kept feature [f] as [f']: every field of the schema reads
    the same. *)
Definition same_attributes (layer_defn : list string) (f' f : Feature) : Prop :=
  forall name, name ∈ layer_defn -> GetField f' name = GetField f name.

Section RepairVocabulary.
Context `{GeometryEngine}.

(** A member of a repaired collection that the extraction loop takes. *)
Definition valid_polygon_member (part : Geometry) : bool :=
  negb (IsEmpty part)
  && bool_decide (GT_Flatten (GetGeometryType part) = wkbPolygon)
  && IsValid part.

(** The decision table of the repair stage on a multi-polygon layer. *)
Definition repair_decision (geom : option Geometry) : option Geometry :=
  match geom with
  | None => None
  | Some g =>
      if IsEmpty g then None
      else if IsValid g then Some g
      else
        match MakeValid g with
        | Returned (Some r) =>
            if IsEmpty r then None
            else
              match r with
              | MultiPolygon _ => if IsValid r then Some r else None
              | GeometryCollection members =>
                  let extracted := filter (fun p => valid_polygon_member p = true) members in
                  match extracted with
                  | [] => None
                  | _ :: _ =>
                      if IsValid (MultiPolygon extracted)
                      then Some (MultiPolygon extracted) else None
                  end
              | _ => None
              end
        | _ => None
        end
  end.

(** How a geometry kept by the repair stage relates to the geometry [g0]
    the feature had before. *)
Definition repair_provenance (g0 g : Geometry) : Prop :=
  (IsValid g0 = true /\ g = g0)
  \/ (IsValid g0 = false
      /\ exists r, MakeValid g0 = Returned (Some r)
                   /\ (g = r
                       \/ GT_Flatten (GetGeometryType r) = wkbGeometryCollection)).

(** The predicate of the DN filter. *)
Definition dn_keeps (keep_dn_value : Z) (f : Feature) : bool :=
  py_eq_int (GetField f "DN") keep_dn_value
  && match geometry f with
     | Some g => negb (IsEmpty g) && IsValid g
     | None => false
     end.

End RepairVocabulary.

(** The candidate the repair stage makes of a feature on a multi-polygon
    layer, and the content the layer stores for it. *)
Definition repair_candidate `{GeometryEngine} (field_names : list string)
    (f : Feature) : option FeatureData :=
  g ← repair_decision (geometry f);
  Some {| data_geom := Some g; data_attributes := read_attrs field_names f |}.

Definition repaired_content `{GeometryEngine} (field_names : list string)
    (f : Feature) : option (option Geometry * gmap string FieldValue) :=
  g ← repair_decision (geometry f);
  Some (Some g, stored_fields field_names (read_attrs field_names f)).

(** ** A small geometry engine for the examples *)

Definition same_vertex (u v : Vertex) : bool :=
  ((vx u =? vx v) && (vy u =? vy v))%float.

Fixpoint same_vertices (p q : list Vertex) : bool :=
  match p, q with
  | [], [] => true
  | u :: p', v :: q' => same_vertex u v && same_vertices p' q'
  | _, _ => false
  end.

(** Same polygon with a single ring. *)
Definition same_simple_polygon (a b : Geometry) : bool :=
  match a, b with
  | Polygon [LinearRing p], Polygon [LinearRing q] => same_vertices p q
  | _, _ => false
  end.

(** Everything is valid except the bow tie, which repairs into a
    collection of one triangle and one degenerate line; simplification
    returns its argument; a polygon has the area of its vertex count. *)
#[export] Instance toy_engine : GeometryEngine := {|
  IsValid g := negb (same_simple_polygon g bow_tie);
  MakeValid g :=
    if same_simple_polygon g bow_tie
    then Returned (Some (GeometryCollection [triangle; degenerate_line]))
    else Returned (Some g);
  SimplifyPreserveTopology g _ := Returned (Some g);
  Area g :=
    match g with
    | Polygon [LinearRing p] => Returned (Py.float_of_int (Z.of_nat (length p)))
    | _ => Raised "RuntimeError"
    end;
|}.

(** A layer holding the invalid bow tie and the valid unit square. *)
Definition repair_example : Layer :=
  dn_layer [dn_feature 1 bow_tie 1; dn_feature 2 unit_square 1].

(** The same layer after the repair stage under [toy_engine]. *)
Definition repaired_example : Layer :=
  {| layer_defn := ["DN"]; GetGeomType := wkbMultiPolygon_type;
     layer_features := [dn_feature 3 (MultiPolygon [triangle]) 1;
                        dn_feature 4 unit_square 1];
     next_fid := 5 |}.

(** The candidate the DN filter makes of a feature it keeps. *)
Definition dn_candidate_of (field_names : list string) (f : Feature)
  : FeatureData :=
  {| data_geom := Clone <$> geometry f;
     data_attributes := read_attrs field_names f |}.

(** [f'] is feature [f] as a stage kept it, geometry included. *)
Definition same_feature (layer_defn : list string) (f' f : Feature) : Prop :=
  geometry f' = geometry f /\ same_attributes layer_defn f' f.

(** ** Vocabulary of the orchestrator properties *)

Definition creates_output (ev : Event) : bool :=
  match ev with CreateDataSource_called _ => true | _ => false end.

(** An event of one of the post-processing stages or of a rewrite. *)
Definition stage_event (ev : Event) : bool :=
  match ev with
  | Log (StageApplying _) | Log (StageSkipped _) | Log (StageLayerEmpty _)
  | Log (StageFinished _) | Log (GlobalPostProcessing _)
  | StartTransaction_called _ | DeleteFeature_called _ _
  | SetGeometry_called _ _ | CreateFeature_called _ _
  | CommitTransaction_called _ | RollbackTransaction_called _ => true
  | _ => false
  end.

(** The CRS descriptor the validation reads from a raster that passes its
    own checks (it opens, has a usable projection and two bands). *)
Definition crs_of `{SpatialRef} (w : World) (path : string) : option SRS :=
  match (validated_info w path).2 with
  | Returned info => Some (info_srs info)
  | Raised _ => None
  end.

(** No pixel of the band reaches the cutoff. *)
Definition below_cutoff (threshold_value : Z) (band_array : list (list Z)) : Prop :=
  Forall (Forall (fun pixel => pixel < threshold_value)) band_array.

(** ** A small world for the examples *)

(** SRS descriptors are their WKT strings. *)
#[export] Instance toy_srs : SpatialRef := {|
  SRS := string;
  empty_SRS := "";
  ImportFromWkt wkt := Returned wkt;
  ExportToWkt srs := Returned srs;
  IsSame a b := String.eqb a b;
  IsProjected _ := true;
|}.

Definition toy_raster (wkt : string) (band1 band2 : list (list Z)) : RasterDS :=
  {| RasterCount := 2; GetProjection := wkt; GetProjectionRef := wkt;
     GetGeoTransform := [0; 10; 0; 0; 0; -10];
     GetRasterBand := fun n =>
       if n =? 1 then Some {| ReadAsArray := Returned (Some band1) |}
       else if n =? 2 then Some {| ReadAsArray := Returned (Some band2) |}
       else None |}.

(** One region per raster that has a pixel of the mask. *)
Definition toy_extractor : Extractor :=
  {| mem_create := Returned true;
     Polygonize := fun mask => Returned (0, [(unit_square, 1)]) |}.

Definition toy_world (files : string -> option RasterDS) : World :=
  {| output_dir_exists := true; makedirs_ok := true; output_exists := false;
     gpkg_driver := true; delete_datasource_err := OGRERR_NONE; remove_ok := true;
     open_for_validation := fun p => Returned (files p);
     open_for_processing := fun p => Returned (files p);
     create_datasource := Returned true;
     create_layer := fun _ => Returned true;
     create_field_err := fun _ => OGRERR_NONE;
     extractor := toy_extractor;
     layer_driver := fun _ => healthy_driver |}.

Definition toy_params (paths : list string) : Params :=
  {| input_rasters := paths; output_dir := "out"; output_name := "v.gpkg";
     force := false;
     conf_thresh_bldg_pct := 40; simplify_bldg := 1; min_area_bldg := 2;
     conf_thresh_road_pct := 40; simplify_road := 1.5; min_area_road := 2;
     smooth_roads_chaikin := 0 |}.

(** Two rasters in different CRS. *)
Definition two_crs_files (path : string) : option RasterDS :=
  if String.eqb path "a.tif" then Some (toy_raster "EPSG:32633" [[0; 200]] [[0; 0]])
  else if String.eqb path "b.tif" then Some (toy_raster "EPSG:4326" [[0; 200]] [[0; 0]])
  else None.

(** One raster whose road band is all zero and whose building band has
    one pixel above the cutoff. *)
Definition no_roads_files (path : string) : option RasterDS :=
  if String.eqb path "a.tif" then Some (toy_raster "EPSG:32633" [[0; 0]; [0; 0]] [[0; 0]; [0; 250]])
  else None.



(** The state of the extraction loop before the first raster. *)
Definition fresh_extraction (roads buildings : Layer) : Extraction :=
  {| roads_layer := roads; buildings_layer := buildings;
     all_poly_ok_roads := true; all_poly_ok_buildings := true |}.

(** ** Vocabulary of the further stage properties *)

(** The feature has a geometry and it is not empty. *)
Definition has_geometry (f : Feature) : bool :=
  match geometry f with
  | Some g => negb (IsEmpty g)
  | None => false
  end.

(** The candidates of a list that the adding loop of the rewrite does not
    skip. *)
Definition stored_candidates (features_data : list FeatureData)
  : list FeatureData :=
  filter (fun d => is_Some (kept_geometry d)) features_data.

Section StageVocabulary.
Context `{GeometryEngine}.

(** The test of the area filter (lines 253-265): a non-empty geometry
    whose area is computed and is at least [min_area]. *)
Definition area_keeps (min_area : float) (f : Feature) : bool :=
  match geometry f with
  | Some g =>
      negb (IsEmpty g)
      && match Area g with
         | Returned area => (min_area <=? area)%float
         | Raised _ => false
         end
  | None => false
  end.

(** The geometry the simplification stage hands to the rewrite for a
    feature with geometry [g] (lines 200-210): the simplified geometry,
    or [g] itself when the simplifier raises or returns nothing or an
    empty geometry. *)
Definition simplified_geometry (tolerance : float) (g : Geometry) : Geometry :=
  match SimplifyPreserveTopology g tolerance with
  | Returned (Some simplified) => if IsEmpty simplified then g else simplified
  | _ => g
  end.

Definition simplify_keeps (tolerance : float) (f : Feature) : bool :=
  match geometry f with
  | Some g => negb (IsEmpty (simplified_geometry tolerance g))
  | None => false
  end.

(** How the geometry [g'] written by the smoothing stage relates to the
    geometry [g] the feature had: it is [g] itself, or it is valid. *)
Definition smoothing_result (g g' : Geometry) : Prop :=
  IsEmpty g' = false /\ (g' = g \/ IsValid g' = true).

End StageVocabulary.

(** ** Vocabulary of the repair counters *)

Section RepairCounters.
Context `{GeometryEngine}.

(** A non-empty geometry the engine finds valid / invalid. *)
Definition geom_valid (geom : option Geometry) : bool :=
  match geom with
  | Some g => negb (IsEmpty g) && IsValid g
  | None => false
  end.

Definition geom_invalid (geom : option Geometry) : bool :=
  match geom with
  | Some g => negb (IsEmpty g) && negb (IsValid g)
  | None => false
  end.

(** An invalid geometry on which [MakeValid] raises. *)
Definition geom_crashes (geom : option Geometry) : bool :=
  match geom with
  | Some g =>
      negb (IsEmpty g) && negb (IsValid g)
      && match MakeValid g with
         | Raised _ => true
         | Returned _ => false
         end
  | None => false
  end.

(** How many features of a list satisfy a test on their geometry. *)
Definition count_features (test : option Geometry -> bool) (fs : list Feature)
  : Z :=
  Z.of_nat (length (filter (fun f => test (geometry f) = true) fs)).

End RepairCounters.

(** An engine whose [MakeValid] raises on the bow tie; otherwise as
    [toy_engine]. *)
Definition crashing_engine : GeometryEngine := {|
  IsValid g := negb (same_simple_polygon g bow_tie);
  MakeValid g :=
    if same_simple_polygon g bow_tie then Raised "RuntimeError"
    else Returned (Some g);
  SimplifyPreserveTopology g _ := Returned (Some g);
  Area g := Raised "RuntimeError";
|}.

(** ** Vocabulary of the further orchestrator properties *)

(** A message put on the queue by [logger_queue.put] directly: one of
    the two completion signals the GUI waits for. *)
Definition is_signal (ev : Event) : bool :=
  match ev with QueuePut _ => true | _ => false end.

(** The completion signals of a trace, in order. *)
Definition completion_signals (t : list Event) : list string :=
  omap (fun ev => match ev with QueuePut s => Some s | _ => None end) t.

(** A call that removes, creates or writes the output GeoPackage: the
    data source deleted or created, the file removed, fields and features
    written, transactions. *)
Definition touches_output (ev : Event) : bool :=
  match ev with
  | DeleteDataSource_called _ | remove_called _ | CreateDataSource_called _
  | CreateField_called _ | StartTransaction_called _ | DeleteFeature_called _ _
  | SetGeometry_called _ _ | CreateFeature_called _ _
  | CommitTransaction_called _ | RollbackTransaction_called _ => true
  | _ => false
  end.

(** The validation cannot accept the raster at [path]: it does not open,
    or it has fewer than two bands. *)
Definition unusable_raster (w : World) (path : string) : Prop :=
  (exists e, open_for_validation w path = Raised e)
  \/ open_for_validation w path = Returned None
  \/ exists ds, open_for_validation w path = Returned (Some ds)
                /\ RasterCount ds < 2.

(** The raster at [path] does not open when the extraction loop reaches
    it. *)
Definition unreadable_raster (w : World) (path : string) : Prop :=
  (exists e, open_for_processing w path = Raised e)
  \/ open_for_processing w path = Returned None.

(** A raster with a single band, and a world whose second file is
    missing. *)
Definition one_band_raster : RasterDS :=
  {| RasterCount := 1; GetProjection := "EPSG:32633";
     GetProjectionRef := "EPSG:32633";
     GetGeoTransform := [0; 10; 0; 0; 0; -10];
     GetRasterBand := fun n =>
       if n =? 1 then Some {| ReadAsArray := Returned (Some [[0; 200]]) |}
       else None |}.

Definition one_band_files (path : string) : option RasterDS :=
  if String.eqb path "a.tif" then Some (toy_raster "EPSG:32633" [[0; 200]] [[0; 0]])
  else if String.eqb path "b.tif" then Some one_band_raster
  else None.

(** The small world with the output file already there. *)
Definition existing_output_world : World :=
  {| output_dir_exists := true; makedirs_ok := true; output_exists := true;
     gpkg_driver := true; delete_datasource_err := OGRERR_NONE; remove_ok := true;
     open_for_validation := fun p => Returned (no_roads_files p);
     open_for_processing := fun p => Returned (no_roads_files p);
     create_datasource := Returned true;
     create_layer := fun _ => Returned true;
     create_field_err := fun _ => OGRERR_NONE;
     extractor := toy_extractor;
     layer_driver := fun _ => healthy_driver |}.

(** The small world in which the files can be validated but no longer
    open when the extraction loop reaches them. *)
Definition vanishing_files_world : World :=
  {| output_dir_exists := true; makedirs_ok := true; output_exists := false;
     gpkg_driver := true; delete_datasource_err := OGRERR_NONE; remove_ok := true;
     open_for_validation := fun p => Returned (no_roads_files p);
     open_for_processing := fun p => Returned None;
     create_datasource := Returned true;
     create_layer := fun _ => Returned true;
     create_field_err := fun _ => OGRERR_NONE;
     extractor := toy_extractor;
     layer_driver := fun _ => healthy_driver |}.

(** A call that creates or writes the output GeoPackage (the removal of
    an existing one apart). *)
Definition writes_output (ev : Event) : bool :=
  match ev with
  | CreateDataSource_called _ | CreateField_called _
  | StartTransaction_called _ | DeleteFeature_called _ _
  | SetGeometry_called _ _ | CreateFeature_called _ _
  | CommitTransaction_called _ | RollbackTransaction_called _ => true
  | _ => false
  end.

(** The parameters of the examples with the force flag set. *)
Definition forced_params (paths : list string) : Params :=
  {| input_rasters := paths; output_dir := "out"; output_name := "v.gpkg";
     force := true;
     conf_thresh_bldg_pct := 40; simplify_bldg := 1; min_area_bldg := 2;
     conf_thresh_road_pct := 40; simplify_road := 1.5; min_area_road := 2;
     smooth_roads_chaikin := 0 |}.

(** A layer at two moments of the extraction loop: the later one
    extends the earlier one. *)
Definition layer_extends (layer layer' : Layer) : Prop :=
  layer_features layer `prefix_of` layer_features layer'
  /\ layer_defn layer' = layer_defn layer
  /\ GetGeomType layer' = GetGeomType layer.

(** ** Vocabulary: the layer a stage leaves, feature by feature *)

Section KeptVocabulary.
Context `{GeometryEngine}.

(** The geometry the repair stage keeps for a feature, if it keeps the
    feature: the decision of lines 522-580, as [fix_geometry] takes it. *)
Definition repair_result (target_geom_type : wkbGeometryType) (f : Feature)
  : option Geometry :=
  match (fix_geometry target_geom_type (FID f) (geometry f) no_counts).2 with
  | Returned (final_geom, _) => final_geom
  | Raised _ => None
  end.

Definition repair_keeps (target_geom_type : wkbGeometryType) (f : Feature)
  : bool :=
  match repair_result target_geom_type f with
  | Some _ => true
  | None => false
  end.

(** The geometry the smoothing stage writes for a feature (lines 368-477,
    as [smooth_geometry] computes it). *)
Definition smoothing_output (iterations : Z) (f : Feature) : option Geometry :=
  match (smooth_geometry iterations (FID f) (geometry f)).2 with
  | Returned processed_geom => processed_geom
  | Raised _ => None
  end.

End KeptVocabulary.

(** [layer'] is what a stage leaves of [layer] when it keeps the features
    that [keep] selects and writes the geometry [made f] for the feature
    [f]: the schema is the same, and the layer holds, in order, one
    feature for each selected feature of [layer] and no other; that
    feature reads as [f] on every field of the schema and its geometry is
    [made f]. *)
Definition stage_result (keep : Feature -> bool)
    (made : Feature -> option Geometry) (layer layer' : Layer) : Prop :=
  layer_defn layer' = layer_defn layer
  /\ Forall2 (fun f' f => same_attributes (layer_defn layer) f' f
                          /\ geometry f' = made f)
             (layer_features layer')
             (filter (fun f => keep f = true) (layer_features layer)).

(** ** A comparison of descriptors that is coarser than equality *)

(** The text of a descriptor up to its first space: its code, the rest
    being a name. *)
Fixpoint srs_code (wkt : string) : string :=
  match wkt with
  | EmptyString => EmptyString
  | String c rest =>
      if Ascii.eqb c Ascii.Space then EmptyString else String c (srs_code rest)
  end.

(** Descriptors are their WKT strings, and [IsSame] compares what the
    descriptors define (their code), not how they are written. *)
Definition lenient_srs : SpatialRef := {|
  SRS := string;
  empty_SRS := "";
  ImportFromWkt wkt := Returned wkt;
  ExportToWkt srs := Returned srs;
  IsSame a b := String.eqb (srs_code a) (srs_code b);
  IsProjected _ := true;
|}.

(** Two rasters whose descriptors name the same system differently. *)
Definition renamed_crs_files (path : string) : option RasterDS :=
  if String.eqb path "a.tif"
  then Some (toy_raster "EPSG:32633 WGS_1984_UTM_Zone_33N" [[0; 200]] [[0; 0]])
  else if String.eqb path "b.tif"
  then Some (toy_raster "EPSG:32633 UTM33N" [[0; 200]] [[0; 0]])
  else None.

(** * Properties *)

(** ** Thresholder *)

(** [int()] is truncation toward zero of the exact value. *)
Lemma int_of_float_quot x :
  Py.int_of_float x = (fun nd => Z.quot nd.1 nd.2) <$> exact_value x.
Proof.
  unfold Py.int_of_float, exact_value.
  destruct (Prim2SF x) as [s|s| |s m e]; try reflexivity.
  cbn. f_equal. destruct (Z.leb_spec 0 e) as [He|He]; cbn.
  - rewrite Z.quot_1_r. destruct s; cbn; lia.
  - assert (Hd : 0 < 2 ^ (- e)) by (apply Z.pow_pos_nonneg; lia).
    destruct s.
    + change (Z.neg m) with (- Z.pos m).
      rewrite Z.quot_opp_l by lia. f_equal.
      rewrite Z.quot_div_nonneg by lia. reflexivity.
    + rewrite Z.quot_div_nonneg by lia. reflexivity.
Qed.

Lemma clamp_255_range z : 0 <= clamp_255 z <= 255.
Proof. unfold clamp_255. lia. Qed.

Lemma thresholded_cell_spec c pixel : thresholded_cell c pixel = 1 <-> c <= pixel.
Proof.
  unfold thresholded_cell. destruct (Z.leb_spec c pixel); split; intros; lia || easy.
Qed.

(** Rounding and truncation of the same float differ by at most one, and
    clamping keeps that. *)
Lemma round_vs_int x z r :
  Py.int_of_float x = Some z -> Py.round x = Some r ->
  clamp_255 z <= clamp_255 r <= clamp_255 z + 1.
Proof.
  unfold Py.int_of_float, Py.round, clamp_255.
  destruct (Prim2SF x) as [s|s| |s m e]; try discriminate.
  - intros [= <-] [= <-]. lia.
  - intros [= <-] [= <-].
    destruct (Z.leb_spec 0 e) as [He|He].
    + destruct s; lia.
    + assert (Hd : 0 < 2 ^ (- e)) by (apply Z.pow_pos_nonneg; lia).
      pose proof (Z.div_pos (Z.pos m) (2 ^ (- e)) ltac:(lia) Hd) as Hq.
      cbv zeta.
      destruct (Z.ltb_spec (2 * (Z.pos m mod 2 ^ (- e))) (2 ^ (- e)));
        [destruct s; lia|].
      destruct (Z.ltb_spec (2 ^ (- e)) (2 * (Z.pos m mod 2 ^ (- e))));
        [destruct s; lia|].
      destruct (Z.even (Z.pos m / 2 ^ (- e))); destruct s; lia.
Qed.

(** C3 (as stated, refuted): at 45 percent the product is 114.75, the
    program's cutoff is 114 and [clamp(round(..))] is 115. *)
Lemma C3_round_counterexample :
  threshold_255 45 = Some 114 /\ spec_cutoff 45 = Some 115 /\
  threshold_255 45 <> spec_cutoff 45.
Proof. repeat split; [vm_compute; reflexivity ..|]. vm_compute. discriminate. Qed.

(** C3 (amended): for every percentage on which [int()] is defined, the
    cutoff is [clamp(trunc(percent / 100 * 255), 0, 255)] with [trunc] the
    truncation toward zero of the exact product; it lies in [0, 255] and is
    at most one below the rounded cutoff; a pixel is in the mask iff its
    value is at least the cutoff; for 40 percent the cutoff is 102, so 101
    is excluded and 102 included. *)
Theorem C3_cutoff_truncates (percent : float) (cutoff : Z) :
  threshold_255 percent = Some cutoff ->
  (exists num den, exact_value (percent / 100 * 255)%float = Some (num, den)
                   /\ cutoff = clamp_255 (Z.quot num den))
  /\ 0 <= cutoff <= 255
  /\ (forall r, spec_cutoff percent = Some r -> cutoff <= r <= cutoff + 1)
  /\ (forall pixel, thresholded_cell cutoff pixel = 1 <-> cutoff <= pixel)
  /\ threshold_255 40 = Some 102
  /\ thresholded_cell 102 101 = 0 /\ thresholded_cell 102 102 = 1.
Proof.
  unfold threshold_255. intros Hc.
  destruct (Py.int_of_float (percent / 100 * 255)%float) as [z|] eqn:Hz;
    [|discriminate].
  cbn in Hc. injection Hc as <-.
  split.
  { rewrite int_of_float_quot in Hz.
    destruct (exact_value (percent / 100 * 255)%float) as [[num den]|];
      [|discriminate].
    cbn in Hz. injection Hz as <-. exists num, den. split; reflexivity. }
  split; [apply clamp_255_range|].
  split.
  { unfold spec_cutoff. intros r Hr.
    destruct (Py.round (percent / 100 * 255)%float) as [r'|] eqn:Hr';
      [|discriminate].
    cbn in Hr. injection Hr as <-.
    apply (round_vs_int _ _ _ Hz Hr'). }
  split; [intros pixel; apply thresholded_cell_spec|].
  repeat split; vm_compute; reflexivity.
Qed.

Lemma C3_cutoff_truncates_witness :
  threshold_255 40 = Some 102 /\
  (forall pixel, thresholded_cell 102 pixel = 1 <-> 102 <= pixel).
Proof.
  assert (H40 : threshold_255 40 = Some 102) by (vm_compute; reflexivity).
  split; [exact H40|].
  exact (proj1 (proj2 (proj2 (proj2 (C3_cutoff_truncates 40 102 H40))))).
Defined.

(** ** Chaikin corner cutting *)

Section ChaikinFacts.

Lemma chaikin_emit_inside (P : list point) i p q :
  P !! i = Some p -> P !! S i = Some q ->
  chaikin_emit P i = [chaikin_r p q; chaikin_q p q].
Proof. unfold chaikin_emit. intros -> ->. reflexivity. Qed.

Lemma chaikin_emit_length (P : list point) i :
  (S i < length P)%nat -> length (chaikin_emit P i) = 2%nat.
Proof.
  intros Hi.
  destruct (lookup_lt_is_Some_2 P i ltac:(lia)) as [p Hp].
  destruct (lookup_lt_is_Some_2 P (S i) Hi) as [q Hq].
  now rewrite (chaikin_emit_inside P i p q).
Qed.

(** Segments [a, a+1, ..] each emit two points, in segment order. *)
Lemma emitted_length (P : list point) m a :
  (a + m < length P)%nat ->
  length (flat_map (chaikin_emit P) (seq a m)) = (2 * m)%nat.
Proof.
  revert a. induction m as [|m IH]; intros a Ha; [reflexivity|].
  cbn [seq flat_map]. rewrite length_app, IH by lia.
  rewrite chaikin_emit_length by lia. lia.
Qed.

Lemma emitted_lookup (P : list point) m a i j :
  (a + m < length P)%nat -> (i < m)%nat -> (j < 2)%nat ->
  flat_map (chaikin_emit P) (seq a m) !! (2 * i + j)%nat
  = chaikin_emit P (a + i) !! j.
Proof.
  revert a i. induction m as [|m IH]; intros a i Ha Hi Hj; [lia|].
  cbn [seq flat_map].
  pose proof (chaikin_emit_length P a ltac:(lia)) as Hlen.
  destruct i as [|i].
  - rewrite lookup_app_l by lia. now rewrite Nat.add_0_r.
  - rewrite lookup_app_r by lia. rewrite Hlen.
    replace (2 * S i + j - 2)%nat with (2 * i + j)%nat by lia.
    rewrite IH by lia.
    replace (S a + i)%nat with (a + S i)%nat by lia. reflexivity.
Qed.

Lemma temp_ring_pts_length (P : list point) :
  length (temp_ring_pts P) = (2 * (length P - 1))%nat.
Proof.
  unfold temp_ring_pts. destruct P as [|p P]; [reflexivity|].
  apply emitted_length. cbn. lia.
Qed.

Lemma temp_ring_pts_lookup (P : list point) i p q :
  P !! i = Some p -> P !! S i = Some q ->
  temp_ring_pts P !! (2 * i)%nat = Some (chaikin_r p q)
  /\ temp_ring_pts P !! (2 * i + 1)%nat = Some (chaikin_q p q).
Proof.
  intros Hp Hq. pose proof (lookup_lt_Some _ _ _ Hq) as Hlt.
  unfold temp_ring_pts. split.
  - replace (2 * i)%nat with (2 * i + 0)%nat by lia.
    rewrite emitted_lookup by lia. cbn.
    now rewrite (chaikin_emit_inside P i p q).
  - rewrite emitted_lookup by lia. cbn.
    now rewrite (chaikin_emit_inside P i p q).
Qed.

(** One pass on at least two points: the emitted points followed by a
    copy of the first of them. *)
Lemma chaikin_pass_some (P : list point) :
  (2 <= length P)%nat ->
  exists first, head (temp_ring_pts P) = Some first
                /\ chaikin_pass P = Some (temp_ring_pts P ++ [first]).
Proof.
  intros Hn. unfold chaikin_pass.
  pose proof (temp_ring_pts_length P) as Hl.
  destruct (temp_ring_pts P) as [|first rest]; [cbn in Hl; lia|].
  exists first. split; reflexivity.
Qed.

Lemma chaikin_pass_length (P new_points : list point) :
  (2 <= length P)%nat -> chaikin_pass P = Some new_points ->
  length new_points = (2 * (length P - 1) + 1)%nat.
Proof.
  intros Hn Hpass. destruct (chaikin_pass_some P Hn) as (first & _ & Heq).
  rewrite Heq in Hpass. injection Hpass as <-.
  rewrite length_app, temp_ring_pts_length. cbn. lia.
Qed.

(** The loop never logs on a sequence of at least four points, and
    after [k] passes on [n] points there are [2^k (n - 1) + 1]. *)
Lemma chaikin_loop_quiet k : forall iter_num (P : list point),
  (4 <= length P)%nat ->
  (chaikin_loop k iter_num P).2 = []
  /\ length (chaikin_loop k iter_num P).1 = (2 ^ k * (length P - 1) + 1)%nat.
Proof.
  induction k as [|k IH]; intros iter_num P Hn.
  - cbn. split; [reflexivity|lia].
  - cbn [chaikin_loop].
    destruct (Nat.ltb_spec (length P) 4) as [Hlt|_]; [lia|].
    destruct (chaikin_pass_some P ltac:(lia)) as (first & _ & Heq).
    rewrite Heq.
    assert (Hlen : length (temp_ring_pts P ++ [first])
                   = (2 * (length P - 1) + 1)%nat).
    { rewrite length_app, temp_ring_pts_length. cbn. lia. }
    destruct (IH (S iter_num) (temp_ring_pts P ++ [first]) ltac:(lia))
      as [Hlog Hlength].
    split; [exact Hlog|]. rewrite Hlength, Hlen.
    rewrite Nat.pow_succ_r'. lia.
Qed.

End ChaikinFacts.

(** C4 (as stated, refuted): one iteration on the unit square, given as
    the closed sequence of its four corners and the closing point, returns
    9 points, not 8; given as the four corners alone it returns 7. *)
Lemma C4_unit_square_counterexample :
  length (_apply_chaikin_to_ring unit_square_ring 1).1 = 9%nat
  /\ length (_apply_chaikin_to_ring unit_square_ring 1).1 <> 8%nat
  /\ length (_apply_chaikin_to_ring [(0, 0); (1, 0); (1, 1); (0, 1)]%float 1).1
     <> 8%nat.
Proof. repeat split; vm_compute; congruence. Qed.

(** C4 (amended): for a point sequence [P] of [n >= 4] points, one
    iteration emits for every consecutive pair [(P[i], P[i+1])] the points
    [0.75 P[i] + 0.25 P[i+1]] and [0.25 P[i] + 0.75 P[i+1]], in segment
    order, and appends a copy of the first emitted point: the output has
    [2 (n - 1) + 1] points and its first and last points are equal; for the
    unit square, closed by its fifth point, that is 9 points. *)
Theorem C4_one_iteration (P : list point) :
  (4 <= length P)%nat ->
  let out := (_apply_chaikin_to_ring P 1).1 in
  (forall i p q, P !! i = Some p -> P !! S i = Some q ->
     out !! (2 * i)%nat = Some (chaikin_r p q)
     /\ out !! (2 * i + 1)%nat = Some (chaikin_q p q))
  /\ length out = (2 * (length P - 1) + 1)%nat
  /\ out !! (2 * (length P - 1))%nat = out !! 0%nat
  /\ last out = head out
  /\ is_Some (head out)
  /\ length (_apply_chaikin_to_ring unit_square_ring 1).1 = 9%nat
  /\ last (_apply_chaikin_to_ring unit_square_ring 1).1
     = head (_apply_chaikin_to_ring unit_square_ring 1).1.
Proof.
  intros Hn out.
  assert (Hout : exists first, head (temp_ring_pts P) = Some first
                               /\ out = temp_ring_pts P ++ [first]).
  { subst out. unfold _apply_chaikin_to_ring.
    destruct (Nat.ltb_spec (length P) 4) as [Hlt|_]; [lia|].
    change (Z.to_nat 1) with 1%nat. cbn [chaikin_loop].
    destruct (Nat.ltb_spec (length P) 4) as [Hlt|_]; [lia|].
    destruct (chaikin_pass_some P ltac:(lia)) as (first & Hhead & Heq).
    rewrite Heq. exists first. split; [exact Hhead|reflexivity]. }
  destruct Hout as (first & Hhead & ->).
  pose proof (temp_ring_pts_length P) as Hlen.
  assert (Hfirst : (temp_ring_pts P ++ [first]) !! 0%nat = Some first).
  { destruct (temp_ring_pts P); [discriminate|]. cbn in *. congruence. }
  split_and!.
  - intros i p q Hp Hq.
    destruct (temp_ring_pts_lookup P i p q Hp Hq) as [Hr Hq'].
    rewrite !lookup_app_l; [split; [exact Hr|exact Hq']| |].
    + now apply lookup_lt_Some in Hq'.
    + now apply lookup_lt_Some in Hr.
  - rewrite length_app, Hlen. cbn. lia.
  - rewrite Hfirst, lookup_app_r by lia.
    rewrite Hlen, Nat.sub_diag. reflexivity.
  - rewrite last_snoc. destruct (temp_ring_pts P); [discriminate|].
    cbn in *. congruence.
  - destruct (temp_ring_pts P); [discriminate|]. cbn. eauto.
  - vm_compute. reflexivity.
  - vm_compute. reflexivity.
Qed.

Lemma C4_one_iteration_witness :
  length (_apply_chaikin_to_ring unit_square_ring 1).1
  = (2 * (length unit_square_ring - 1) + 1)%nat.
Proof.
  assert (H : (4 <= length unit_square_ring)%nat) by (cbn; lia).
  exact (proj1 (proj2 (C4_one_iteration unit_square_ring H))).
Defined.

(** C9: on a point sequence of at least four points and for every
    iteration count [k >= 1], each pass turns [n >= 2] points into
    [2 (n - 1) + 1 >= n] points, the running count stays at least 4 and
    the early-stop warning of the loop is never logged. *)
Theorem C9_early_stop_unreachable (points : list point) (iterations : Z) :
  (4 <= length points)%nat -> 1 <= iterations ->
  (forall cur, (2 <= length cur)%nat ->
     exists new_points, chaikin_pass cur = Some new_points
       /\ length new_points = (2 * (length cur - 1) + 1)%nat
       /\ (length cur <= length new_points)%nat)
  /\ (_apply_chaikin_to_ring points iterations).2 = []
  /\ (forall iter_num,
        WarnChaikinBelowMinimum iter_num
        ∉ (_apply_chaikin_to_ring points iterations).2)
  /\ length (_apply_chaikin_to_ring points iterations).1
     = (2 ^ Z.to_nat iterations * (length points - 1) + 1)%nat
  /\ (4 <= length (_apply_chaikin_to_ring points iterations).1)%nat.
Proof.
  intros Hn Hk.
  assert (Hrun : _apply_chaikin_to_ring points iterations
                 = chaikin_loop (Z.to_nat iterations) 0 points).
  { unfold _apply_chaikin_to_ring.
    destruct (Nat.ltb_spec (length points) 4) as [Hlt|_]; [lia|reflexivity]. }
  destruct (chaikin_loop_quiet (Z.to_nat iterations) 0%nat points Hn)
    as [Hlog Hlen].
  rewrite Hrun.
  split; [|split; [exact Hlog|split; [|split; [exact Hlen|]]]].
  - intros cur Hcur.
    destruct (chaikin_pass_some cur Hcur) as (first & _ & Heq).
    exists (temp_ring_pts cur ++ [first]). split; [exact Heq|].
    pose proof (chaikin_pass_length cur _ Hcur Heq) as Hl.
    split; [exact Hl|lia].
  - intros iter_num. rewrite Hlog. apply not_elem_of_nil.
  - rewrite Hlen.
    assert (1 <= 2 ^ Z.to_nat iterations)%nat.
    { clear. induction (Z.to_nat iterations); cbn; lia. }
    nia.
Qed.

Lemma C9_early_stop_unreachable_witness :
  (_apply_chaikin_to_ring unit_square_ring 3).2 = []
  /\ length (_apply_chaikin_to_ring unit_square_ring 3).1 = 33%nat.
Proof.
  assert (H4 : (4 <= length unit_square_ring)%nat) by (cbn; lia).
  assert (Hk : 1 <= 3) by lia.
  pose proof (C9_early_stop_unreachable unit_square_ring 3 H4 Hk)
    as (_ & Hlog & _ & Hlen & _).
  split; [exact Hlog|exact Hlen].
Defined.

(** ** Traces of Python computations *)

Section Traces.
Context {A B : Type}.

Lemma bind_eq (m : Run A) (f : A -> Run B) :
  m ≫= f = match m with
           | (t, Returned a) => (t ++ (f a).1, (f a).2)
           | (t, Raised e) => (t, Raised e)
           end.
Proof.
  unfold mbind, run_bind. destruct m as [t [a|e]]; [|reflexivity].
  destruct (f a); reflexivity.
Qed.

Lemma bind_returned (m : Run A) (f : A -> Run B) t a :
  m = (t, Returned a) -> m ≫= f = (t ++ (f a).1, (f a).2).
Proof. intros ->. apply bind_eq. Qed.

Lemma bind_raised (m : Run A) (f : A -> Run B) t e :
  m = (t, Raised e) -> m ≫= f = (t, Raised e).
Proof. intros ->. apply bind_eq. Qed.

Lemma try_except_eq (m : Run A) (h : string -> Run A) :
  try_except m h = match m with
                   | (t, Returned a) => (t, Returned a)
                   | (t, Raised e) => (t ++ (h e).1, (h e).2)
                   end.
Proof.
  unfold try_except. destruct m as [t [a|e]]; [reflexivity|].
  destruct (h e); reflexivity.
Qed.

Lemma traced_ret E Q (a : A) : traced E Q (mret a : Run A).
Proof. split; [constructor|intros; constructor]. Qed.

Lemma traced_bind E Q (m : Run A) (f : A -> Run B) :
  traced E Q m -> (forall a, traced E Q (f a)) -> traced E Q (m ≫= f).
Proof.
  intros [HE HQ] Hf. rewrite bind_eq. destruct m as [t [a|e]]; cbn in *.
  - destruct (Hf a) as [HfE HfQ]. split.
    + apply Forall_app; split; assumption.
    + intros x Hx. apply Forall_app; split; [eapply HQ; reflexivity|eauto].
  - split; [assumption|discriminate].
Qed.

End Traces.

Lemma traced_emit E Q ev : E ev -> Q ev -> traced E Q (emit ev).
Proof. intros HE HQ. split; [|intros _ _]; repeat constructor; assumption. Qed.

Lemma traced_log E Q msg :
  E (Log msg) -> Q (Log msg) -> traced E Q (log_message msg).
Proof. apply traced_emit. Qed.

Lemma traced_raise {A} E Q e : traced E Q (raise e : Run A).
Proof. split; [constructor|discriminate]. Qed.

Lemma traced_engine_call {A} E Q (o : Outcome A) : traced E Q (engine_call o).
Proof. split; [constructor|intros; constructor]. Qed.

Lemma traced_ogr_call E Q mk err :
  E (mk err) -> (err = OGRERR_NONE -> Q (mk err)) -> traced E Q (ogr_call mk err).
Proof.
  intros HE HQ. unfold ogr_call, emit. rewrite bind_eq. cbn.
  destruct (Z.eqb_spec err OGRERR_NONE) as [->|Hne]; cbn.
  - split; [|intros _ _]; repeat constructor; auto.
  - split; [repeat constructor; auto|discriminate].
Qed.

Lemma traced_foldM {A S} E Q (f : S -> A -> Run S) l :
  (forall s a, traced E Q (f s a)) -> forall s, traced E Q (foldM f l s).
Proof.
  intros Hf. induction l as [|a l IH]; intros s; cbn [foldM].
  - apply traced_ret.
  - apply traced_bind; [apply Hf|apply IH].
Qed.

Lemma traced_try_except {A} E Q (m : Run A) h :
  traced E Q m -> (forall e, traced E Q (h e)) ->
  (forall t e, m = (t, Raised e) -> Forall Q t) ->
  traced E Q (try_except m h).
Proof.
  intros [HE HQ] Hh Hraised. rewrite try_except_eq.
  destruct m as [t [a|e]]; cbn in *.
  - split; [assumption|]. intros x _. eapply HQ; reflexivity.
  - destruct (Hh e) as [HhE HhQ]. split.
    + apply Forall_app; split; assumption.
    + intros x Hx. apply Forall_app; split; [eapply Hraised; reflexivity|eauto].
Qed.

(** Invariants of a loop that returns. *)
Lemma foldM_invariant {A S} (I : S -> Prop) (f : S -> A -> Run S) l :
  (forall s a t s', I s -> f s a = (t, Returned s') -> I s') ->
  forall s t s', I s -> foldM f l s = (t, Returned s') -> I s'.
Proof.
  intros Hf. induction l as [|a l IH]; intros s t s' Hs; cbn [foldM].
  - intros [= _ <-]. exact Hs.
  - rewrite bind_eq. destruct (f s a) as [t1 [s1|e]] eqn:Hstep; [|discriminate].
    destruct (foldM f l s1) as [t2 o2] eqn:Hrest. cbn. intros [= _ ->].
    eapply IH; [eapply Hf; eassumption|eassumption].
Qed.

(** ** The transactional rewrite *)

Lemma index_of_nonneg name names i :
  0 <= i -> (0 <= index_of name names i <-> name ∈ names).
Proof.
  revert i. induction names as [|n names IH]; intros i Hi; cbn.
  - split; [lia|]. intros Hin. now apply elem_of_nil in Hin.
  - destruct (String.eqb_spec n name) as [->|Hne].
    + split; [intros _; apply elem_of_cons; now left|lia].
    + rewrite IH by lia. rewrite elem_of_cons. split; [tauto|].
      intros [Heq|Hin]; [congruence|exact Hin].
Qed.

Lemma GetFieldIndex_nonneg layer_defn name :
  (0 <=? GetFieldIndex layer_defn name) = bool_decide (name ∈ layer_defn).
Proof.
  unfold GetFieldIndex.
  pose proof (index_of_nonneg name layer_defn 0 ltac:(lia)) as Hiff.
  destruct (Z.leb_spec 0 (index_of name layer_defn 0)) as [Hle|Hlt].
  - symmetry. apply bool_decide_eq_true. tauto.
  - symmetry. apply bool_decide_eq_false. intros Hin. apply Hiff in Hin. lia.
Qed.

Lemma set_field_step_returns layer_defn feature item :
  exists t,
    set_field_step layer_defn feature item
    = (t, Returned {| FID := FID feature; geometry := geometry feature;
                      fields := set_field_pure layer_defn (fields feature) item |})
    /\ Forall (fun ev => add_loop_event ev = true /\ failing ev = false) t.
Proof.
  unfold set_field_step, set_field_pure. cbv zeta.
  rewrite GetFieldIndex_nonneg.
  destruct (bool_decide (item.1 ∈ layer_defn)).
  - destruct item as [name [v| |]]; cbn.
    + exists []. split; [reflexivity|constructor].
    + exists []. split; [reflexivity|constructor].
    + exists [Log (WarnSetFieldFailed name)].
      split; [now destruct feature|repeat constructor].
  - exists []. split; [now destruct feature|constructor].
Qed.

Lemma set_fields_loop layer_defn items : forall feature,
  exists t feature',
    foldM (set_field_step layer_defn) items feature = (t, Returned feature')
    /\ Forall (fun ev => add_loop_event ev = true /\ failing ev = false) t
    /\ FID feature' = FID feature /\ geometry feature' = geometry feature
    /\ fields feature' = foldl (set_field_pure layer_defn) (fields feature) items.
Proof.
  induction items as [|item items IH]; intros feature; cbn [foldM foldl].
  - exists [], feature. repeat split. constructor.
  - destruct (set_field_step_returns layer_defn feature item) as (t1 & Hstep & Ht1).
    destruct (IH {| FID := FID feature; geometry := geometry feature;
                    fields := set_field_pure layer_defn (fields feature) item |})
      as (t2 & f' & Hrest & Ht2 & Hfid & Hgeom & Hfields).
    exists (t1 ++ t2), f'.
    rewrite (bind_returned _ _ _ _ Hstep), Hrest. cbn.
    repeat split; try assumption. apply Forall_app; split; assumption.
Qed.

Lemma set_field_pure_lookup layer_defn items : forall m,
  NoDup items.*1 ->
  forall k,
    foldl (set_field_pure layer_defn) m items !! k
    = match (list_to_map items : gmap string PyValue) !! k with
      | Some (PyField v) => if bool_decide (k ∈ layer_defn) then Some v else m !! k
      | Some PyNone => if bool_decide (k ∈ layer_defn) then None else m !! k
      | _ => m !! k
      end.
Proof.
  induction items as [|[name value] items IH]; intros m Hnd k; cbn.
  - now rewrite lookup_empty.
  - apply NoDup_cons in Hnd as [Hnotin Hnd]. rewrite IH by assumption.
    destruct (decide (name = k)) as [->|Hne].
    + rewrite lookup_insert_eq.
      rewrite (not_elem_of_list_to_map_1 _ k Hnotin).
      unfold set_field_pure. cbn.
      destruct (bool_decide (k ∈ layer_defn)); [|now destruct value].
      destruct value; [apply lookup_insert_eq|apply lookup_delete_eq|reflexivity].
    + rewrite lookup_insert_ne by assumption.
      assert (Hm : set_field_pure layer_defn m (name, value) !! k = m !! k).
      { unfold set_field_pure. cbn.
        destruct (bool_decide (name ∈ layer_defn)); [|reflexivity].
        destruct value; [now apply lookup_insert_ne|now apply lookup_delete_ne
                        |reflexivity]. }
      rewrite Hm. reflexivity.
Qed.

Lemma stored_fields_lookup layer_defn attrs k :
  stored_fields layer_defn attrs !! k
  = match attrs !! k with
    | Some (PyField v) => if bool_decide (k ∈ layer_defn) then Some v else None
    | _ => None
    end.
Proof.
  unfold stored_fields. rewrite lookup_omap.
  destruct (attrs !! k) as [v|] eqn:Hk.
  - destruct (decide (k ∈ layer_defn)) as [Hin|Hout].
    + rewrite (bool_decide_eq_true_2 _ Hin).
      erewrite map_lookup_filter_Some_2; [|exact Hk|exact Hin].
      cbn. now destruct v.
    + rewrite (bool_decide_eq_false_2 _ Hout).
      rewrite map_lookup_filter_None_2; [now destruct v|].
      right. intros v' Hv'. cbn. exact Hout.
  - rewrite map_lookup_filter_None_2; [reflexivity|]. now left.
Qed.

(** [set_fields] on a fresh feature always returns, logs only, and stores
    exactly [stored_fields]. *)
Lemma set_fields_fresh layer_defn feature attrs :
  fields feature = ∅ ->
  exists t feature',
    set_fields layer_defn feature attrs = (t, Returned feature')
    /\ Forall (fun ev => add_loop_event ev = true /\ failing ev = false) t
    /\ FID feature' = FID feature /\ geometry feature' = geometry feature
    /\ fields feature' = stored_fields layer_defn attrs.
Proof.
  intros Hfresh. unfold set_fields.
  destruct (set_fields_loop layer_defn (map_to_list attrs) feature)
    as (t & f' & Heq & Ht & Hfid & Hgeom & Hfields).
  exists t, f'. repeat split; try assumption.
  rewrite Hfields, Hfresh. apply map_eq. intros k.
  rewrite set_field_pure_lookup by apply NoDup_fst_map_to_list.
  rewrite list_to_map_to_list, stored_fields_lookup, lookup_empty.
  destruct (attrs !! k) as [[v| |]|]; try reflexivity;
    now destruct (bool_decide (k ∈ layer_defn)).
Qed.

Lemma filter_all {A} (P : A -> Prop) `{forall x, Decision (P x)} (l : list A) :
  (forall x, x ∈ l -> P x) -> filter P l = l.
Proof.
  induction l as [|x l IH]; intros Hall; [reflexivity|].
  rewrite filter_cons_True by (apply Hall, elem_of_cons; now left).
  f_equal. apply IH. intros y Hy. apply Hall, elem_of_cons. now right.
Qed.

Lemma filter_none {A} (P : A -> Prop) `{forall x, Decision (P x)} (l : list A) :
  (forall x, x ∈ l -> ~ P x) -> filter P l = [].
Proof.
  induction l as [|x l IH]; intros Hall; [reflexivity|].
  rewrite filter_cons_False by (apply Hall, elem_of_cons; now left).
  apply IH. intros y Hy. apply Hall, elem_of_cons. now right.
Qed.

Section RewriteFacts.
Context (drv : Driver).

Lemma ogr_call_ok mk : ogr_call mk OGRERR_NONE = ([mk OGRERR_NONE], Returned OGRERR_NONE).
Proof. reflexivity. Qed.

Lemma ogr_call_raises mk err :
  err <> OGRERR_NONE -> ogr_call mk err = ([mk err], Raised "RuntimeError").
Proof.
  intros Hne. unfold ogr_call, emit. rewrite bind_eq. cbn.
  destruct (Z.eqb_spec err OGRERR_NONE); [contradiction|reflexivity].
Qed.

Lemma delete_step_ok st fid :
  delete_err drv fid = OGRERR_NONE ->
  delete_step drv st fid
  = ([DeleteFeature_called fid OGRERR_NONE],
     Returned (delete_feature fid st.1, st.2 + 1)).
Proof. intros Herr. unfold delete_step. rewrite Herr. reflexivity. Qed.

Lemma delete_step_raises st fid :
  delete_err drv fid <> OGRERR_NONE ->
  delete_step drv st fid
  = ([DeleteFeature_called fid (delete_err drv fid)], Raised "RuntimeError").
Proof.
  intros Herr. unfold delete_step. now rewrite (ogr_call_raises _ _ Herr).
Qed.

Lemma delete_step_traced st fid :
  traced (fun ev => clear_event ev = true) (fun ev => failing ev = false)
         (delete_step drv st fid).
Proof.
  destruct (Z.eq_dec (delete_err drv fid) OGRERR_NONE) as [Heq|Hne].
  - rewrite (delete_step_ok _ _ Heq). split; [|intros _ _]; repeat constructor.
  - rewrite (delete_step_raises _ _ Hne). split; [repeat constructor|discriminate].
Qed.

(** The clearing loop, when it returns, has removed the features whose
    FID it visited and counted each of them. *)
Lemma delete_loop_returns fids : forall work n t work' n',
  foldM (delete_step drv) fids (work, n) = (t, Returned (work', n')) ->
  layer_features work' = filter (fun f => FID f ∉ fids) (layer_features work)
  /\ layer_defn work' = layer_defn work
  /\ GetGeomType work' = GetGeomType work
  /\ next_fid work' = next_fid work
  /\ n' = n + Z.of_nat (length fids).
Proof.
  induction fids as [|fid fids IH]; intros work n t work' n'; cbn [foldM].
  - intros [= _ <- <-]. split_and!; try reflexivity; [|cbn; lia].
    symmetry. apply filter_all. intros f _. apply not_elem_of_nil.
  - destruct (Z.eq_dec (delete_err drv fid) OGRERR_NONE) as [Heq|Hne].
    + rewrite (bind_returned _ _ _ _ (delete_step_ok (work, n) fid Heq)).
      cbn [fst snd].
      destruct (foldM (delete_step drv) fids (delete_feature fid work, n + 1))
        as [t2 o2] eqn:Hrest.
      cbn. intros [= _ ->].
      destruct (IH _ _ _ _ _ Hrest) as (Hfs & Hdefn & Hty & Hnext & Hn).
      split_and!; try assumption; [|cbn [length]; lia].
      rewrite Hfs. cbn. rewrite list_filter_filter.
      apply list_filter_iff. intros f. rewrite not_elem_of_cons. tauto.
    + rewrite (bind_raised _ _ _ _ (delete_step_raises (work, n) fid Hne)).
      discriminate.
Qed.

Lemma layer_eta (l : Layer) fs :
  layer_features l = fs ->
  l = with_features l fs (next_fid l).
Proof. intros <-. now destruct l. Qed.

(** The clearing block returns only when the transaction was opened and
    every deletion succeeded; the layer is then empty. *)
Lemma clear_block_returns layer original_count t work :
  clear_block drv layer original_count = (t, Returned work) ->
  start_err drv = OGRERR_NONE
  /\ work = with_features layer [] (next_fid layer).
Proof.
  unfold clear_block.
  destruct (Z.eq_dec (start_err drv) OGRERR_NONE) as [Heq|Hne].
  - rewrite Heq, (bind_returned _ _ _ _ (ogr_call_ok _)).
    rewrite bind_eq.
    destruct (foldM (delete_step drv) (map FID (layer_features layer)) (layer, 0))
      as [t1 [[work1 n1]|e]] eqn:Hloop; [|discriminate].
    destruct (delete_loop_returns _ _ _ _ _ _ Hloop)
      as (Hfs & Hdefn & Hty & Hnext & Hn).
    rewrite bind_eq.
    destruct (if n1 =? original_count then mret () else _) as [t2 [[]|e]] eqn:Hwarn;
      [|destruct (n1 =? original_count); discriminate].
    cbn. intros [= _ <-]. split; [reflexivity|].
    assert (Hnil : layer_features work1 = []).
    { rewrite Hfs. apply filter_none. intros f Hf Hnot. apply Hnot.
      change (map FID (layer_features layer)) with (FID <$> layer_features layer).
      now apply list_elem_of_fmap_2. }
    rewrite (layer_eta work1 [] Hnil). unfold with_features.
    now rewrite Hdefn, Hty, Hnext.
  - rewrite (bind_raised _ _ _ _ (ogr_call_raises _ _ Hne)). discriminate.
Qed.

Lemma clear_block_start_fails layer original_count :
  start_err drv <> OGRERR_NONE ->
  clear_block drv layer original_count
  = ([StartTransaction_called (start_err drv)], Raised "RuntimeError").
Proof.
  intros Hne. unfold clear_block.
  now rewrite (bind_raised _ _ _ _ (ogr_call_raises _ _ Hne)).
Qed.

Lemma clear_block_traced layer original_count :
  traced (fun ev => clear_event ev = true) (fun ev => failing ev = false)
         (clear_block drv layer original_count).
Proof.
  unfold clear_block. apply traced_bind.
  { apply traced_ogr_call; [reflexivity|now intros ->]. }
  intros _. apply traced_bind.
  { apply traced_foldM. intros st fid. apply delete_step_traced. }
  intros [work n]. apply traced_bind; [|intros; apply traced_ret].
  destruct (n =? original_count); [apply traced_ret|now apply traced_log].
Qed.

End RewriteFacts.

Section AddFacts.
Context (drv : Driver).

Lemma set_fields_traced layer_defn feature attrs :
  traced (fun ev => add_loop_event ev = true) (fun ev => failing ev = false)
         (set_fields layer_defn feature attrs).
Proof.
  unfold set_fields.
  destruct (set_fields_loop layer_defn (map_to_list attrs) feature)
    as (t & f' & -> & Ht & _).
  split; [|intros _ _]; eapply Forall_impl; try exact Ht; cbn; tauto.
Qed.

Lemma add_block_step_traced layer_defn st item :
  traced (fun ev => add_loop_event ev = true) (fun ev => failing ev = false)
         (add_block_step drv layer_defn st item).
Proof.
  unfold add_block_step. cbv zeta.
  destruct (data_geom item.2) as [geom|]; [|apply traced_ret].
  destruct (IsEmpty geom); [apply traced_ret|].
  apply traced_bind.
  { apply traced_ogr_call; [reflexivity|now intros ->]. }
  intros err. destruct (negb (err =? OGRERR_NONE)).
  { apply traced_bind; [now apply traced_log|intros; apply traced_ret]. }
  apply traced_bind; [apply set_fields_traced|]. intros new_feature.
  apply traced_bind.
  { apply traced_ogr_call; [reflexivity|now intros ->]. }
  intros err'. destruct (err' =? OGRERR_NONE); [apply traced_ret|].
  apply traced_bind; [now apply traced_log|intros; apply traced_ret].
Qed.

(** An iteration of the adding loop that returns has skipped the
    candidate or created its feature. *)
Lemma add_block_step_returns layer_defn st i data t st' :
  add_block_step drv layer_defn st (i, data) = (t, Returned st') ->
  st' = (add_pure layer_defn st.1 data,
         st.2 + (match kept_geometry data with Some _ => 1 | None => 0 end)).
Proof.
  unfold add_block_step, add_pure, kept_geometry. cbv zeta. cbn [fst snd].
  destruct (data_geom data) as [geom|];
    [|intros [= _ <-]; destruct st; cbn; f_equal; lia].
  destruct (IsEmpty geom);
    [intros [= _ <-]; destruct st; cbn; f_equal; lia|].
  destruct (Z.eq_dec (set_geometry_err drv (Clone geom)) OGRERR_NONE) as [Hg|Hg].
  - rewrite Hg, (bind_returned _ _ _ _ (ogr_call_ok _)). cbn [negb Z.eqb OGRERR_NONE].
    destruct (set_fields_fresh layer_defn
                {| FID := -1; geometry := Some (Clone geom); fields := ∅ |}
                (data_attributes data) eq_refl)
      as (tf & f' & Hset & _ & Hfid & Hgeom & Hfields).
    cbn [FID geometry fields] in *.
    rewrite (bind_returned _ _ _ _ Hset).
    destruct (Z.eq_dec (create_err drv i) OGRERR_NONE) as [Hc|Hc].
    + rewrite Hc, (bind_returned _ _ _ _ (ogr_call_ok _)). cbn.
      intros [= _ <-]. f_equal. unfold create_feature.
      now rewrite Hgeom, Hfields.
    + rewrite (bind_raised _ _ _ _ (ogr_call_raises _ _ Hc)). discriminate.
  - rewrite (bind_raised _ _ _ _ (ogr_call_raises _ _ Hg)). discriminate.
Qed.

Lemma add_loop_returns layer_defn items : forall work n t work' n',
  foldM (add_block_step drv layer_defn) items (work, n)
  = (t, Returned (work', n')) ->
  work' = foldl (add_pure layer_defn) work items.*2
  /\ n' = n + kept_candidates items.*2.
Proof.
  unfold kept_candidates.
  induction items as [|[i data] items IH]; intros work n t work' n'; cbn [foldM].
  - intros [= _ <- <-]. split; [reflexivity|cbn; lia].
  - rewrite bind_eq.
    destruct (add_block_step drv layer_defn (work, n) (i, data))
      as [t1 [st1|e]] eqn:Hstep; [|discriminate].
    apply add_block_step_returns in Hstep. subst st1. cbn [fst snd].
    destruct (foldM _ items _) as [t2 o2] eqn:Hrest. cbn. intros [= _ ->].
    destruct (IH _ _ _ _ _ Hrest) as [-> ->].
    split; [reflexivity|]. cbn. destruct (kept_geometry data); cbn; lia.
Qed.

(** The adding block returns only after a successful commit; it then
    holds the rewritten layer and has warned iff the counts differ.  When
    it raises, no commit succeeded and no count warning was logged. *)
Lemma add_block_cases layer_defn work features_data kept_count t o :
  add_block drv layer_defn work features_data kept_count = (t, o) ->
  (exists added_count,
      o = Returned (foldl (add_pure layer_defn) work features_data, added_count)
      /\ added_count = kept_candidates features_data
      /\ CommitTransaction_called OGRERR_NONE ∈ t
      /\ Forall (fun ev => failing ev = false) t
      /\ (forall a k, Log (WarnAddedCount a k) ∈ t
                      <-> a = added_count /\ k = kept_count /\ a <> k))
  \/ (exists e, o = Raised e
      /\ (CommitTransaction_called OGRERR_NONE ∉ t)
      /\ (forall a k, Log (WarnAddedCount a k) ∉ t)).
Proof.
  unfold add_block. rewrite bind_eq.
  pose proof (traced_foldM (fun ev => add_loop_event ev = true)
                (fun ev => failing ev = false)
                (add_block_step drv layer_defn)
                (zip (seq 0 (length features_data)) features_data)
                (add_block_step_traced layer_defn) (work, 0)) as [Halpha Hquiet].
  destruct (foldM _ _ _) as [t1 [[work1 n1]|e]] eqn:Hloop; cbn [fst snd] in *.
  - destruct (add_loop_returns _ _ _ _ _ _ _ Hloop) as [Hwork Hn].
    rewrite snd_zip in Hwork, Hn by (rewrite length_seq; lia).
    assert (Hno : forall ev, add_loop_event ev = false -> ev ∉ t1).
    { intros ev Hev Hin. rewrite Forall_forall in Halpha.
      apply Halpha in Hin. congruence. }
    destruct (Z.eq_dec (commit_err drv) OGRERR_NONE) as [Hc|Hc].
    + intros Heq. left. exists n1.
      rewrite Hc, (bind_returned _ _ _ _ (ogr_call_ok _)) in Heq.
      destruct (Z.eqb_spec n1 kept_count) as [Hsame|Hdiff]; cbn in Heq;
        injection Heq as <- <-; subst work1.
      * split_and!; [reflexivity|lia| | |].
        -- rewrite elem_of_app, elem_of_cons. right. now left.
        -- apply Forall_app. split; [eapply Hquiet; reflexivity|].
           repeat constructor.
        -- intros a k. split; [|lia].
           rewrite elem_of_app, elem_of_cons, elem_of_nil.
           intros [Hin|[Hin|[]]]; [|discriminate]. now apply Hno in Hin.
      * split_and!; [reflexivity|lia| | |].
        -- rewrite elem_of_app, elem_of_cons. right. now left.
        -- apply Forall_app. split; [eapply Hquiet; reflexivity|].
           repeat constructor.
        -- intros a k. rewrite elem_of_app, !elem_of_cons, elem_of_nil. split.
           ++ intros [Hin|[Hin|[Hin|[]]]]; [now apply Hno in Hin|discriminate|].
              injection Hin as -> ->. auto.
           ++ intros (-> & -> & _). right. right. now left.
    + intros Heq. right.
      rewrite (bind_raised _ _ _ _ (ogr_call_raises _ _ Hc)) in Heq.
      cbn in Heq. injection Heq as <- <-. eexists. split; [reflexivity|].
      split.
      * rewrite elem_of_app, elem_of_cons, elem_of_nil.
        intros [Hin|[Hin|[]]]; [now apply Hno in Hin|]. congruence.
      * intros a k. rewrite elem_of_app, elem_of_cons, elem_of_nil.
        intros [Hin|[Hin|[]]]; [now apply Hno in Hin|discriminate].
  - intros [= <- <-]. right. eexists. split; [reflexivity|].
    split; [|intros a k]; intros Hin; rewrite Forall_forall in Halpha;
      apply Halpha in Hin; discriminate.
Qed.

End AddFacts.

Section RewriteCases.
Context (drv : Driver).

Lemma no_op_test layer (features_data : list FeatureData) :
  (Z.of_nat (length features_data) =? 0) && (GetFeatureCount layer =? 0) = true
  <-> no_op layer features_data.
Proof.
  unfold no_op, GetFeatureCount. rewrite andb_true_iff, !Z.eqb_eq.
  split.
  - intros [Hd Hl]. split.
    + destruct (layer_features layer); [reflexivity|cbn in Hl; lia].
    + destruct features_data; [reflexivity|cbn in Hd; lia].
  - intros [-> ->]. split; reflexivity.
Qed.


Lemma log_bind {B} msg (k : unit -> Run B) :
  log_message msg ≫= k = (Log msg :: (k tt).1, (k tt).2).
Proof. unfold log_message, emit. now rewrite bind_eq. Qed.

Lemma try_except_returned {A} (m : Run A) h t a :
  m = (t, Returned a) -> try_except m h = (t, Returned a).
Proof. intros ->. reflexivity. Qed.

Lemma try_except_raised {A} (m : Run A) h t e :
  m = (t, Raised e) -> try_except m h = (t ++ (h e).1, (h e).2).
Proof. intros ->. now rewrite try_except_eq. Qed.

Lemma not_in_by_alphabet (E : Event -> bool) t ev :
  Forall (fun ev => E ev = true) t -> E ev = false -> ev ∉ t.
Proof.
  intros Hall Hev Hin. rewrite Forall_forall in Hall.
  apply Hall in Hin. congruence.
Qed.

(** The first [try] statement: it hands on the emptied layer, or rolls
    back and gives up, or finds no transaction to roll back. *)
Lemma clearing_try_cases layer original_count t o :
  clearing_try drv layer original_count = (t, o) ->
  (o = Returned (Some (with_features layer [] (next_fid layer)))
   /\ start_err drv = OGRERR_NONE
   /\ Forall (fun ev => clear_event ev = true) t
   /\ Forall (fun ev => failing ev = false) t)
  \/ (o = Returned None /\ start_err drv = OGRERR_NONE
      /\ exists tc, t = tc ++ [RollbackTransaction_called OGRERR_NONE;
                               Log ErrClearing]
                    /\ Forall (fun ev => clear_event ev = true) tc)
  \/ (start_err drv <> OGRERR_NONE /\ (exists e, o = Raised e)
      /\ t = [StartTransaction_called (start_err drv);
              RollbackTransaction_called OGRERR_FAILURE]).
Proof.
  unfold clearing_try.
  pose proof (clear_block_traced drv layer original_count) as [Halpha Hquiet].
  destruct (clear_block drv layer original_count) as [tc [work|e]] eqn:Hcb.
  - destruct (clear_block_returns _ _ _ _ _ Hcb) as [Hstart ->].
    rewrite bind_eq, try_except_eq. cbn [fst snd mret run_ret].
    intros [= <- <-]. left. rewrite app_nil_r.
    split_and!; [reflexivity|assumption|assumption|eapply Hquiet; reflexivity].
  - rewrite bind_eq, try_except_eq.
    unfold RollbackTransaction.
    destruct (Z.eq_dec (start_err drv) OGRERR_NONE) as [Hstart|Hstart].
    + rewrite Hstart. cbn. intros [= <- <-]. right. left.
      split_and!; [reflexivity|reflexivity|]. exists tc. split; [reflexivity|assumption].
    + rewrite (clear_block_start_fails drv _ _ Hstart) in Hcb.
      injection Hcb as <- <-.
      destruct (Z.eqb_spec (start_err drv) OGRERR_NONE) as [|_]; [contradiction|].
      cbn. intros [= <- <-]. right. right.
      split_and!; [assumption|eexists; reflexivity|reflexivity].
Qed.

(** The second [try] statement, inside an open transaction. *)
Lemma adding_try_cases layer_defn work features_data kept_count t o :
  start_err drv = OGRERR_NONE ->
  adding_try drv layer_defn work features_data kept_count = (t, o) ->
  (exists added_count,
      o = Returned (Some (foldl (add_pure layer_defn) work features_data,
                          added_count))
      /\ added_count = kept_candidates features_data
      /\ CommitTransaction_called OGRERR_NONE ∈ t
      /\ Forall (fun ev => failing ev = false) t
      /\ (forall a k, Log (WarnAddedCount a k) ∈ t
                      <-> a = added_count /\ k = kept_count /\ a <> k))
  \/ (o = Returned None
      /\ exists ta, t = ta ++ [RollbackTransaction_called OGRERR_NONE;
                               Log ErrAdding; Log (LogText "traceback")]
                    /\ (CommitTransaction_called OGRERR_NONE ∉ ta)
                    /\ (forall a k, Log (WarnAddedCount a k) ∉ ta)).
Proof.
  intros Hstart. unfold adding_try.
  destruct (add_block drv layer_defn work features_data kept_count)
    as [ta oa] eqn:Hab.
  destruct (add_block_cases _ _ _ _ _ _ _ Hab)
    as [(added & -> & Hadded & Hcommit & Hquiet & Hwarn)
       |(e & -> & Hnocommit & Hnowarn)].
  - rewrite bind_eq, try_except_eq. cbn [fst snd mret run_ret].
    intros [= <- <-]. left. exists added. rewrite app_nil_r.
    split_and!; try assumption; reflexivity.
  - rewrite bind_eq, try_except_eq.
    unfold RollbackTransaction. rewrite Hstart. cbn.
    intros [= <- <-]. right. split; [reflexivity|]. exists ta.
    split_and!; [reflexivity|assumption|assumption].
Qed.

Lemma report_final_eq work kept_count :
  exists tw, report_final work kept_count
             = (Log (RepopulateComplete (GetFeatureCount work) kept_count) :: tw,
                Returned (true, work))
             /\ Forall (fun ev => exists f k, ev = Log (WarnFinalCount f k)) tw.
Proof.
  unfold report_final. cbv zeta. rewrite log_bind.
  destruct (GetFeatureCount work =? kept_count); cbn.
  - exists []. split; [reflexivity|constructor].
  - eexists. split; [reflexivity|]. repeat constructor. eauto.
Qed.

Lemma clear_and_repopulate_layer_cases layer features_data t o :
  clear_and_repopulate_layer drv layer features_data = (t, o) ->
  rewrite_case drv layer features_data t o.
Proof.
  unfold clear_and_repopulate_layer. cbv zeta.
  destruct ((Z.of_nat (length features_data) =? 0)
            && (GetFeatureCount layer =? 0)) eqn:Htest.
  { apply no_op_test in Htest. intros [= <- <-]. now apply case_no_op. }
  assert (Hnot : ~ no_op layer features_data).
  { intros Hno. apply no_op_test in Hno. congruence. }
  rewrite log_bind.
  destruct (clearing_try drv layer (GetFeatureCount layer)) as [tc oc] eqn:Hclear.
  destruct (clearing_try_cases _ _ _ _ Hclear)
    as [(-> & Hstart & Hcalpha & Hcquiet)
       |[(-> & Hstart & tc' & -> & Hcalpha)
        |(Hstart & (e & ->) & ->)]].
  - (* cleared *)
    rewrite bind_eq. cbv beta iota.
    destruct (adding_try drv (layer_defn layer)
                (with_features layer [] (next_fid layer)) features_data
                (Z.of_nat (length features_data))) as [ta oa] eqn:Hadd.
    destruct (adding_try_cases _ _ _ _ _ _ Hstart Hadd)
      as [(added & -> & Hadded & Hcommit & Hquiet & Hwarn)
         |(-> & ta' & -> & Hnocommit & Hnowarn)].
    + rewrite bind_eq. cbv beta iota.
      destruct (report_final_eq
                  (foldl (add_pure (layer_defn layer))
                     (with_features layer [] (next_fid layer)) features_data)
                  (Z.of_nat (length features_data))) as (tw & -> & Htw).
      cbn [fst snd]. intros [= <- <-].
      apply case_committed; try assumption; try reflexivity.
      * rewrite elem_of_cons, !elem_of_app. right. right. now left.
      * constructor; [reflexivity|]. rewrite !Forall_app.
        split_and!; try assumption. constructor; [reflexivity|].
        eapply Forall_impl; [exact Htw|]. now intros ev (f & k & ->).
      * intros a k. rewrite <- Hadded, <- Hwarn.
        rewrite elem_of_cons, !elem_of_app, elem_of_cons.
        split; [|tauto].
        intros [Hin|[Hin|[Hin|[Hin|Hin]]]]; try discriminate; try assumption.
        -- now apply (not_in_by_alphabet _ _ _ Hcalpha) in Hin.
        -- rewrite Forall_forall in Htw. apply Htw in Hin as (f & k' & Heq).
           discriminate.
    + rewrite bind_eq. cbv beta iota. cbn [fst snd mret run_ret].
      intros [= <- <-].
      apply case_rolled_back; try assumption; try reflexivity.
      * rewrite elem_of_cons, !elem_of_app, !elem_of_cons.
        right. right. left. right. now left.
      * right. rewrite elem_of_cons, !elem_of_app, !elem_of_cons.
        right. right. left. right. right. now left.
      * rewrite elem_of_cons, !elem_of_app, !elem_of_cons, !elem_of_nil.
        intros [Hin|[Hin|[[Hin|[Hin|[Hin|[Hin|[]]]]]|[]]]]; try discriminate.
        -- now apply (not_in_by_alphabet _ _ _ Hcalpha) in Hin.
        -- now apply Hnocommit in Hin.
      * intros a k.
        rewrite elem_of_cons, !elem_of_app, !elem_of_cons, !elem_of_nil.
        intros [Hin|[Hin|[[Hin|[Hin|[Hin|[Hin|[]]]]]|[]]]]; try discriminate.
        -- now apply (not_in_by_alphabet _ _ _ Hcalpha) in Hin.
        -- now apply Hnowarn in Hin.
  - (* the clearing block raised and was rolled back *)
    rewrite bind_eq. cbv beta iota. cbn [fst snd mret run_ret].
    intros [= <- <-].
    apply case_rolled_back; try assumption; try reflexivity.
    + rewrite elem_of_cons, !elem_of_app, !elem_of_cons. right. left. right. now left.
    + left. rewrite elem_of_cons, !elem_of_app, !elem_of_cons.
      right. left. right. right. now left.
    + rewrite elem_of_cons, !elem_of_app, !elem_of_cons, !elem_of_nil.
      intros [Hin|[[Hin|[Hin|[Hin|[]]]]|[]]]; try discriminate.
      now apply (not_in_by_alphabet _ _ _ Hcalpha) in Hin.
    + intros a k.
      rewrite elem_of_cons, !elem_of_app, !elem_of_cons, !elem_of_nil.
      intros [Hin|[[Hin|[Hin|[Hin|[]]]]|[]]]; try discriminate.
      now apply (not_in_by_alphabet _ _ _ Hcalpha) in Hin.
  - (* no transaction *)
    rewrite bind_eq. cbn [fst snd].
    intros [= <- <-]. now eapply case_no_transaction.
Qed.

End RewriteCases.

Lemma raises_in_rewrite_failing ev :
  raises_in_rewrite ev = true -> failing ev = true.
Proof. now destruct ev. Qed.

(** C1 (as stated, refuted): on an empty layer and an empty candidate
    list the call returns success although no transaction was opened and
    nothing was committed. *)
Lemma C1_no_op_counterexample :
  clear_and_repopulate_layer healthy_driver (dn_layer []) []
  = ([Log SkipRewriteEmpty], Returned (true, dn_layer []))
  /\ CommitTransaction_called OGRERR_NONE
     ∉ (clear_and_repopulate_layer healthy_driver (dn_layer []) []).1.
Proof.
  split; [reflexivity|]. intros Hin.
  change (CommitTransaction_called OGRERR_NONE ∈ [Log SkipRewriteEmpty]) in Hin.
  apply list_elem_of_singleton in Hin. discriminate.
Qed.

(** C1 (amended): for every driver, layer and candidate list, an exception
    raised by a call of the clearing loop or of the adding block rolls the
    transaction back and the call returns failure with the layer as it was
    before the call; a returned failure always leaves the layer as it was;
    the call returns success iff the commit succeeded or it took the no-op
    exit (empty layer, empty list); a mismatch between the requested and
    the added feature counts is logged exactly when the commit succeeded
    with differing counts, and then the result is success. *)
Theorem C1_rollback_or_commit (drv : Driver) (layer : Layer)
    (features_data : list FeatureData) t o :
  clear_and_repopulate_layer drv layer features_data = (t, o) ->
  ((exists ev, ev ∈ t /\ raises_in_rewrite ev = true) ->
     o = Returned (false, layer)
     /\ RollbackTransaction_called OGRERR_NONE ∈ t)
  /\ (forall ok layer', o = Returned (ok, layer') ->
        (ok = true <-> CommitTransaction_called OGRERR_NONE ∈ t
                       \/ no_op layer features_data)
        /\ (ok = false ->
              layer' = layer /\ RollbackTransaction_called OGRERR_NONE ∈ t))
  /\ (forall a k, Log (WarnAddedCount a k) ∈ t ->
        a <> k /\ CommitTransaction_called OGRERR_NONE ∈ t
        /\ exists layer', o = Returned (true, layer'))
  /\ (CommitTransaction_called OGRERR_NONE ∈ t ->
      kept_candidates features_data <> Z.of_nat (length features_data) ->
      Log (WarnAddedCount (kept_candidates features_data)
             (Z.of_nat (length features_data))) ∈ t).
Proof.
  intros Hrun.
  destruct (clear_and_repopulate_layer_cases drv _ _ _ _ Hrun)
    as [Hno -> ->
       |e Hnot Hstart -> ->
       |Hnot -> Hroll Herr Hnocommit Hnowarn
       |Hnot -> Hcommit Hquiet Hwarn].
  - (* no-op *)
    split_and!.
    + intros (ev & Hin & Hev). apply list_elem_of_singleton in Hin as ->.
      discriminate.
    + intros ok layer' [= <- <-]. split; [tauto|discriminate].
    + intros a k Hin. apply list_elem_of_singleton in Hin. discriminate.
    + intros Hin. apply list_elem_of_singleton in Hin. discriminate.
  - (* no transaction could be opened: the call raises *)
    split_and!.
    + intros (ev & Hin & Hev).
      rewrite !elem_of_cons, elem_of_nil in Hin.
      destruct Hin as [->|[->|[->|[]]]]; discriminate.
    + intros ok layer'. discriminate.
    + intros a k Hin. rewrite !elem_of_cons, elem_of_nil in Hin.
      destruct Hin as [Hin|[Hin|[Hin|[]]]]; discriminate.
    + intros Hin. rewrite !elem_of_cons, elem_of_nil in Hin.
      destruct Hin as [Hin|[Hin|[Hin|[]]]]; discriminate.
  - (* rolled back *)
    split_and!.
    + intros _. split; [reflexivity|assumption].
    + intros ok layer' [= <- <-]. split; [|intros _; split; [reflexivity|assumption]].
      split; [discriminate|]. intros [Hin|Hno]; [now apply Hnocommit in Hin|].
      contradiction.
    + intros a k Hin. now apply Hnowarn in Hin.
    + intros Hin. now apply Hnocommit in Hin.
  - (* committed *)
    split_and!.
    + intros (ev & Hin & Hev). apply raises_in_rewrite_failing in Hev.
      rewrite Forall_forall in Hquiet. apply Hquiet in Hin. congruence.
    + intros ok layer' [= <- <-]. split; [tauto|discriminate].
    + intros a k Hin. apply Hwarn in Hin as (-> & -> & Hne).
      split_and!; [assumption|assumption|eauto].
    + intros _ Hne. apply Hwarn. auto.
Qed.

(** A rewrite of a one-feature layer whose second [CreateFeature] fails:
    the first candidate had been added, the call rolls back and the layer
    is as before. *)
Lemma C1_rollback_or_commit_witness :
  (clear_and_repopulate_layer second_create_fails
     (dn_layer [dn_feature 1 bow_tie 1])
     [dn_candidate (Some unit_square) 1; dn_candidate (Some triangle) 1]).2
  = Returned (false, dn_layer [dn_feature 1 bow_tie 1]).
Proof.
  pose (r := clear_and_repopulate_layer second_create_fails
               (dn_layer [dn_feature 1 bow_tie 1])
               [dn_candidate (Some unit_square) 1;
                dn_candidate (Some triangle) 1]).
  destruct (C1_rollback_or_commit second_create_fails
              (dn_layer [dn_feature 1 bow_tie 1])
              [dn_candidate (Some unit_square) 1; dn_candidate (Some triangle) 1]
              r.1 r.2 (surjective_pairing r)) as (Hroll & _).
  apply Hroll. exists (CreateFeature_called 1 OGRERR_FAILURE).
  split; [|reflexivity]. vm_compute. repeat constructor.
Defined.

(** ** What a rewrite leaves in the layer *)

Lemma add_pure_content defn data : forall work,
  map content (layer_features (foldl (add_pure defn) work data))
  = map content (layer_features work) ++ omap (written defn) data
  /\ layer_defn (foldl (add_pure defn) work data) = layer_defn work
  /\ GetGeomType (foldl (add_pure defn) work data) = GetGeomType work.
Proof.
  induction data as [|d data IH]; intros work; cbn [foldl].
  - cbn. now rewrite app_nil_r.
  - destruct (IH (add_pure defn work d)) as (-> & -> & ->).
    unfold add_pure, written. cbn [omap list_omap].
    destruct (kept_geometry d) as [g|]; cbn; [|auto].
    split_and!; [|reflexivity|reflexivity].
    rewrite map_app, <- app_assoc. reflexivity.
Qed.

Lemma rewritten_content layer data :
  map content (layer_features (rewritten layer data))
  = omap (written (layer_defn layer)) data
  /\ layer_defn (rewritten layer data) = layer_defn layer
  /\ GetGeomType (rewritten layer data) = GetGeomType layer.
Proof.
  unfold rewritten.
  destruct (add_pure_content (layer_defn layer) data
              (with_features layer [] (next_fid layer))) as (-> & -> & ->).
  split_and!; reflexivity.
Qed.

(** A call that returns leaves the layer as it was, or rewritten. *)
Lemma rewrite_result drv layer data t ok layer' :
  clear_and_repopulate_layer drv layer data = (t, Returned (ok, layer')) ->
  (ok = false /\ layer' = layer)
  \/ (ok = true /\ no_op layer data /\ layer' = layer)
  \/ (ok = true /\ layer' = rewritten layer data).
Proof.
  intros Hrun.
  destruct (clear_and_repopulate_layer_cases drv _ _ _ _ Hrun)
    as [Hno _ Ho|e _ _ Ho _|_ Ho _ _ _ _|_ Ho _ _ _].
  - injection Ho as -> ->. right. left. auto.
  - discriminate.
  - injection Ho as -> ->. now left.
  - injection Ho as -> ->. right. right. auto.
Qed.

(** ** The repair stage *)

Arguments GetGeometryType : simpl never.
Arguments GT_Flatten : simpl never.
Arguments IsEmpty : simpl never.
Arguments new_Geometry : simpl never.

Section RepairFacts.
Context `{GeometryEngine}.

Lemma fix_geometry_kept target fid geom c t g c' :
  fix_geometry target fid geom c = (t, Returned (Some g, c')) ->
  exists g0, geom = Some g0 /\ IsEmpty g0 = false /\ IsValid g = true
             /\ repair_provenance g0 g.
Proof.
  unfold fix_geometry, repair_provenance. cbv zeta.
  destruct geom as [g0|]; [|discriminate].
  destruct (IsEmpty g0) eqn:He0; [discriminate|].
  destruct (IsValid g0) eqn:Hv0.
  { intros [= _ <- _]. exists g0. split_and!; auto. }
  intros Hrun. exists g0. split; [reflexivity|]. split; [exact He0|].
  unfold engine_call in Hrun.
  destruct (MakeValid g0) as [[r|]|e] eqn:Hmv;
    rewrite try_except_eq, !bind_eq in Hrun; cbn in Hrun; try discriminate.
  destruct (IsEmpty r) eqn:Her; cbn in Hrun; [discriminate|].
  destruct (bool_decide (GT_Flatten (GetGeometryType r) = GT_Flatten target))
    eqn:Hsame in Hrun.
  { destruct (IsValid r) eqn:Hvr; cbn in Hrun; [|discriminate].
    injection Hrun as _ <- _. split; [exact Hvr|]. right. split; [exact Hv0|].
    exists r. auto. }
  destruct (bool_decide (GT_Flatten (GetGeometryType r) = wkbGeometryCollection))
    eqn:Hcoll in Hrun; [|cbn in Hrun; discriminate].
  apply bool_decide_eq_true in Hcoll.
  destruct (_ || _) in Hrun; cbn in Hrun; [|discriminate].
  rewrite bind_eq in Hrun.
  destruct (foldM (extract_part fid) (sub_geometries r) (new_Geometry target, false))
    as [tl [[extract found]|e]]; [|discriminate].
  destruct found; cbn in Hrun; [|discriminate].
  destruct (IsValid extract) eqn:Hve; cbn in Hrun; [|discriminate].
  injection Hrun as _ <- _. split; [exact Hve|]. right. split; [exact Hv0|].
  exists r. auto.
Qed.

(** On a multi-polygon container the extraction loop appends exactly the
    valid polygon members, without an event. *)
Lemma extract_loop_multipolygon fid parts : forall acc found,
  foldM (extract_part fid) parts (MultiPolygon acc, found)
  = ([], Returned (MultiPolygon (acc ++ filter (fun p => valid_polygon_member p = true) parts),
                   found || negb (bool_decide (filter (fun p => valid_polygon_member p = true) parts = [])))).
Proof.
  induction parts as [|part parts IH]; intros acc found; cbn [foldM].
  - cbn. now rewrite app_nil_r, orb_false_r.
  - rewrite bind_eq. unfold extract_part at 1. cbn [fst snd].
    fold (valid_polygon_member part).
    destruct (valid_polygon_member part) eqn:Hvp.
    + rewrite filter_cons_True by exact Hvp.
      assert (Hpoly : exists rings, part = Polygon rings).
      { unfold valid_polygon_member in Hvp.
        apply andb_true_iff in Hvp as [Hvp _]. apply andb_true_iff in Hvp as [_ Hvp].
        apply bool_decide_eq_true in Hvp. destruct part; try discriminate. eauto. }
      destruct Hpoly as [rings ->]. cbn. rewrite IH. cbn.
      rewrite <- app_assoc. cbn. now rewrite orb_true_r.
    + rewrite filter_cons_False by (rewrite Hvp; discriminate).
      cbn. rewrite IH. reflexivity.
Qed.


Lemma valid_member_nonempty part :
  valid_polygon_member part = true -> IsEmpty part = false /\ IsValid part = true.
Proof.
  unfold valid_polygon_member. rewrite !andb_true_iff, negb_true_iff. tauto.
Qed.

Lemma repair_decision_sound geom g :
  repair_decision geom = Some g -> IsValid g = true /\ IsEmpty g = false.
Proof.
  unfold repair_decision. destruct geom as [g0|]; [|discriminate].
  destruct (IsEmpty g0) eqn:He0; [discriminate|].
  destruct (IsValid g0) eqn:Hv0; [intros [= <-]; auto|].
  destruct (MakeValid g0) as [[r|]|e]; try discriminate.
  destruct (IsEmpty r) eqn:Her; [discriminate|].
  destruct r as [| | | | | |parts|members]; try discriminate.
  - destruct (IsValid (MultiPolygon parts)) eqn:Hv; intros [= <-]; auto.
  - cbv zeta.
    destruct (filter _ members) as [|p ps] eqn:Hfilter; [discriminate|].
    destruct (IsValid (MultiPolygon (p :: ps))) eqn:Hv; intros [= <-].
    split; [exact Hv|].
    assert (Hp : p ∈ filter (fun p => valid_polygon_member p = true) members)
      by (rewrite Hfilter; apply list_elem_of_here).
    apply list_elem_of_filter in Hp as [Hp _].
    apply valid_member_nonempty in Hp as [Hp _].
    change (IsEmpty (MultiPolygon (p :: ps)))
      with (IsEmpty p && forallb IsEmpty ps). now rewrite Hp.
Qed.

(** On a multi-polygon layer the decision for a feature never raises and
    is the decision table; the feature counts as repaired exactly when it
    was invalid and is kept. *)
Lemma fix_geometry_multipolygon target fid geom c :
  GT_Flatten target = wkbMultiPolygon ->
  exists t c',
    fix_geometry target fid geom c = (t, Returned (repair_decision geom, c'))
    /\ repaired_count c'
       = repaired_count c
         + match geom, repair_decision geom with
           | Some g0, Some _ => if IsValid g0 then 0 else 1
           | _, _ => 0
           end.
Proof.
  intros Hflat. unfold fix_geometry, repair_decision. cbv zeta.
  destruct geom as [g0|]; [|eexists _, _; split; [reflexivity|cbn; lia]].
  destruct (IsEmpty g0) eqn:He0; [eexists _, _; split; [reflexivity|cbn; lia]|].
  destruct (IsValid g0) eqn:Hv0; [eexists _, _; split; [reflexivity|cbn; lia]|].
  unfold engine_call.
  destruct (MakeValid g0) as [[r|]|e] eqn:Hmv;
    rewrite try_except_eq, !bind_eq; cbn;
    try (eexists _, _; split; [reflexivity|cbn; lia]).
  destruct (IsEmpty r) eqn:Her; cbn;
    [eexists _, _; split; [reflexivity|cbn; lia]|].
  rewrite Hflat.
  destruct r as [| | | | | |parts|members];
    unfold GT_Flatten at 1, GetGeometryType at 1; cbn;
    try (eexists _, _; split; [reflexivity|cbn; lia]).
  - destruct (IsValid (MultiPolygon parts));
      eexists _, _; (split; [reflexivity|cbn; lia]).
  - rewrite bind_eq. unfold new_Geometry. rewrite Hflat.
    rewrite (extract_loop_multipolygon fid members [] false). cbn.
    destruct (filter _ members) as [|p ps]; cbn;
      [eexists _, _; split; [reflexivity|cbn; lia]|].
    destruct (IsValid (MultiPolygon (p :: ps))); cbn;
      eexists _, _; (split; [reflexivity|cbn; lia]).
Qed.

End RepairFacts.

(** ** From candidates to the rewritten layer *)

Lemma read_attrs_lookup field_names feature name :
  read_attrs field_names feature !! name
  = if bool_decide (name ∈ field_names) then Some (GetField feature name)
    else None.
Proof.
  unfold read_attrs. induction field_names as [|n names IH]; cbn.
  - now rewrite lookup_empty.
  - destruct (decide (n = name)) as [->|Hne].
    + rewrite lookup_insert_eq.
      rewrite bool_decide_eq_true_2; [reflexivity|apply list_elem_of_here].
    + rewrite lookup_insert_ne by assumption. rewrite IH.
      destruct (decide (name ∈ names)) as [Hin|Hout].
      * rewrite !bool_decide_eq_true_2; [reflexivity| |assumption].
        now apply list_elem_of_further.
      * rewrite !bool_decide_eq_false_2; [reflexivity| |assumption].
        rewrite elem_of_cons. intros [Heq|Hin]; [congruence|contradiction].
Qed.

(** Reading the schema fields of a feature and storing them on a fresh
    one gives back every schema field. *)
Lemma stored_read_attrs layer_defn f' f :
  fields f' = stored_fields layer_defn (read_attrs layer_defn f) ->
  same_attributes layer_defn f' f.
Proof.
  intros Hfields name Hin. unfold GetField. rewrite Hfields.
  rewrite stored_fields_lookup, read_attrs_lookup.
  rewrite (bool_decide_eq_true_2 _ Hin). unfold GetField.
  now destruct (fields f !! name).
Qed.

Lemma count_zero_features layer :
  (GetFeatureCount layer =? 0) = true -> layer_features layer = [].
Proof.
  unfold GetFeatureCount. rewrite Z.eqb_eq.
  destruct (layer_features layer); [reflexivity|cbn; lia].
Qed.

Lemma count_nonzero_features layer data :
  (GetFeatureCount layer =? 0) = false -> ~ no_op layer data.
Proof.
  unfold GetFeatureCount, no_op. rewrite Z.eqb_neq. intros Hne [Hnil _].
  rewrite Hnil in Hne. now apply Hne.
Qed.

Section StageFacts.
Context `{GeometryEngine} (drv : Driver).

Lemma empty_collection_no_member members :
  IsEmpty (GeometryCollection members) = true ->
  filter (fun p => valid_polygon_member p = true) members = [].
Proof.
  change (IsEmpty (GeometryCollection members)) with (forallb IsEmpty members).
  intros Hall. apply filter_none. intros p Hp Hvalid.
  apply valid_member_nonempty in Hvalid as [Hne _].
  rewrite forallb_forall in Hall. apply list_elem_of_In in Hp.
  apply Hall in Hp. congruence.
Qed.

Lemma fix_feature_multipolygon target field_names st f :
  GT_Flatten target = wkbMultiPolygon ->
  exists t c',
    fix_feature target field_names st f
    = (t, Returned (st.1 ++ omap (repair_candidate field_names) [f], c')).
Proof.
  intros Hflat. unfold fix_feature. cbv zeta.
  destruct (fix_geometry_multipolygon target (FID f) (geometry f) st.2 Hflat)
    as (t1 & c1 & Hfix & _).
  rewrite bind_eq, Hfix. cbn [omap list_omap]. unfold repair_candidate.
  destruct (repair_decision (geometry f)) as [g|]; cbn.
  - eexists _, _. reflexivity.
  - rewrite (app_nil_r st.1). eexists _, _. reflexivity.
Qed.

(** On a multi-polygon layer the repair loop never raises: its candidates
    are the decisions of the table, in order. *)
Lemma fix_loop_multipolygon target field_names fs :
  GT_Flatten target = wkbMultiPolygon ->
  forall acc c, exists t c',
    foldM (fix_feature target field_names) fs (acc, c)
    = (t, Returned (acc ++ omap (repair_candidate field_names) fs, c')).
Proof.
  intros Hflat. induction fs as [|f fs IH]; intros acc c; cbn [foldM].
  - exists [], c. cbn. now rewrite app_nil_r.
  - destruct (fix_feature_multipolygon target field_names (acc, c) f Hflat)
      as (t1 & c1 & Hstep).
    rewrite (bind_returned _ _ _ _ Hstep). cbn [fst snd].
    destruct (IH (acc ++ omap (repair_candidate field_names) [f]) c1)
      as (t2 & c2 & ->).
    exists (t1 ++ t2), c2. cbn [fst snd]. f_equal. f_equal. f_equal.
    rewrite <- app_assoc. f_equal.
    change (f :: fs) with ([f] ++ fs). now rewrite omap_app.
Qed.

Lemma written_repair_candidates field_names (fs : list Feature) :
  omap (written field_names) (omap (repair_candidate field_names) fs)
  = omap (repaired_content field_names) fs.
Proof.
  induction fs as [|f fs IH]; [reflexivity|].
  change (f :: fs) with ([f] ++ fs). rewrite !omap_app, IH. f_equal.
  cbn [omap list_omap]. unfold repair_candidate, repaired_content.
  destruct (repair_decision (geometry f)) as [g|] eqn:Hdec; [|reflexivity].
  destruct (repair_decision_sound _ _ Hdec) as [_ Hne].
  cbn. unfold written, kept_geometry. cbn. now rewrite Hne.
Qed.

(** C5: on a multi-polygon layer, when the repair of an invalid geometry
    yields a geometry collection, the feature is kept iff the collection
    has at least one valid polygon member and the multi-polygon assembled
    from its valid polygon members is itself valid; the kept geometry is
    that multi-polygon and the feature counts as repaired, and otherwise
    the feature is discarded.  A successful stage leaves in the layer
    exactly the kept geometries.  So a repair yielding one valid polygon
    and a line keeps the multi-polygon of that polygon alone. *)
Theorem C5_collection_repair (target : wkbGeometryType) (fid : Z)
    (g0 : Geometry) (members : list Geometry) (c : FixCounts) :
  GT_Flatten target = wkbMultiPolygon ->
  IsEmpty g0 = false -> IsValid g0 = false ->
  MakeValid g0 = Returned (Some (GeometryCollection members)) ->
  let extracted := filter (fun p => valid_polygon_member p = true) members in
  let assembled := MultiPolygon extracted in
  (exists t final c',
      fix_geometry target fid (Some g0) c = (t, Returned (final, c'))
      /\ (final = Some assembled
          <-> extracted <> [] /\ IsValid assembled = true)
      /\ (final = None <-> ~ (extracted <> [] /\ IsValid assembled = true))
      /\ (final = Some assembled -> repaired_count c' = repaired_count c + 1)
      /\ (final = None -> repaired_count c' = repaired_count c))
  /\ (forall layer t layer',
        GetGeomType layer = target ->
        fix_layer_geometries drv layer = (t, Returned (true, layer')) ->
        map content (layer_features layer')
        = omap (repaired_content (layer_defn layer)) (layer_features layer))
  /\ (forall p rings pts,
        members = [p; LineString pts] -> p = Polygon rings ->
        valid_polygon_member p = true -> IsValid (MultiPolygon [p]) = true ->
        repair_decision (Some g0) = Some (MultiPolygon [p])).
Proof.
  intros Hflat He0 Hv0 Hmv extracted assembled.
  assert (Hdecision :
            repair_decision (Some g0)
            = match extracted with
              | [] => None
              | _ :: _ => if IsValid assembled then Some assembled else None
              end).
  { unfold repair_decision. rewrite He0, Hv0, Hmv.
    destruct (IsEmpty (GeometryCollection members)) eqn:Her; [|reflexivity].
    subst extracted. now rewrite (empty_collection_no_member _ Her). }
  split_and!.
  - destruct (fix_geometry_multipolygon target fid (Some g0) c Hflat)
      as (t & c' & Hfix & Hcount).
    exists t, (repair_decision (Some g0)), c'. split; [exact Hfix|].
    rewrite Hv0 in Hcount. rewrite Hdecision in *.
    destruct extracted as [|p ps] eqn:Hex.
    + split_and!; [split; [discriminate|intros [? _]; congruence]
                  |split; [intros _ [? _]; congruence|reflexivity]
                  |discriminate|intros _; lia].
    + destruct (IsValid assembled) eqn:Hva.
      * split_and!; [split; [auto|reflexivity]
                    |split; [discriminate|intros Hn; exfalso; apply Hn; auto]
                    |intros _; lia|discriminate].
      * split_and!; [split; [discriminate|intros [_ ?]; discriminate]
                    |split; [intros _ [_ ?]; discriminate|reflexivity]
                    |discriminate|intros _; lia].
  - intros layer t layer' Htarget. unfold fix_layer_geometries. cbv zeta.
    rewrite log_bind.
    destruct (GetFeatureCount layer =? 0) eqn:Hcount.
    { rewrite log_bind. cbn. intros [= _ <-].
      now rewrite (count_zero_features _ Hcount). }
    rewrite Htarget.
    destruct (fix_loop_multipolygon target (layer_defn layer)
                (layer_features layer) Hflat [] no_counts) as (tl & c1 & ->).
    rewrite bind_eq. cbn [fst snd app]. rewrite log_bind, bind_eq.
    destruct (clear_and_repopulate_layer drv layer _) as [tr [[ok l]|e]] eqn:Hrun;
      [|discriminate].
    rewrite log_bind. cbn. intros [= _ -> ->].
    destruct (rewrite_result _ _ _ _ _ _ Hrun)
      as [[? _]|[(_ & Hno & _)|[_ ->]]]; [discriminate| |].
    { exfalso. exact (count_nonzero_features _ _ Hcount Hno). }
    destruct (rewritten_content layer
                (omap (repair_candidate (layer_defn layer)) (layer_features layer)))
      as (-> & _).
    apply written_repair_candidates.
  - intros p rings pts Hmembers -> Hvalid Hassembled. rewrite Hdecision.
    assert (Hex : extracted = [Polygon rings]).
    { subst extracted members.
      rewrite filter_cons_True by exact Hvalid.
      rewrite filter_cons_False; [reflexivity|].
      unfold valid_polygon_member.
      rewrite (bool_decide_eq_false_2 (_ = wkbPolygon)) by discriminate.
      now rewrite andb_false_r. }
    subst assembled. rewrite Hex. now rewrite Hassembled.
Qed.

End StageFacts.

Lemma C5_collection_repair_witness :
  repair_decision (Some bow_tie) = Some (MultiPolygon [triangle])
  /\ map content (layer_features repaired_example)
     = omap (repaired_content (layer_defn repair_example))
            (layer_features repair_example).
Proof.
  pose (r := fix_layer_geometries healthy_driver repair_example).
  assert (Hrun : r = (r.1, Returned (true, repaired_example)))
    by (vm_compute; reflexivity).
  assert (He0 : IsEmpty bow_tie = false) by (vm_compute; reflexivity).
  assert (Hv0 : IsValid bow_tie = false) by (vm_compute; reflexivity).
  assert (Hmv : MakeValid bow_tie
                = Returned (Some (GeometryCollection [triangle; degenerate_line])))
    by (vm_compute; reflexivity).
  destruct (C5_collection_repair healthy_driver wkbMultiPolygon_type 1 bow_tie
              [triangle; degenerate_line] no_counts
              eq_refl He0 Hv0 Hmv) as (_ & Hlayer & Hscenario).
  split.
  - eapply Hscenario; [reflexivity|reflexivity|vm_compute; reflexivity
                      |vm_compute; reflexivity].
  - exact (Hlayer repair_example r.1 repaired_example eq_refl Hrun).
Defined.

(** ** The DN filter *)

Section DNFacts.
Context `{GeometryEngine} (drv : Driver).

Lemma dn_filter_feature_eq keep_dn_value field_names st f :
  dn_filter_feature keep_dn_value field_names st f
  = ([], Returned (if dn_keeps keep_dn_value f
                   then (st.1 ++ [dn_candidate_of field_names f], st.2 + 1)
                   else st)).
Proof.
  unfold dn_filter_feature, dn_keeps, dn_candidate_of. cbv zeta.
  destruct (py_eq_int (GetField f "DN") keep_dn_value); [|reflexivity].
  destruct (geometry f) as [g|]; [|reflexivity].
  now destruct (negb (IsEmpty g) && IsValid g).
Qed.

Lemma dn_loop_eq keep_dn_value field_names fs : forall acc n,
  foldM (dn_filter_feature keep_dn_value field_names) fs (acc, n)
  = ([], Returned
           (acc ++ map (dn_candidate_of field_names)
                       (filter (fun f => dn_keeps keep_dn_value f = true) fs),
            n + Z.of_nat (length (filter (fun f => dn_keeps keep_dn_value f = true) fs)))).
Proof.
  induction fs as [|f fs IH]; intros acc n; cbn [foldM].
  - rewrite filter_nil. cbn. now rewrite app_nil_r, Z.add_0_r.
  - rewrite dn_filter_feature_eq, bind_eq. cbn [fst snd].
    destruct (dn_keeps keep_dn_value f) eqn:Hkeep.
    + rewrite filter_cons_True by exact Hkeep. rewrite IH.
      cbn [fst snd app map length]. rewrite <- app_assoc. cbn [app].
      replace (n + 1 + Z.of_nat (length (filter (fun f => dn_keeps keep_dn_value f = true) fs)))
        with (n + Z.of_nat (S (length (filter (fun f => dn_keeps keep_dn_value f = true) fs))))
        by lia.
      reflexivity.
    + rewrite filter_cons_False by (rewrite Hkeep; discriminate).
      rewrite IH. reflexivity.
Qed.

Lemma filter_full_length {A} (P : A -> Prop) `{forall x, Decision (P x)}
    (l : list A) :
  length (filter P l) = length l -> filter P l = l.
Proof.
  induction l as [|x l IH]; [reflexivity|].
  rewrite filter_cons. destruct (decide (P x)) as [Hp|Hn]; cbn.
  - intros [= Hlen]. f_equal. now apply IH.
  - pose proof (length_filter P l). lia.
Qed.

Lemma written_dn_candidates field_names (fs : list Feature) :
  Forall (fun f => exists g, geometry f = Some g /\ IsEmpty g = false) fs ->
  omap (written field_names) (map (dn_candidate_of field_names) fs)
  = map (fun f => (geometry f,
                   stored_fields field_names (read_attrs field_names f))) fs.
Proof.
  induction 1 as [|f fs (g & Hg & Hne) _ IH]; [reflexivity|].
  cbn [map omap list_omap]. rewrite IH.
  unfold written, kept_geometry, dn_candidate_of. cbn. rewrite Hg. cbn.
  unfold Clone. now rewrite Hne.
Qed.

Lemma dn_keeps_geometry keep_dn_value f :
  dn_keeps keep_dn_value f = true ->
  py_eq_int (GetField f "DN") keep_dn_value = true
  /\ exists g, geometry f = Some g /\ IsEmpty g = false /\ IsValid g = true.
Proof.
  unfold dn_keeps. rewrite andb_true_iff. intros [Hdn Hgeom].
  split; [exact Hdn|]. destruct (geometry f) as [g|]; [|discriminate].
  apply andb_true_iff in Hgeom as [Hne Hv]. apply negb_true_iff in Hne. eauto.
Qed.

(** C6 (amended): when [filter_layer_by_dn] returns success, the layer
    holds exactly the features whose DN field equals the target value and
    whose geometry is valid and non-empty, in order, with their geometry
    and schema attributes, so every remaining feature has DN equal to the
    target value (1 in the pipeline); on a non-empty layer whose schema
    lacks a DN field it fails at once, without a rewrite and with the
    layer unchanged.  (An empty layer is reported as success before the
    schema is looked at.) *)
Theorem C6_dn_filter (layer : Layer) (keep_dn_value : Z) t o :
  filter_layer_by_dn drv layer keep_dn_value = (t, o) ->
  (forall layer', o = Returned (true, layer') ->
     Forall2 (same_feature (layer_defn layer)) (layer_features layer')
             (filter (fun f => dn_keeps keep_dn_value f = true)
                     (layer_features layer))
     /\ (forall f', f' ∈ layer_features layer' ->
           py_eq_int (GetField f' "DN") keep_dn_value = true))
  /\ (layer_features layer <> [] -> ~ ("DN" ∈ layer_defn layer) ->
      o = Returned (false, layer)
      /\ t = [Log (StageApplying DNFilter); Log ErrNoDNField]).
Proof.
  unfold filter_layer_by_dn. cbv zeta. rewrite log_bind.
  destruct (GetFeatureCount layer =? 0) eqn:Hcount.
  { rewrite log_bind. cbn. intros [= <- <-].
    pose proof (count_zero_features _ Hcount) as Hnil. split.
    - intros layer' [= <-]. rewrite Hnil. split; [constructor|].
      intros f' Hin. now apply elem_of_nil in Hin.
    - congruence. }
  pose proof (GetFieldIndex_nonneg (layer_defn layer) "DN") as Hidx.
  destruct (GetFieldIndex (layer_defn layer) "DN" <? 0) eqn:Hneg.
  { rewrite log_bind. cbn. intros [= <- <-]. split.
    - intros layer'. discriminate.
    - auto. }
  assert (Hdn : "DN" ∈ layer_defn layer).
  { apply Z.ltb_ge in Hneg. apply Z.leb_le in Hneg. rewrite Hneg in Hidx.
    symmetry in Hidx. now apply bool_decide_eq_true in Hidx. }
  rewrite dn_loop_eq, bind_eq. cbn [fst snd app].
  set (kept := filter (fun f => dn_keeps keep_dn_value f = true)
                      (layer_features layer)).
  assert (Hkept : Forall (fun f => dn_keeps keep_dn_value f = true) kept).
  { apply Forall_forall. intros f Hf. now apply list_elem_of_filter in Hf. }
  assert (Hall_dn : forall fs,
            Forall2 (same_feature (layer_defn layer)) fs kept ->
            forall f', f' ∈ fs -> py_eq_int (GetField f' "DN") keep_dn_value = true).
  { intros fs Hfs f' Hin. apply list_elem_of_lookup in Hin as [i Hi].
    destruct (Forall2_lookup_l _ _ _ _ _ Hfs Hi) as (f & Hf & _ & Hattrs).
    rewrite (Hattrs "DN" Hdn).
    rewrite Forall_forall in Hkept.
    apply (dn_keeps_geometry keep_dn_value f), Hkept.
    apply list_elem_of_lookup. eauto. }
  destruct ((0 + Z.of_nat (length kept) =? GetFeatureCount layer)
            && (0 <? GetFeatureCount layer)) eqn:Hskip.
  { (* every feature met the criteria: no rewrite *)
    rewrite log_bind. cbn. intros [= <- <-]. split; [|tauto].
    intros layer' [= <-].
    assert (Hfull : kept = layer_features layer).
    { apply filter_full_length. apply andb_true_iff in Hskip as [Hlen _].
      apply Z.eqb_eq in Hlen. unfold GetFeatureCount in Hlen. subst kept. lia. }
    assert (Hsame : Forall2 (same_feature (layer_defn layer))
                            (layer_features layer) kept).
    { rewrite Hfull. apply Forall_Forall2_diag, Forall_forall.
      intros f _. split; [reflexivity|]. now intros name _. }
    split; [exact Hsame|]. now apply Hall_dn. }
  rewrite bind_eq.
  destruct (clear_and_repopulate_layer drv layer _) as [tr [[ok l]|e]] eqn:Hrun.
  2:{ cbn. intros [= <- <-]. split; [discriminate|tauto]. }
  rewrite log_bind. cbn. intros [= <- <-]. split; [|tauto].
  intros layer' [= -> ->].
  destruct (rewrite_result _ _ _ _ _ _ Hrun)
    as [[? _]|[(_ & Hno & _)|[_ ->]]]; [discriminate| |].
  { exfalso. exact (count_nonzero_features _ _ Hcount Hno). }
  destruct (rewritten_content layer (map (dn_candidate_of (layer_defn layer)) kept))
    as (Hcontent & _).
  rewrite written_dn_candidates in Hcontent.
  2:{ eapply Forall_impl; [exact Hkept|]. intros f Hf.
      destruct (dn_keeps_geometry _ _ Hf) as (_ & g & Hg & Hne & _). eauto. }
  assert (Hsame : Forall2 (same_feature (layer_defn layer))
                          (layer_features
                             (rewritten layer
                                (map (dn_candidate_of (layer_defn layer)) kept)))
                          kept).
  { revert Hcontent. generalize (layer_features
        (rewritten layer (map (dn_candidate_of (layer_defn layer)) kept))).
    clear. induction kept as [|f kept IH]; intros fs Hmap.
    - destruct fs; [constructor|discriminate].
    - destruct fs as [|f' fs]; [discriminate|].
      injection Hmap as Hgeom Hfields Hmap. constructor; [|now apply IH].
      split; [exact Hgeom|]. now apply stored_read_attrs. }
  split; [exact Hsame|]. now apply Hall_dn.
Qed.

End DNFacts.

(** C6 (as stated, refuted): on an empty layer whose schema has no DN
    field the stage reports success. *)
Lemma C6_empty_layer_counterexample :
  ~ ("DN" ∈ layer_defn (bare_layer []))
  /\ filter_layer_by_dn healthy_driver (bare_layer []) 1
     = ([Log (StageApplying DNFilter); Log (StageLayerEmpty DNFilter)],
        Returned (true, bare_layer [])).
Proof.
  split; [|reflexivity]. cbn. apply not_elem_of_nil.
Qed.

Lemma C6_dn_filter_witness :
  (filter_layer_by_dn healthy_driver
     (dn_layer [dn_feature 1 bow_tie 1; dn_feature 2 unit_square 1;
                dn_feature 3 triangle 2]) 1).2
  = Returned (true,
              {| layer_defn := ["DN"]; GetGeomType := wkbMultiPolygon_type;
                 layer_features := [dn_feature 4 unit_square 1];
                 next_fid := 5 |})
  /\ forall f', f' ∈ [dn_feature 4 unit_square 1] ->
        py_eq_int (GetField f' "DN") 1 = true.
Proof.
  pose (layer := dn_layer [dn_feature 1 bow_tie 1; dn_feature 2 unit_square 1;
                           dn_feature 3 triangle 2]).
  pose (r := filter_layer_by_dn healthy_driver layer 1).
  destruct (C6_dn_filter healthy_driver layer 1 r.1 r.2 (surjective_pairing r))
    as [Hkeep _].
  split; [vm_compute; reflexivity|].
  refine (proj2 (Hkeep {| layer_defn := ["DN"]; GetGeomType := wkbMultiPolygon_type;
                         layer_features := [dn_feature 4 unit_square 1];
                         next_fid := 5 |} _)).
  vm_compute. reflexivity.
Defined.

(** ** The orchestrator *)

(** Proves [traced E Q m] for a computation built from the primitives. *)
Ltac traced_auto :=
  repeat first
    [ apply traced_ret | apply traced_raise | apply traced_engine_call
    | apply traced_log; [reflexivity|exact I]
    | apply traced_emit; [reflexivity|exact I]
    | apply traced_ogr_call; [reflexivity|intros; exact I]
    | apply traced_bind; [|intros]
    | apply traced_try_except;
        [ |intros|intros; apply Forall_forall; intros; exact I]
    | apply traced_foldM; intros
    | match goal with
      | |- traced _ _ (if ?b then _ else _) => destruct b
      | |- traced _ _ (match ?x with _ => _ end) => destruct x
      | |- traced _ _ (let '(_, _) := ?x in _) => destruct x
      end ].

Section OrchestratorFacts.
Context `{GeometryEngine} `{SpatialRef} (w : World).

Abbreviation no_output :=
  (traced (fun ev => creates_output ev = false) (fun _ => True)).

Lemma get_raster_info_no_output ds : no_output (get_raster_info ds).
Proof. unfold get_raster_info. cbv zeta. traced_auto. Qed.

Lemma validated_info_no_output path : no_output (validated_info w path).
Proof.
  unfold validated_info. apply traced_bind; [apply traced_engine_call|].
  intros [ds|]; [|apply traced_raise].
  apply traced_bind; [apply get_raster_info_no_output|]. intros info.
  traced_auto.
Qed.

Lemma validate_input_rasters_no_output paths :
  no_output (validate_input_rasters w paths).
Proof.
  unfold validate_input_rasters. destruct paths as [|first rest]; [traced_auto|].
  apply traced_try_except; [|intros; traced_auto
                            |intros; apply Forall_forall; intros; exact I].
  apply traced_bind; [apply validated_info_no_output|]. intros info.
  apply traced_bind; [|intros; traced_auto].
  apply traced_foldM. intros [] path. unfold validate_against.
  apply traced_bind; [apply validated_info_no_output|]. intros. traced_auto.
Qed.

Lemma prepare_output_no_output params : no_output (prepare_output w params).
Proof. unfold prepare_output. traced_auto. Qed.

(** The validation loop raises as soon as it meets a raster whose SRS
    differs from the first one, if not before. *)
Lemma validation_loop_raises first_path target_srs rest path srs :
  path ∈ rest -> crs_of w path = Some srs -> IsSame target_srs srs = false ->
  exists t e, foldM (validate_against w first_path target_srs) rest tt
              = (t, Raised e).
Proof.
  intros Hin Hcrs Hdiff. induction rest as [|p rest IH]; [now apply elem_of_nil in Hin|].
  cbn [foldM]. rewrite bind_eq.
  destruct (validate_against w first_path target_srs () p) as [t1 [[]|e]] eqn:Hstep;
    [|eauto].
  apply elem_of_cons in Hin as [->|Hin].
  - exfalso. unfold validate_against in Hstep. rewrite bind_eq in Hstep.
    unfold crs_of in Hcrs.
    destruct (validated_info w p) as [ti [info|e]]; [|discriminate].
    cbn in Hcrs. injection Hcrs as Hsrs.
    rewrite Hsrs, Hdiff in Hstep. discriminate.
  - destruct (IH Hin) as (t2 & e & ->). cbn. eauto.
Qed.

Lemma prepare_output_cases params :
  exists t prepared,
    prepare_output w params = (t, Returned prepared)
    /\ (prepared = false -> QueuePut PROCESS_COMPLETE_FAILURE ∈ t).
Proof.
  destruct (delete_datasource_err w =? OGRERR_NONE) eqn:Herr.
  all: unfold prepare_output, ogr_call, emit, log_message, emit.
  all: destruct (output_dir_exists w), (makedirs_ok w), (output_exists w),
         (force params), (gpkg_driver w), (remove_ok w); cbn;
       rewrite ?Herr; cbn; rewrite ?Herr; cbn;
       eexists _, _; (split; [reflexivity|]); intros Hp; try discriminate Hp;
       rewrite ?elem_of_cons; tauto.
Qed.

Lemma crs_of_validated path srs :
  crs_of w path = Some srs ->
  exists t info, validated_info w path = (t, Returned info) /\ info_srs info = srs.
Proof.
  unfold crs_of. destruct (validated_info w path) as [t [info|e]]; [|discriminate].
  cbn. intros [= <-]. eauto.
Qed.

Lemma no_output_not_in {A} (m : Run A) ok :
  no_output m -> CreateDataSource_called ok ∉ m.1.
Proof.
  intros [Hall _] Hin. rewrite Forall_forall in Hall. now apply Hall in Hin.
Qed.

(** C7 (amended): in a batch of two or more rasters where some raster
    after the first has an SRS that [IsSame] does not accept as the first
    raster's (line 864), the validation fails, and the run returns
    failure, signals PROCESS_COMPLETE_FAILURE and never calls
    [CreateDataSource]: no output container is created.  The test is the
    library's [IsSame], not equality of the descriptors. *)
Theorem C7_crs_mismatch_no_output (params : Params) (first_path : string)
    (rest : list string) (path : string) (first_srs srs : SRS) :
  input_rasters params = first_path :: rest ->
  path ∈ rest ->
  crs_of w first_path = Some first_srs -> crs_of w path = Some srs ->
  IsSame first_srs srs = false ->
  (exists t, validate_input_rasters w (input_rasters params) = (t, Returned None)
             /\ Log ErrValidation ∈ t
             /\ QueuePut PROCESS_COMPLETE_FAILURE ∈ t)
  /\ (forall ok, CreateDataSource_called ok ∉ (run_processing w params).1)
  /\ (forall r, (run_processing w params).2 = Returned r ->
        r.1 = false /\ final_layers r.2 = None
        /\ QueuePut PROCESS_COMPLETE_FAILURE ∈ (run_processing w params).1)
  /\ (is_Some (threshold_255 (conf_thresh_bldg_pct params)) ->
      is_Some (threshold_255 (conf_thresh_road_pct params)) ->
      exists r, (run_processing w params).2 = Returned r).
Proof.
  intros Hinput Hin Hfirst Hpath Hdiff.
  assert (Hvalidate :
            exists t, validate_input_rasters w (input_rasters params)
                      = (t, Returned None)
                      /\ Log ErrValidation ∈ t
                      /\ QueuePut PROCESS_COMPLETE_FAILURE ∈ t).
  { rewrite Hinput. unfold validate_input_rasters.
    destruct (crs_of_validated _ _ Hfirst) as (t1 & info1 & Hinfo1 & Hsrs1).
    rewrite try_except_eq, bind_eq, Hinfo1. cbn [fst snd]. rewrite bind_eq.
    destruct (validation_loop_raises first_path (info_srs info1) rest path srs
                Hin Hpath) as (t2 & e & ->); [now rewrite Hsrs1|].
    cbn. eexists. split; [reflexivity|].
    rewrite !elem_of_app, !elem_of_cons. tauto. }
  split; [exact Hvalidate|].
  destruct Hvalidate as (tv & Hv & _ & Hqueue).
  pose proof (validate_input_rasters_no_output (input_rasters params)) as Hvno.
  pose proof (prepare_output_no_output params) as Hpno.
  destruct (prepare_output_cases params) as (tp & prepared & Hp & Hpq).
  rewrite Hv in Hvno. rewrite Hp in Hpno.
  assert (Hrun :
            match threshold_255 (conf_thresh_bldg_pct params),
                  threshold_255 (conf_thresh_road_pct params) with
            | Some _, Some _ =>
                exists t r, run_processing w params = (t, Returned r)
                  /\ r.1 = false /\ final_layers r.2 = None
                  /\ QueuePut PROCESS_COMPLETE_FAILURE ∈ t
                  /\ forall ok, CreateDataSource_called ok ∉ t
            | _, _ => run_processing w params = ([], Raised "ValueError")
            end).
  { unfold run_processing. cbv zeta.
    destruct (threshold_255 (conf_thresh_bldg_pct params)) as [tb|]; [|reflexivity].
    destruct (threshold_255 (conf_thresh_road_pct params)) as [tr|]; [|reflexivity].
    rewrite bind_eq, Hp. destruct prepared; cbn [negb fst snd].
    - rewrite bind_eq, Hv. cbn. eexists _, _. split; [reflexivity|].
      split_and!; [reflexivity|reflexivity| |].
      + rewrite elem_of_app. right. now rewrite app_nil_r.
      + intros ok Hin'. rewrite app_nil_r, elem_of_app in Hin'.
        destruct Hin' as [Hin'|Hin'].
        * now apply (no_output_not_in _ ok Hpno).
        * now apply (no_output_not_in _ ok Hvno).
    - cbn. eexists _, _. split; [reflexivity|].
      split_and!; [reflexivity|reflexivity| |].
      + rewrite app_nil_r. now apply Hpq.
      + intros ok Hin'. rewrite app_nil_r in Hin'.
        now apply (no_output_not_in _ ok Hpno). }
  destruct (threshold_255 (conf_thresh_bldg_pct params)) as [tb|].
  2:{ rewrite Hrun. split_and!.
      - intros ok Hin'. now apply elem_of_nil in Hin'.
      - intros r. discriminate.
      - intros [x Hx]. discriminate. }
  destruct (threshold_255 (conf_thresh_road_pct params)) as [tr|].
  2:{ rewrite Hrun. split_and!.
      - intros ok Hin'. now apply elem_of_nil in Hin'.
      - intros r. discriminate.
      - intros _ [x Hx]. discriminate. }
  destruct Hrun as (t & r & -> & Hfalse & Hnone & Hq & Hno).
  split_and!.
  - exact Hno.
  - intros r' [= <-]. auto.
  - intros _ _. eauto.
Qed.

End OrchestratorFacts.

Lemma C7_crs_mismatch_no_output_witness :
  (run_processing (toy_world two_crs_files) (toy_params ["a.tif"; "b.tif"])).2
  = Returned (false, {| success_roads := false; success_buildings := false;
                        final_layers := None |})
  /\ forall ok, CreateDataSource_called ok
                ∉ (run_processing (toy_world two_crs_files)
                     (toy_params ["a.tif"; "b.tif"])).1.
Proof.
  assert (Hin : "b.tif" ∈ ["b.tif"]) by apply list_elem_of_here.
  assert (Ha : crs_of (toy_world two_crs_files) "a.tif" = Some "EPSG:32633")
    by (vm_compute; reflexivity).
  assert (Hb : crs_of (toy_world two_crs_files) "b.tif" = Some "EPSG:4326")
    by (vm_compute; reflexivity).
  destruct (C7_crs_mismatch_no_output (toy_world two_crs_files)
              (toy_params ["a.tif"; "b.tif"]) "a.tif" ["b.tif"] "b.tif"
              ("EPSG:32633" : @SRS toy_srs) ("EPSG:4326" : @SRS toy_srs)
              eq_refl Hin Ha Hb eq_refl)
    as (_ & Hno & _).
  split; [vm_compute; reflexivity|exact Hno].
Defined.

(** C7 (as stated, refuted): two rasters whose CRS descriptors are not
    equal, but which [IsSame] accepts as the same system, pass the
    validation: the output container is created and the run goes on to
    success. *)
Lemma C7_renamed_crs_counterexample :
  @crs_of lenient_srs (toy_world renamed_crs_files) "a.tif"
  = Some ("EPSG:32633 WGS_1984_UTM_Zone_33N" : @SRS lenient_srs)
  /\ @crs_of lenient_srs (toy_world renamed_crs_files) "b.tif"
     = Some ("EPSG:32633 UTM33N" : @SRS lenient_srs)
  /\ "EPSG:32633 WGS_1984_UTM_Zone_33N" <> "EPSG:32633 UTM33N"
  /\ @IsSame lenient_srs "EPSG:32633 WGS_1984_UTM_Zone_33N" "EPSG:32633 UTM33N"
     = true
  /\ (@validate_input_rasters lenient_srs (toy_world renamed_crs_files)
        ["a.tif"; "b.tif"]).2
     = Returned (Some ("EPSG:32633 WGS_1984_UTM_Zone_33N" : @SRS lenient_srs))
  /\ CreateDataSource_called true
     ∈ (@run_processing toy_engine lenient_srs (toy_world renamed_crs_files)
          (toy_params ["a.tif"; "b.tif"])).1
  /\ match (@run_processing toy_engine lenient_srs
              (toy_world renamed_crs_files)
              (toy_params ["a.tif"; "b.tif"])).2 with
     | Returned (overall_success, res) =>
         overall_success = true /\ is_Some (final_layers res)
     | Raised _ => False
     end.
Proof.
  split_and!; try (vm_compute; reflexivity).
  - discriminate.
  - vm_compute. repeat constructor.
  - vm_compute. split; [reflexivity|eauto].
Qed.

(** ** Empty extraction *)

Lemma row_sum_zero threshold_value (row : list Z) :
  0 <= foldr Z.add 0 (map (thresholded_cell threshold_value) row)
  /\ (foldr Z.add 0 (map (thresholded_cell threshold_value) row) = 0
      <-> Forall (fun pixel => pixel < threshold_value) row).
Proof.
  induction row as [|pixel row [IHpos IH]]; cbn.
  - split; [lia|]. split; [constructor|reflexivity].
  - unfold thresholded_cell at 1 3.
    destruct (Z.leb_spec threshold_value pixel) as [Hle|Hlt].
    + split; [lia|]. split; [lia|]. intros Hall. inversion Hall. lia.
    + split; [lia|]. rewrite Z.add_0_l, IH. split.
      * now constructor.
      * intros Hall. now inversion Hall.
Qed.

(** The sum of the mask is zero exactly when no pixel reaches the
    cutoff. *)
Lemma np_sum_zero threshold_value band_array :
  0 <= np_sum (thresholded_array threshold_value band_array)
  /\ (np_sum (thresholded_array threshold_value band_array) = 0
      <-> below_cutoff threshold_value band_array).
Proof.
  unfold below_cutoff, np_sum, thresholded_array.
  induction band_array as [|row rows [IHpos IH]]; cbn.
  - split; [lia|]. split; [constructor|reflexivity].
  - destruct (row_sum_zero threshold_value row) as [Hpos Hrow].
    split; [lia|]. split.
    + intros Hsum. constructor; [apply Hrow|apply IH]; lia.
    + intros Hall. inversion Hall as [|? ? Hr Hrs]; subst.
      apply Hrow in Hr. apply IH in Hrs. lia.
Qed.

(** Zero pixels at or above the cutoff: the extraction reports success
    and leaves the layer as it is. *)
Lemma initial_polygonize_band_zero ex ds band_num band band_array
    threshold_value out_layer :
  0 < band_num <= RasterCount ds ->
  GetRasterBand ds band_num = Some band ->
  ReadAsArray band = Returned (Some band_array) ->
  below_cutoff threshold_value band_array ->
  initial_polygonize_band ex ds band_num threshold_value out_layer
  = ([Log (ApplyingThreshold threshold_value); Log (WarnNoPixels threshold_value)],
     Returned (true, out_layer)).
Proof.
  intros [Hlo Hhi] Hband Hread Hbelow. unfold initial_polygonize_band.
  destruct (Z.leb_spec band_num 0); [lia|].
  destruct (Z.ltb_spec (RasterCount ds) band_num); [lia|].
  cbn [orb]. rewrite Hband, Hread. cbn.
  apply np_sum_zero in Hbelow. rewrite Hbelow. reflexivity.
Qed.


Section EmptyClassFacts.
Context `{GeometryEngine} `{SpatialRef} (w : World).






End EmptyClassFacts.



(** * Further properties of the pipeline *)

(** ** Chaikin: any number of iterations *)

(** The iteration number only appears in the warning. *)
Lemma chaikin_loop_iter_num k : forall i j (P : list point),
  (chaikin_loop k i P).1 = (chaikin_loop k j P).1.
Proof.
  induction k as [|k IH]; intros i j P; [reflexivity|].
  cbn [chaikin_loop]. destruct (length P <? 4)%nat; [reflexivity|].
  destruct (chaikin_pass P); [apply IH|reflexivity].
Qed.

(** The last pass of a run of at least one pass. *)
Lemma chaikin_loop_last_pass k : forall i (P : list point),
  (4 <= length P)%nat ->
  exists Q, (4 <= length Q)%nat
            /\ chaikin_pass Q = Some (chaikin_loop (S k) i P).1.
Proof.
  induction k as [|k IH]; intros i P Hn.
  - exists P. split; [exact Hn|]. cbn [chaikin_loop].
    destruct (Nat.ltb_spec (length P) 4) as [Hlt|_]; [lia|].
    destruct (chaikin_pass_some P ltac:(lia)) as (first & _ & ->). reflexivity.
  - remember (S k) as k' eqn:Hk'. cbn [chaikin_loop].
    destruct (Nat.ltb_spec (length P) 4) as [Hlt|_]; [lia|].
    destruct (chaikin_pass_some P ltac:(lia)) as (first & _ & Heq).
    rewrite Heq. subst k'. apply IH.
    rewrite length_app, temp_ring_pts_length. cbn. lia.
Qed.

Lemma chaikin_loop_app a : forall b i j (P : list point),
  (4 <= length P)%nat ->
  (chaikin_loop (a + b) i P).1 = (chaikin_loop b j (chaikin_loop a i P).1).1.
Proof.
  induction a as [|a IH]; intros b i j P Hn.
  - cbn. apply chaikin_loop_iter_num.
  - cbn [Nat.add chaikin_loop].
    destruct (Nat.ltb_spec (length P) 4) as [Hlt|_]; [lia|].
    destruct (chaikin_pass_some P ltac:(lia)) as (first & _ & Heq).
    rewrite Heq. apply IH.
    rewrite length_app, temp_ring_pts_length. cbn. lia.
Qed.

(** X1: whatever the input ring looks like (closed or not), after any
    number [k >= 1] of iterations on at least four points the returned
    sequence is closed: it is not empty and its last point is its first. *)
Theorem chaikin_result_closed (points : list point) (iterations : Z) :
  (4 <= length points)%nat -> 1 <= iterations ->
  let out := (_apply_chaikin_to_ring points iterations).1 in
  is_Some (head out) /\ last out = head out.
Proof.
  intros Hn Hk out. subst out. unfold _apply_chaikin_to_ring.
  destruct (Nat.ltb_spec (length points) 4) as [Hlt|_]; [lia|].
  destruct (Z.to_nat iterations) as [|k] eqn:Hiter; [lia|].
  destruct (chaikin_loop_last_pass k 0%nat points Hn) as (Q & HQ & Hpass).
  destruct (chaikin_pass_some Q ltac:(lia)) as (first & Hhead & Heq).
  assert (Hout : (chaikin_loop (S k) 0 points).1 = temp_ring_pts Q ++ [first])
    by congruence.
  rewrite Hout, last_snoc. destruct (temp_ring_pts Q); [discriminate|].
  cbn in *. split; [eauto|congruence].
Qed.

Lemma chaikin_result_closed_witness :
  last (_apply_chaikin_to_ring [(0, 0); (4, 0); (4, 4); (0, 4)]%float 2).1
  = head (_apply_chaikin_to_ring [(0, 0); (4, 0); (4, 4); (0, 4)]%float 2).1.
Proof.
  refine (proj2 (chaikin_result_closed [(0, 0); (4, 0); (4, 4); (0, 4)]%float 2
                   _ _)); [cbn; lia|lia].
Defined.

(** X2: iterations compose: on at least four points, [a + b] iterations
    give the result of [b] iterations on the result of [a] iterations. *)
Theorem chaikin_iterations_compose (points : list point) (a b : Z) :
  (4 <= length points)%nat -> 0 <= a -> 0 <= b ->
  (_apply_chaikin_to_ring points (a + b)).1
  = (_apply_chaikin_to_ring (_apply_chaikin_to_ring points a).1 b).1.
Proof.
  intros Hn Ha Hb. unfold _apply_chaikin_to_ring.
  destruct (Nat.ltb_spec (length points) 4) as [Hlt|_]; [lia|].
  destruct (chaikin_loop_quiet (Z.to_nat a) 0%nat points Hn) as [_ Hlen].
  destruct (Nat.ltb_spec (length (chaikin_loop (Z.to_nat a) 0 points).1) 4)
    as [Hlt|_].
  { rewrite Hlen in Hlt.
    assert (1 <= 2 ^ Z.to_nat a)%nat by (clear; induction (Z.to_nat a); cbn; lia).
    nia. }
  rewrite Z2Nat.inj_add by lia. now apply chaikin_loop_app.
Qed.

Lemma chaikin_iterations_compose_witness :
  (_apply_chaikin_to_ring unit_square_ring 3).1
  = (_apply_chaikin_to_ring (_apply_chaikin_to_ring unit_square_ring 1).1 2).1.
Proof.
  refine (chaikin_iterations_compose unit_square_ring 1 2 _ _ _);
    [cbn; lia|lia|lia].
Defined.

(** ** What a successful rewrite stores *)

Lemma rewrite_stores drv layer data t layer' :
  clear_and_repopulate_layer drv layer data = (t, Returned (true, layer')) ->
  map content (layer_features layer') = omap (written (layer_defn layer)) data
  /\ layer_defn layer' = layer_defn layer
  /\ GetGeomType layer' = GetGeomType layer.
Proof.
  intros Hrun.
  destruct (rewrite_result _ _ _ _ _ _ Hrun)
    as [[? _]|[(_ & [Hnil ->] & ->)|[_ ->]]]; [discriminate| |].
  - rewrite Hnil. now split_and!.
  - apply rewritten_content.
Qed.

Lemma omap_written_length defn (data : list FeatureData) :
  length (omap (written defn) data) = length (omap kept_geometry data).
Proof.
  induction data as [|d data IH]; [reflexivity|].
  cbn [omap list_omap]. unfold written at 1.
  destruct (kept_geometry d); cbn; [f_equal|]; exact IH.
Qed.

Lemma elem_of_omap_written defn (data : list FeatureData) c :
  c ∈ omap (written defn) data ->
  exists d g, d ∈ data /\ kept_geometry d = Some g
              /\ c = (Some g, stored_fields defn (data_attributes d)).
Proof.
  intros Hin. apply list_elem_of_omap in Hin as (d & Hd & Hw).
  unfold written in Hw. destruct (kept_geometry d) as [g|] eqn:Hg; [|discriminate].
  cbn in Hw. injection Hw as <-. eauto.
Qed.

Lemma kept_geometry_nonempty d g :
  kept_geometry d = Some g -> data_geom d = Some g /\ IsEmpty g = false.
Proof.
  unfold kept_geometry. destruct (data_geom d) as [g'|]; [|discriminate].
  destruct (IsEmpty g') eqn:He; [discriminate|]. now intros [= <-].
Qed.

(** X3: when [clear_and_repopulate_layer] returns success, the layer
    holds, in order, exactly the candidates that have a non-empty
    geometry; each is stored with that geometry and with those of its
    attributes that name a field of the schema and carry a value.  A
    candidate without geometry or with an empty one is left out, and
    neither the schema nor the geometry type of the layer changes. *)
Theorem rewrite_success_content (drv : Driver) (layer : Layer)
    (features_data : list FeatureData) t layer' :
  clear_and_repopulate_layer drv layer features_data
  = (t, Returned (true, layer')) ->
  map content (layer_features layer')
  = omap (written (layer_defn layer)) features_data
  /\ GetFeatureCount layer' = kept_candidates features_data
  /\ layer_defn layer' = layer_defn layer
  /\ GetGeomType layer' = GetGeomType layer
  /\ (forall f', f' ∈ layer_features layer' ->
        exists d g, d ∈ features_data /\ data_geom d = Some g
                    /\ IsEmpty g = false /\ geometry f' = Some g
                    /\ forall name,
                         fields f' !! name
                         = match data_attributes d !! name with
                           | Some (PyField v) =>
                               if bool_decide (name ∈ layer_defn layer)
                               then Some v else None
                           | _ => None
                           end).
Proof.
  intros Hrun.
  destruct (rewrite_stores _ _ _ _ _ Hrun) as (Hcontent & Hdefn & Htype).
  split_and!; [exact Hcontent| |exact Hdefn|exact Htype|].
  - unfold GetFeatureCount, kept_candidates.
    rewrite <- (length_map content), Hcontent. f_equal. apply omap_written_length.
  - intros f' Hin.
    assert (Hc : content f' ∈ omap (written (layer_defn layer)) features_data).
    { rewrite <- Hcontent. now apply list_elem_of_fmap_2. }
    apply elem_of_omap_written in Hc as (d & g & Hd & Hkept & Heq).
    destruct (kept_geometry_nonempty _ _ Hkept) as [Hgeom Hne].
    unfold content in Heq. injection Heq as Hg Hf.
    exists d, g. split_and!; [assumption..|].
    intros name. rewrite Hf. apply stored_fields_lookup.
Qed.

Lemma rewrite_success_content_witness :
  exists layer',
    (clear_and_repopulate_layer healthy_driver
       (dn_layer [dn_feature 1 bow_tie 1])
       [dn_candidate (Some unit_square) 1; dn_candidate None 1;
        dn_candidate (Some (MultiPolygon [])) 1;
        dn_candidate (Some triangle) 2]).2 = Returned (true, layer')
    /\ map content (layer_features layer')
       = [(Some unit_square, {[ "DN" := FInteger 1 ]});
          (Some triangle, {[ "DN" := FInteger 2 ]})].
Proof.
  pose (data := [dn_candidate (Some unit_square) 1; dn_candidate None 1;
                 dn_candidate (Some (MultiPolygon [])) 1;
                 dn_candidate (Some triangle) 2]).
  pose (r := clear_and_repopulate_layer healthy_driver
               (dn_layer [dn_feature 1 bow_tie 1]) data).
  assert (Hrun : exists layer', r = (r.1, Returned (true, layer'))).
  { eexists. vm_compute. reflexivity. }
  destruct Hrun as [layer' Hrun]. exists layer'.
  split; [change (r.2 = Returned (true, layer')); now rewrite Hrun|].
  rewrite (proj1 (rewrite_success_content _ _ _ _ _ Hrun)).
  vm_compute. reflexivity.
Defined.

(** ** Attributes: read from a feature, written to a new one *)

Lemma set_fields_quiet layer_defn items : forall feature,
  Forall (fun item : string * PyValue => item.2 <> PyObject) items ->
  (foldM (set_field_step layer_defn) items feature).1 = [].
Proof.
  induction items as [|[name value] items IH]; intros feature Hall;
    [reflexivity|].
  apply Forall_cons in Hall as [Hitem Hall]. cbn [foldM].
  rewrite bind_eq.
  assert (Hstep : exists feature',
            set_field_step layer_defn feature (name, value)
            = ([], Returned feature')).
  { unfold set_field_step. cbn [fst snd].
    destruct (0 <=? GetFieldIndex layer_defn name); [|eauto].
    destruct value; cbn; eauto. now cbn in Hitem. }
  destruct Hstep as [feature' ->]. cbn. now apply IH.
Qed.

(** X4: the attribute round trip of every stage.  Reading the schema
    fields of a feature into a dict (the comprehension over
    [field_names]) and setting them on a new feature, as the rewrite
    does, never fails and logs nothing; the new feature carries exactly
    the fields of the old one that belong to the schema, and a field that
    was unset stays unset. *)
Theorem attribute_round_trip (field_names : list string) (feature : Feature)
    (fid : Z) (geom : option Geometry) :
  exists new_feature,
    set_fields field_names {| FID := fid; geometry := geom; fields := ∅ |}
               (read_attrs field_names feature)
    = ([], Returned new_feature)
    /\ geometry new_feature = geom
    /\ fields new_feature
       = filter (fun kv => kv.1 ∈ field_names) (fields feature)
    /\ forall name, name ∈ field_names ->
         GetField new_feature name = GetField feature name.
Proof.
  destruct (set_fields_fresh field_names
              {| FID := fid; geometry := geom; fields := ∅ |}
              (read_attrs field_names feature) eq_refl)
    as (t & new_feature & Hrun & _ & _ & Hgeom & Hfields).
  assert (Hquiet : t = []).
  { change t with (t, Returned new_feature).1. rewrite <- Hrun.
    apply set_fields_quiet. apply Forall_forall. intros [name value] Hin.
    apply elem_of_map_to_list in Hin. rewrite read_attrs_lookup in Hin.
    destruct (bool_decide (name ∈ field_names)); [|discriminate].
    injection Hin as <-. unfold GetField. cbn.
    now destruct (fields feature !! name). }
  subst t. exists new_feature. split_and!; [exact Hrun|exact Hgeom| |].
  - rewrite Hfields. apply map_eq. intros name.
    rewrite stored_fields_lookup, read_attrs_lookup.
    destruct (decide (name ∈ field_names)) as [Hin|Hout].
    + rewrite (bool_decide_eq_true_2 _ Hin). unfold GetField.
      destruct (fields feature !! name) as [v|] eqn:Hv.
      * symmetry. now apply map_lookup_filter_Some_2.
      * symmetry. apply map_lookup_filter_None_2. now left.
    + rewrite (bool_decide_eq_false_2 _ Hout).
      symmetry. apply map_lookup_filter_None_2. right. intros v _. exact Hout.
  - intros name Hin. exact (stored_read_attrs _ _ _ Hfields name Hin).
Qed.

(** ** From the loop of a stage to the layer it leaves *)

Lemma omap_written_stored defn (data : list FeatureData) :
  omap (written defn) data
  = map (fun d => (kept_geometry d, stored_fields defn (data_attributes d)))
        (stored_candidates data).
Proof.
  unfold stored_candidates.
  induction data as [|d data IH]; [reflexivity|].
  cbn [omap list_omap]. rewrite filter_cons. unfold written at 1.
  destruct (kept_geometry d) as [g|] eqn:Hg; cbn.
  - destruct (decide (is_Some (Some g))) as [_|Hno]; [|exfalso; eauto].
    cbn. now rewrite Hg, IH.
  - destruct (decide (is_Some (@None Geometry))) as [[? ?]|_]; [discriminate|].
    exact IH.
Qed.

Lemma map_eq_Forall2 {A B C} (f : A -> C) (g : B -> C) l : forall k,
  map f l = map g k -> Forall2 (fun x y => f x = g y) l k.
Proof.
  induction l as [|x l IH]; intros [|y k] Heq; try discriminate; [constructor|].
  injection Heq as Hxy Heq. constructor; [exact Hxy|now apply IH].
Qed.

(** A loop that, feature by feature, appends a candidate the rewrite will
    store exactly when [keep] holds of the feature. *)
Lemma foldM_select {A S} (data : S -> list FeatureData)
    (R : FeatureData -> A -> Prop) (keep : A -> bool) (f : S -> A -> Run S) l :
  (forall s a t s', f s a = (t, Returned s') ->
     (keep a = false
      /\ (data s' = data s
          \/ exists d, data s' = data s ++ [d] /\ kept_geometry d = None))
     \/ (keep a = true
         /\ exists d, data s' = data s ++ [d] /\ is_Some (kept_geometry d)
                      /\ R d a)) ->
  forall s t s', foldM f l s = (t, Returned s') ->
    exists ds, data s' = data s ++ ds
               /\ Forall2 R (stored_candidates ds)
                          (filter (fun a => keep a = true) l).
Proof.
  intros Hstep. unfold stored_candidates.
  induction l as [|a l IH]; intros s t s' Hrun.
  - cbn in Hrun. injection Hrun as _ <-. exists []. rewrite app_nil_r.
    split; [reflexivity|constructor].
  - cbn [foldM] in Hrun. rewrite bind_eq in Hrun.
    destruct (f s a) as [t1 [s1|e]] eqn:Hf; [|discriminate].
    destruct (foldM f l s1) as [t2 o2] eqn:Hrest. cbn in Hrun.
    injection Hrun as _ ->.
    destruct (IH _ _ _ Hrest) as (ds & Hds & Hall).
    rewrite filter_cons.
    destruct (Hstep _ _ _ _ Hf) as [[Hkeep Hdata]|[Hkeep (d & Hdata & Hsome & HR)]].
    + destruct (decide (keep a = true)) as [Hyes|_]; [congruence|].
      destruct Hdata as [Hdata|(d & Hdata & Hnone)].
      * exists ds. split; [now rewrite Hds, Hdata|exact Hall].
      * exists (d :: ds). split.
        { rewrite Hds, Hdata, <- app_assoc. reflexivity. }
        rewrite filter_cons.
        destruct (decide (is_Some (kept_geometry d))) as [[? Hs]|_];
          [congruence|exact Hall].
    + destruct (decide (keep a = true)) as [_|Hno]; [|congruence].
      exists (d :: ds). split.
      { rewrite Hds, Hdata, <- app_assoc. reflexivity. }
      rewrite filter_cons.
      destruct (decide (is_Some (kept_geometry d))) as [_|Hno]; [|contradiction].
      constructor; assumption.
Qed.

(** The loop of a stage followed by a successful rewrite: the layer
    holds one feature for every feature of the old layer that [keep]
    selects, in order. *)
Lemma loop_then_rewrite_exact {S} (proj : S -> list FeatureData)
    (R : FeatureData -> Feature -> Prop) (keep : Feature -> bool)
    (step : S -> Feature -> Run S) drv layer s0 tl s t layer' :
  proj s0 = [] ->
  (forall st f t st', step st f = (t, Returned st') ->
     (keep f = false
      /\ (proj st' = proj st
          \/ exists d, proj st' = proj st ++ [d] /\ kept_geometry d = None))
     \/ (keep f = true
         /\ exists d, proj st' = proj st ++ [d] /\ is_Some (kept_geometry d)
                      /\ R d f)) ->
  foldM step (layer_features layer) s0 = (tl, Returned s) ->
  clear_and_repopulate_layer drv layer (proj s) = (t, Returned (true, layer')) ->
  Forall2 (fun f' f =>
             exists d g, R d f /\ data_geom d = Some g /\ IsEmpty g = false
                         /\ geometry f' = Some g
                         /\ fields f'
                            = stored_fields (layer_defn layer) (data_attributes d))
          (layer_features layer')
          (filter (fun f => keep f = true) (layer_features layer)).
Proof.
  intros Hs0 Hstep Hloop Hrun.
  assert (Hsel : forall st f t st', step st f = (t, Returned st') ->
            (keep f = false
             /\ (proj st' = proj st
                 \/ exists d, proj st' = proj st ++ [d] /\ kept_geometry d = None))
            \/ (keep f = true
                /\ exists d, proj st' = proj st ++ [d] /\ is_Some (kept_geometry d)
                             /\ (R d f /\ is_Some (kept_geometry d)))).
  { intros st f t0 st' Hf.
    destruct (Hstep _ _ _ _ Hf) as [Hno|[Hkeep (d & Hd & Hsome & HR)]];
      [now left|right].
    split; [exact Hkeep|]. exists d. auto. }
  destruct (foldM_select proj _ keep step (layer_features layer) Hsel _ _ _ Hloop)
    as (ds & Hdata & Hall).
  rewrite Hs0 in Hdata. cbn in Hdata.
  destruct (rewrite_stores _ _ _ _ _ Hrun) as (Hcontent & _).
  rewrite Hdata, omap_written_stored in Hcontent.
  apply map_eq_Forall2 in Hcontent.
  eapply Forall2_trans; [|exact Hcontent|exact Hall].
  intros f' d f Hfd [HR [g Hg]]. cbn in Hfd.
  unfold content in Hfd. injection Hfd as Hgeom Hfields.
  destruct (kept_geometry_nonempty _ _ Hg) as [Hdg Hne].
  exists d, g. rewrite Hgeom, Hg. auto.
Qed.

Lemma stage_tail {X} (m : Run X) msg r :
  (r0 ← m; _ ← log_message msg; mret r0).2 = Returned r ->
  exists tr, m = (tr, Returned r)
             /\ (r0 ← m; _ ← log_message msg; mret r0).1 = tr ++ [Log msg].
Proof.
  rewrite bind_eq. destruct m as [tr [r0|e]]; [|discriminate].
  rewrite log_bind. cbn. intros [= <-]. eauto.
Qed.

(** ** The area filter *)

Section AreaFacts.
Context `{GeometryEngine} (drv : Driver).

Lemma area_filter_feature_select min_area field_names st f t st' :
  area_filter_feature min_area field_names st f = (t, Returned st') ->
  (area_keeps min_area f = false /\ st'.1 = st.1)
  \/ (area_keeps min_area f = true
      /\ st'.1 = st.1 ++ [dn_candidate_of field_names f]).
Proof.
  unfold area_filter_feature, area_keeps, dn_candidate_of. cbv zeta.
  destruct (geometry f) as [g|]; [|cbn; intros [= _ <-]; now left].
  destruct (IsEmpty g); [cbn; intros [= _ <-]; now left|].
  cbn [negb andb]. rewrite bind_eq, try_except_eq. unfold engine_call.
  rewrite bind_eq. destruct (Area g) as [area|e].
  - destruct (min_area <=? area)%float; cbn; intros [= _ <-]; auto.
  - cbn. intros [= _ <-]. now left.
Qed.

(** X5: a minimum area that is not positive disables the stage, which
    then leaves the layer as it is.  Otherwise, when the stage returns
    success, the layer holds exactly, in order and with their geometry
    and schema attributes, the features whose geometry is not empty and
    whose area the engine computes and finds at least [min_area]; a
    feature whose area computation raises is removed. *)
Theorem area_filter_keeps_large (layer : Layer) (min_area : float) t layer' :
  filter_layer_by_min_area drv layer min_area = (t, Returned (true, layer')) ->
  ((min_area <=? 0)%float = true -> layer' = layer)
  /\ ((min_area <=? 0)%float = false ->
      Forall2 (same_feature (layer_defn layer)) (layer_features layer')
              (filter (fun f => area_keeps min_area f = true)
                      (layer_features layer))
      /\ forall f', f' ∈ layer_features layer' ->
           exists g area, geometry f' = Some g /\ IsEmpty g = false
                          /\ Area g = Returned area
                          /\ (min_area <=? area)%float = true).
Proof.
  unfold filter_layer_by_min_area. cbv zeta.
  destruct (min_area <=? 0)%float.
  { rewrite log_bind. cbn. intros [= _ <-]. split; [reflexivity|discriminate]. }
  rewrite log_bind. intros Hrun. split; [discriminate|intros _].
  assert (Hsame : Forall2 (same_feature (layer_defn layer))
                          (layer_features layer')
                          (filter (fun f => area_keeps min_area f = true)
                                  (layer_features layer))).
  { destruct (GetFeatureCount layer =? 0) eqn:Hcount.
    { rewrite log_bind in Hrun. cbn in Hrun. injection Hrun as _ <-.
      rewrite (count_zero_features _ Hcount). constructor. }
    rewrite bind_eq in Hrun.
    destruct (foldM _ (layer_features layer) ([], 0))
      as [tl [[data n]|e]] eqn:Hloop; [|discriminate].
    rewrite log_bind in Hrun. cbn [fst snd] in Hrun.
    injection Hrun as _ Hres.
    apply stage_tail in Hres as (tr & Hrewrite & _).
    pose proof (loop_then_rewrite_exact fst
                  (fun d f => d = dn_candidate_of (layer_defn layer) f)
                  (area_keeps min_area)
                  (area_filter_feature min_area (layer_defn layer))
                  drv layer ([], 0) tl (data, n) tr layer' eq_refl) as Hexact.
    eapply Forall2_impl; [apply Hexact; [|exact Hloop|exact Hrewrite]|].
    - intros st f t0 st' Hstep.
      destruct (area_filter_feature_select _ _ _ _ _ _ Hstep)
        as [[Hno Hst]|[Hyes Hst]]; [left; auto|right].
      split; [exact Hyes|]. eexists. split; [exact Hst|]. split; [|reflexivity].
      unfold area_keeps in Hyes. unfold kept_geometry, dn_candidate_of, Clone.
      cbn. destruct (geometry f) as [g|]; [|discriminate]. cbn.
      destruct (IsEmpty g); [discriminate|eauto].
    - intros f' f (d & g & -> & Hdg & Hne & Hgeom & Hfields).
      cbn in Hdg, Hfields. split.
      + rewrite Hgeom, <- Hdg. unfold Clone. now destruct (geometry f).
      + now apply stored_read_attrs. }
  split; [exact Hsame|].
  intros f' Hin. apply list_elem_of_lookup in Hin as [i Hi].
  destruct (Forall2_lookup_l _ _ _ _ _ Hsame Hi) as (f & Hf & Hgeom & _).
  assert (Hkeep : area_keeps min_area f = true).
  { assert (Hin : f ∈ filter (fun f => area_keeps min_area f = true)
                            (layer_features layer))
      by (apply list_elem_of_lookup; eauto).
    now apply list_elem_of_filter in Hin. }
  unfold area_keeps in Hkeep. rewrite Hgeom.
  destruct (geometry f) as [g|]; [|discriminate].
  apply andb_true_iff in Hkeep as [Hne Harea].
  apply negb_true_iff in Hne.
  destruct (Area g) as [area|] eqn:Ha; [|discriminate].
  exists g, area. auto.
Qed.

End AreaFacts.

Lemma area_filter_keeps_large_witness :
  exists layer',
    (filter_layer_by_min_area healthy_driver
       (dn_layer [dn_feature 1 unit_square 1; dn_feature 2 triangle 1]) 4.5).2
    = Returned (true, layer')
    /\ map geometry (layer_features layer') = [Some unit_square]
    /\ forall f', f' ∈ layer_features layer' ->
         exists g area, geometry f' = Some g /\ IsEmpty g = false
                        /\ Area g = Returned area
                        /\ (4.5 <=? area)%float = true.
Proof.
  pose (layer := dn_layer [dn_feature 1 unit_square 1; dn_feature 2 triangle 1]).
  pose (r := filter_layer_by_min_area healthy_driver layer 4.5).
  assert (Hrun : exists layer', r = (r.1, Returned (true, layer'))
                                /\ map geometry (layer_features layer')
                                   = [Some unit_square]).
  { eexists. split; vm_compute; reflexivity. }
  destruct Hrun as (layer' & Hrun & Hgeom). exists layer'.
  split; [change (r.2 = Returned (true, layer')); now rewrite Hrun|].
  split; [exact Hgeom|].
  destruct (area_filter_keeps_large healthy_driver layer 4.5 r.1 layer' Hrun)
    as [_ Hpositive].
  apply Hpositive. vm_compute. reflexivity.
Defined.

(** ** The simplification stage *)

Section SimplifyFacts.
Context `{GeometryEngine} (drv : Driver).

Lemma simplify_feature_select tolerance field_names acc f t acc' :
  simplify_feature tolerance field_names acc f = (t, Returned acc') ->
  acc' = acc ++ [{| data_geom := simplified_geometry tolerance <$> geometry f;
                    data_attributes := read_attrs field_names f |}].
Proof.
  unfold simplify_feature, Clone. cbv zeta.
  rewrite bind_eq.
  destruct (geometry f) as [g|]; [|cbn; now intros [= _ <-]].
  rewrite try_except_eq, bind_eq. unfold engine_call, simplified_geometry.
  destruct (SimplifyPreserveTopology g tolerance) as [[simplified|]|e] eqn:Hs.
  - destruct (IsEmpty simplified) eqn:He; cbn; rewrite Hs, He;
      now intros [= _ <-].
  - cbn. rewrite Hs. now intros [= _ <-].
  - cbn. rewrite Hs. now intros [= _ <-].
Qed.

Lemma has_geometry_simplify_keeps tolerance f :
  has_geometry f = true -> simplify_keeps tolerance f = true.
Proof.
  unfold has_geometry, simplify_keeps, simplified_geometry.
  destruct (geometry f) as [g|]; [|discriminate]. intros Hne.
  destruct (SimplifyPreserveTopology g tolerance) as [[simplified|]|e];
    try exact Hne.
  destruct (IsEmpty simplified) eqn:Hs; [exact Hne|now rewrite Hs].
Qed.

(** X6: a tolerance that is not positive disables the stage.  Otherwise,
    when the stage returns success, the layer holds one feature for every
    feature whose geometry after simplification is not empty, in order
    and with its schema attributes; its geometry is the simplified one,
    or the original when the simplifier raised or returned nothing or an
    empty geometry.  So a feature that had a non-empty geometry is never
    dropped by the stage, and a feature without geometry always is. *)
Theorem simplify_keeps_every_geometry (layer : Layer) (tolerance : float)
    t layer' :
  simplify_layer drv layer tolerance = (t, Returned (true, layer')) ->
  ((tolerance <=? 0)%float = true -> layer' = layer)
  /\ ((tolerance <=? 0)%float = false ->
      Forall2 (fun f' f =>
                 same_attributes (layer_defn layer) f' f
                 /\ exists g, geometry f = Some g
                              /\ geometry f'
                                 = Some (simplified_geometry tolerance g))
              (layer_features layer')
              (filter (fun f => simplify_keeps tolerance f = true)
                      (layer_features layer))
      /\ (forall f, has_geometry f = true -> simplify_keeps tolerance f = true)
      /\ (forall f, geometry f = None -> simplify_keeps tolerance f = false)
      /\ (Forall (fun f => has_geometry f = true) (layer_features layer) ->
          length (layer_features layer') = length (layer_features layer))).
Proof.
  unfold simplify_layer. cbv zeta.
  destruct (tolerance <=? 0)%float.
  { rewrite log_bind. cbn. intros [= _ <-]. split; [reflexivity|discriminate]. }
  rewrite log_bind. intros Hrun. split; [discriminate|intros _].
  assert (Hsame : Forall2 (fun f' f =>
                 same_attributes (layer_defn layer) f' f
                 /\ exists g, geometry f = Some g
                              /\ geometry f'
                                 = Some (simplified_geometry tolerance g))
              (layer_features layer')
              (filter (fun f => simplify_keeps tolerance f = true)
                      (layer_features layer))).
  { destruct (GetFeatureCount layer =? 0) eqn:Hcount.
    { rewrite log_bind in Hrun. cbn in Hrun. injection Hrun as _ <-.
      rewrite (count_zero_features _ Hcount). constructor. }
    rewrite bind_eq in Hrun.
    destruct (foldM _ (layer_features layer) [])
      as [tl [data|e]] eqn:Hloop; [|discriminate].
    injection Hrun as _ Hres.
    apply stage_tail in Hres as (tr & Hrewrite & _).
    pose proof (loop_then_rewrite_exact (fun acc => acc)
                  (fun d f =>
                     d = {| data_geom := simplified_geometry tolerance
                                           <$> geometry f;
                            data_attributes := read_attrs (layer_defn layer) f |})
                  (simplify_keeps tolerance)
                  (simplify_feature tolerance (layer_defn layer))
                  drv layer [] tl data tr layer' eq_refl) as Hexact.
    eapply Forall2_impl; [apply Hexact; [|exact Hloop|exact Hrewrite]|].
    - intros st f t0 st' Hstep.
      apply simplify_feature_select in Hstep.
      unfold simplify_keeps. unfold kept_geometry.
      destruct (geometry f) as [g|]; cbn in Hstep |- *.
      + destruct (IsEmpty (simplified_geometry tolerance g)) eqn:He.
        * left. split; [reflexivity|]. right. eexists. split; [exact Hstep|].
          cbn. now rewrite He.
        * right. split; [reflexivity|]. eexists. split; [exact Hstep|].
          cbn. rewrite He. eauto.
      + left. split; [reflexivity|]. right. eexists. split; [exact Hstep|].
        reflexivity.
    - intros f' f (d & g & -> & Hdg & Hne & Hgeom & Hfields).
      cbn in Hdg, Hfields. split; [now apply stored_read_attrs|].
      destruct (geometry f) as [g0|]; [|discriminate].
      cbn in Hdg. injection Hdg as <-. eauto. }
  split_and!; [exact Hsame|apply has_geometry_simplify_keeps| |].
  - intros f Hnone. unfold simplify_keeps. now rewrite Hnone.
  - intros Hall. rewrite (Forall2_length _ _ _ Hsame). f_equal.
    apply filter_all. intros f Hin. rewrite Forall_forall in Hall.
    apply has_geometry_simplify_keeps. now apply Hall.
Qed.

End SimplifyFacts.

Lemma simplify_keeps_every_geometry_witness :
  exists layer',
    (simplify_layer healthy_driver
       (dn_layer [dn_feature 1 unit_square 1;
                  {| FID := 2; geometry := None;
                     fields := {[ "DN" := FInteger 1 ]} |};
                  dn_feature 3 triangle 1]) 1.5).2
    = Returned (true, layer')
    /\ map geometry (layer_features layer') = [Some unit_square; Some triangle]
    /\ length (layer_features layer')
       = length (filter (fun f => simplify_keeps 1.5 f = true)
                        [dn_feature 1 unit_square 1;
                         {| FID := 2; geometry := None;
                            fields := {[ "DN" := FInteger 1 ]} |};
                         dn_feature 3 triangle 1]).
Proof.
  pose (layer := dn_layer [dn_feature 1 unit_square 1;
                           {| FID := 2; geometry := None;
                              fields := {[ "DN" := FInteger 1 ]} |};
                           dn_feature 3 triangle 1]).
  pose (r := simplify_layer healthy_driver layer 1.5).
  assert (Hrun : exists layer', r = (r.1, Returned (true, layer'))
                                /\ map geometry (layer_features layer')
                                   = [Some unit_square; Some triangle]).
  { eexists. split; vm_compute; reflexivity. }
  destruct Hrun as (layer' & Hrun & Hgeom). exists layer'.
  split; [change (r.2 = Returned (true, layer')); now rewrite Hrun|].
  split; [exact Hgeom|].
  destruct (simplify_keeps_every_geometry healthy_driver layer 1.5 r.1 layer'
              Hrun) as [_ Hpositive].
  destruct Hpositive as (Hsame & _); [vm_compute; reflexivity|].
  exact (Forall2_length _ _ _ Hsame).
Defined.

(** ** The smoothing stage *)

Section SmoothFacts.
Context `{GeometryEngine} (drv : Driver).

(** The geometry the stage writes for a feature (lines 368-477). *)
Lemma smooth_geometry_cases iterations fid geom t r :
  smooth_geometry iterations fid geom = (t, Returned r) ->
  match geom with
  | Some g =>
      if IsEmpty g then r = None
      else exists g', r = Some g' /\ smoothing_result g g'
  | None => r = None
  end.
Proof.
  unfold smooth_geometry, smoothing_result, Clone.
  destruct geom as [g|]; [|cbn; now intros [= _ <-]].
  destruct (IsEmpty g) eqn:He; [cbn; now intros [= _ <-]|].
  cbv zeta.
  destruct (bool_decide _ || bool_decide _);
    [|cbn; intros [= _ <-]; eauto].
  rewrite bind_eq.
  destruct (foldM _ _ (MultiPolygon [])) as [tm [multi|e]]; [|discriminate].
  destruct (IsEmpty multi) eqn:Hem; cbn [negb];
    [cbn; intros [= _ <-]; eauto|].
  destruct (IsValid multi) eqn:Hvm; cbn [negb];
    [cbn; intros [= _ <-]; eauto|].
  rewrite log_bind, bind_eq. unfold engine_call.
  destruct (MakeValid multi) as [[repaired|]|e]; [| |discriminate].
  - destruct (IsEmpty repaired) eqn:Her; cbn [negb andb].
    + rewrite log_bind. cbn. intros [= _ <-]. eauto.
    + destruct (IsValid repaired) eqn:Hvr.
      * cbn. intros [= _ <-]. eauto.
      * rewrite log_bind. cbn. intros [= _ <-]. eauto.
  - rewrite log_bind. cbn. intros [= _ <-]. eauto.
Qed.

Lemma smooth_feature_select iterations field_names acc f t acc' :
  smooth_feature iterations field_names acc f = (t, Returned acc') ->
  exists r,
    acc' = acc ++ [{| data_geom := r;
                      data_attributes := read_attrs field_names f |}]
    /\ match geometry f with
       | Some g =>
           if IsEmpty g then r = None
           else exists g', r = Some g' /\ smoothing_result g g'
       | None => r = None
       end.
Proof.
  unfold smooth_feature. cbv zeta. rewrite bind_eq.
  destruct (smooth_geometry iterations (FID f) (geometry f))
    as [tg [r|e]] eqn:Hgeom; [|discriminate].
  cbn. intros [= _ <-]. exists r. split; [reflexivity|].
  exact (smooth_geometry_cases _ _ _ _ _ Hgeom).
Qed.

(** X7: when the smoothing stage returns success, the layer holds one
    feature for every feature that had a non-empty geometry, in order
    and with its schema attributes (features without geometry or with an
    empty one are dropped); the geometry written is not empty and is
    either the original geometry or a geometry the engine finds valid.
    So smoothing never puts an invalid geometry in place of a valid one:
    a layer whose geometries are all valid stays so. *)
Theorem smoothing_keeps_validity (layer : Layer) (iterations : Z) t layer' :
  smooth_layer_chaikin drv layer iterations = (t, Returned (true, layer')) ->
  Forall2 (fun f' f =>
             same_attributes (layer_defn layer) f' f
             /\ exists g g', geometry f = Some g /\ geometry f' = Some g'
                             /\ smoothing_result g g')
          (layer_features layer')
          (filter (fun f => has_geometry f = true) (layer_features layer))
  /\ ((forall f g, f ∈ layer_features layer -> geometry f = Some g ->
                   IsValid g = true) ->
      forall f', f' ∈ layer_features layer' ->
        exists g', geometry f' = Some g' /\ IsEmpty g' = false
                   /\ IsValid g' = true).
Proof.
  unfold smooth_layer_chaikin. cbv zeta. rewrite log_bind. intros Hrun.
  assert (Hsame : Forall2 (fun f' f =>
             same_attributes (layer_defn layer) f' f
             /\ exists g g', geometry f = Some g /\ geometry f' = Some g'
                             /\ smoothing_result g g')
          (layer_features layer')
          (filter (fun f => has_geometry f = true) (layer_features layer))).
  { destruct (GetFeatureCount layer =? 0) eqn:Hcount.
    { rewrite log_bind in Hrun. cbn in Hrun. injection Hrun as _ <-.
      rewrite (count_zero_features _ Hcount). constructor. }
    rewrite bind_eq in Hrun.
    destruct (foldM _ (layer_features layer) [])
      as [tl [data|e]] eqn:Hloop; [|discriminate].
    injection Hrun as _ Hres.
    apply stage_tail in Hres as (tr & Hrewrite & _).
    pose proof (loop_then_rewrite_exact (fun acc => acc)
                  (fun d f =>
                     data_attributes d = read_attrs (layer_defn layer) f
                     /\ exists g g', geometry f = Some g /\ data_geom d = Some g'
                                     /\ smoothing_result g g')
                  has_geometry
                  (smooth_feature iterations (layer_defn layer))
                  drv layer [] tl data tr layer' eq_refl) as Hexact.
    eapply Forall2_impl; [apply Hexact; [|exact Hloop|exact Hrewrite]|].
    - intros st f t0 st' Hstep.
      apply smooth_feature_select in Hstep as (r & Hst & Hr).
      unfold has_geometry.
      destruct (geometry f) as [g|];
        [destruct (IsEmpty g) eqn:He; cbn [negb]|].
      + subst r. left. split; [reflexivity|]. right. eexists.
        split; [exact Hst|reflexivity].
      + destruct Hr as (g' & -> & Hres). right. split; [reflexivity|].
        eexists. split; [exact Hst|]. split.
        * unfold kept_geometry. cbn. destruct Hres as [-> _]. eauto.
        * cbn. split; [reflexivity|]. exists g, g'. auto.
      + subst r. left. split; [reflexivity|]. right. eexists.
        split; [exact Hst|reflexivity].
    - intros f' f (d & g1 & (Hattrs & g & g' & Hg & Hdg' & Hres) & Hdg & Hne
                   & Hgeom & Hfields).
      split.
      + apply stored_read_attrs. now rewrite Hfields, Hattrs.
      + exists g, g'. split_and!; [exact Hg|congruence|exact Hres]. }
  split; [exact Hsame|].
  intros Hvalid f' Hin. apply list_elem_of_lookup in Hin as [i Hi].
  destruct (Forall2_lookup_l _ _ _ _ _ Hsame Hi)
    as (f & Hf & _ & g & g' & Hg & Hg' & Hne & Hres).
  exists g'. split_and!; [exact Hg'|exact Hne|].
  destruct Hres as [->|Hv]; [|exact Hv].
  apply (Hvalid f); [|exact Hg].
  assert (Hin : f ∈ filter (fun f => has_geometry f = true)
                          (layer_features layer))
    by (apply list_elem_of_lookup; eauto).
  now apply list_elem_of_filter in Hin.
Qed.

End SmoothFacts.

Lemma smoothing_keeps_validity_witness :
  exists layer' ring,
    (smooth_layer_chaikin healthy_driver
       (dn_layer [dn_feature 1 unit_square 1]) 1).2
    = Returned (true, layer')
    /\ map geometry (layer_features layer')
       = [Some (MultiPolygon [Polygon [LinearRing ring]])]
    /\ length ring = 9%nat
    /\ forall f', f' ∈ layer_features layer' ->
         exists g', geometry f' = Some g' /\ IsEmpty g' = false
                    /\ IsValid g' = true.
Proof.
  pose (layer := dn_layer [dn_feature 1 unit_square 1]).
  pose (r := smooth_layer_chaikin healthy_driver layer 1).
  assert (Hrun : exists layer' ring,
             r = (r.1, Returned (true, layer'))
             /\ map geometry (layer_features layer')
                = [Some (MultiPolygon [Polygon [LinearRing ring]])]
             /\ length ring = 9%nat).
  { eexists _, _. split_and!; vm_compute; reflexivity. }
  destruct Hrun as (layer' & ring & Hrun & Hgeom & Hlen). exists layer', ring.
  split; [change (r.2 = Returned (true, layer')); now rewrite Hrun|].
  split; [exact Hgeom|]. split; [exact Hlen|].
  apply (smoothing_keeps_validity healthy_driver layer 1 r.1 layer' Hrun).
  intros f g Hin Hg. apply list_elem_of_singleton in Hin. subst f.
  cbn in Hg. injection Hg as <-. vm_compute. reflexivity.
Defined.

(** ** A stage that fails *)

Section FailedStageFacts.
Context `{GeometryEngine} (drv : Driver).

Lemma rewrite_failed layer data t layer' :
  clear_and_repopulate_layer drv layer data = (t, Returned (false, layer')) ->
  layer' = layer /\ RollbackTransaction_called OGRERR_NONE ∈ t.
Proof.
  intros Hrun.
  destruct (clear_and_repopulate_layer_cases drv _ _ _ _ Hrun)
    as [_ _ Ho|e _ _ Ho _|_ Ho Hroll _ _ _|_ Ho _ _ _]; try discriminate.
  injection Ho as <-. auto.
Qed.

Lemma tail_failed layer data msg t layer' :
  (r ← clear_and_repopulate_layer drv layer data;
   _ ← log_message msg; mret r) = (t, Returned (false, layer')) ->
  layer' = layer /\ RollbackTransaction_called OGRERR_NONE ∈ t.
Proof.
  intros Hrun.
  assert (Hres : (r ← clear_and_repopulate_layer drv layer data;
                  _ ← log_message msg; mret r).2 = Returned (false, layer'))
    by now rewrite Hrun.
  apply stage_tail in Hres as (tr & Hrewrite & Ht).
  rewrite Hrun in Ht. cbn in Ht. subst t.
  apply rewrite_failed in Hrewrite as [-> Hin].
  split; [reflexivity|]. rewrite elem_of_app. now left.
Qed.

(** X8: a stage that returns failure has changed nothing: the layer is
    the layer it was given.  The failure comes from the rewrite, whose
    transaction was rolled back, or, for the DN filter, from a schema
    without a DN field, in which case no transaction was opened. *)
Theorem failed_stage_leaves_layer (layer : Layer) :
  (forall tolerance t layer',
     simplify_layer drv layer tolerance = (t, Returned (false, layer')) ->
     layer' = layer /\ RollbackTransaction_called OGRERR_NONE ∈ t)
  /\ (forall min_area t layer',
        filter_layer_by_min_area drv layer min_area
        = (t, Returned (false, layer')) ->
        layer' = layer /\ RollbackTransaction_called OGRERR_NONE ∈ t)
  /\ (forall t layer',
        fix_layer_geometries drv layer = (t, Returned (false, layer')) ->
        layer' = layer /\ RollbackTransaction_called OGRERR_NONE ∈ t)
  /\ (forall iterations t layer',
        smooth_layer_chaikin drv layer iterations
        = (t, Returned (false, layer')) ->
        layer' = layer /\ RollbackTransaction_called OGRERR_NONE ∈ t)
  /\ (forall keep_dn_value t layer',
        filter_layer_by_dn drv layer keep_dn_value
        = (t, Returned (false, layer')) ->
        layer' = layer
        /\ (RollbackTransaction_called OGRERR_NONE ∈ t
            \/ (("DN" ∉ layer_defn layer)
                /\ t = [Log (StageApplying DNFilter); Log ErrNoDNField]))).
Proof.
  split_and!.
  - intros tolerance t layer'. unfold simplify_layer. cbv zeta.
    destruct (tolerance <=? 0)%float; [rewrite log_bind; discriminate|].
    rewrite log_bind.
    destruct (GetFeatureCount layer =? 0); [rewrite log_bind; discriminate|].
    rewrite bind_eq.
    destruct (foldM _ (layer_features layer) []) as [tl [data|e]];
      [|discriminate].
    destruct (_ ≫= _) as [tx ox] eqn:Htail. cbn. intros [= <- ->].
    apply tail_failed in Htail as [-> Hin]. split; [reflexivity|].
    rewrite elem_of_cons, elem_of_app. auto.
  - intros min_area t layer'. unfold filter_layer_by_min_area. cbv zeta.
    destruct (min_area <=? 0)%float; [rewrite log_bind; discriminate|].
    rewrite log_bind.
    destruct (GetFeatureCount layer =? 0); [rewrite log_bind; discriminate|].
    rewrite bind_eq.
    destruct (foldM _ (layer_features layer) ([], 0)) as [tl [[data n]|e]];
      [|discriminate].
    rewrite log_bind.
    destruct (_ ≫= _) as [tx ox] eqn:Htail. cbn. intros [= <- ->].
    apply tail_failed in Htail as [-> Hin]. split; [reflexivity|].
    rewrite elem_of_cons, elem_of_app, elem_of_cons. auto.
  - intros t layer'. unfold fix_layer_geometries. cbv zeta. rewrite log_bind.
    destruct (GetFeatureCount layer =? 0); [rewrite log_bind; discriminate|].
    rewrite bind_eq.
    destruct (foldM _ (layer_features layer) ([], no_counts))
      as [tl [[data c]|e]]; [|discriminate].
    rewrite log_bind.
    destruct (_ ≫= _) as [tx ox] eqn:Htail. cbn. intros [= <- ->].
    apply tail_failed in Htail as [-> Hin]. split; [reflexivity|].
    rewrite elem_of_cons, elem_of_app, elem_of_cons. auto.
  - intros iterations t layer'. unfold smooth_layer_chaikin. cbv zeta.
    rewrite log_bind.
    destruct (GetFeatureCount layer =? 0); [rewrite log_bind; discriminate|].
    rewrite bind_eq.
    destruct (foldM _ (layer_features layer) []) as [tl [data|e]];
      [|discriminate].
    destruct (_ ≫= _) as [tx ox] eqn:Htail. cbn. intros [= <- ->].
    apply tail_failed in Htail as [-> Hin]. split; [reflexivity|].
    rewrite elem_of_cons, elem_of_app. auto.
  - intros keep_dn_value t layer'. unfold filter_layer_by_dn. cbv zeta.
    rewrite log_bind.
    destruct (GetFeatureCount layer =? 0); [rewrite log_bind; discriminate|].
    pose proof (GetFieldIndex_nonneg (layer_defn layer) "DN") as Hidx.
    destruct (GetFieldIndex (layer_defn layer) "DN" <? 0) eqn:Hneg.
    { rewrite log_bind. cbn. intros [= <- <-]. split; [reflexivity|right].
      split; [|reflexivity]. intros Hin.
      assert (Hb : bool_decide ("DN" ∈ layer_defn layer) = true)
        by now apply bool_decide_eq_true_2.
      rewrite <- Hidx in Hb.
      apply Z.ltb_lt in Hneg. apply Z.leb_le in Hb. lia. }
    rewrite bind_eq.
    destruct (foldM _ (layer_features layer) ([], 0)) as [tl [[data n]|e]];
      [|discriminate].
    cbn [fst snd].
    destruct ((n =? GetFeatureCount layer) && (0 <? GetFeatureCount layer));
      [rewrite log_bind; discriminate|].
    destruct (_ ≫= _) as [tx ox] eqn:Htail. cbn. intros [= <- ->].
    apply tail_failed in Htail as [-> Hin]. split; [reflexivity|left].
    rewrite elem_of_cons, elem_of_app. auto.
Qed.

End FailedStageFacts.

(** ** The DN filter, once more *)

Section DNAgainFacts.
Context `{GeometryEngine} (drv : Driver).

Lemma dn_field_known layer_defn :
  (GetFieldIndex layer_defn "DN" <? 0) = negb (bool_decide ("DN" ∈ layer_defn)).
Proof.
  pose proof (GetFieldIndex_nonneg layer_defn "DN") as Hidx.
  destruct (bool_decide ("DN" ∈ layer_defn)); cbn.
  - apply Z.leb_le in Hidx. now apply Z.ltb_ge.
  - apply Z.leb_gt in Hidx. now apply Z.ltb_lt.
Qed.

Lemma dn_keeps_same keep_dn_value layer_defn f' f :
  "DN" ∈ layer_defn -> same_feature layer_defn f' f ->
  dn_keeps keep_dn_value f' = dn_keeps keep_dn_value f.
Proof.
  intros Hdn [Hgeom Hattrs]. unfold dn_keeps.
  now rewrite Hgeom, (Hattrs "DN" Hdn).
Qed.

(** What a successful DN filter leaves. *)
Lemma dn_filter_success layer keep_dn_value t layer' :
  filter_layer_by_dn drv layer keep_dn_value = (t, Returned (true, layer')) ->
  layer_defn layer' = layer_defn layer
  /\ Forall (fun f => dn_keeps keep_dn_value f = true) (layer_features layer')
  /\ (layer_features layer' <> [] -> "DN" ∈ layer_defn layer).
Proof.
  unfold filter_layer_by_dn. cbv zeta. rewrite log_bind.
  destruct (GetFeatureCount layer =? 0) eqn:Hcount.
  { rewrite log_bind. cbn. intros [= _ <-].
    rewrite (count_zero_features _ Hcount). now split_and!. }
  rewrite dn_field_known.
  destruct (bool_decide ("DN" ∈ layer_defn layer)) eqn:Hdn; cbn [negb];
    [|rewrite log_bind; discriminate].
  apply bool_decide_eq_true in Hdn.
  rewrite dn_loop_eq, bind_eq. cbn [fst snd app].
  set (kept := filter (fun f => dn_keeps keep_dn_value f = true)
                      (layer_features layer)).
  assert (Hkept : Forall (fun f => dn_keeps keep_dn_value f = true) kept).
  { apply Forall_forall. intros f Hf. now apply list_elem_of_filter in Hf. }
  destruct ((0 + Z.of_nat (length kept) =? GetFeatureCount layer)
            && (0 <? GetFeatureCount layer)) eqn:Hskip.
  { rewrite log_bind. cbn. intros [= _ <-].
    assert (Hfull : kept = layer_features layer).
    { apply filter_full_length. apply andb_true_iff in Hskip as [Hlen _].
      apply Z.eqb_eq in Hlen. unfold GetFeatureCount in Hlen. subst kept. lia. }
    rewrite <- Hfull. now split_and!. }
  intros Hrun. injection Hrun as _ Hres.
  apply stage_tail in Hres as (tr & Hrewrite & _).
  destruct (rewrite_stores _ _ _ _ _ Hrewrite) as (Hcontent & Hdefn & _).
  split_and!; [exact Hdefn| |auto].
  rewrite written_dn_candidates in Hcontent.
  2:{ eapply Forall_impl; [exact Hkept|]. intros f Hf.
      destruct (dn_keeps_geometry _ _ Hf) as (_ & g & Hg & Hne & _). eauto. }
  apply map_eq_Forall2 in Hcontent.
  eapply Forall2_Forall_l; [exact Hcontent|].
  eapply Forall_impl; [exact Hkept|]. intros f Hf f' Hsame.
  rewrite <- Hf. apply (dn_keeps_same _ (layer_defn layer)); [exact Hdn|].
  unfold content in Hsame. injection Hsame as Hgeom Hfields.
  split; [exact Hgeom|now apply stored_read_attrs].
Qed.

(** X9: the DN filter is idempotent.  Applied to the layer a successful
    application left, it succeeds again, returns that layer unchanged and
    calls the driver for nothing (it only logs): every feature already
    meets its criteria, so the rewrite is skipped. *)
Theorem dn_filter_idempotent (layer : Layer) (keep_dn_value : Z) t layer' :
  filter_layer_by_dn drv layer keep_dn_value = (t, Returned (true, layer')) ->
  exists t',
    filter_layer_by_dn drv layer' keep_dn_value = (t', Returned (true, layer'))
    /\ Forall (fun ev => exists msg, ev = Log msg) t'.
Proof.
  intros Hrun.
  destruct (dn_filter_success _ _ _ _ Hrun) as (Hdefn & Hall & Hdn).
  unfold filter_layer_by_dn. cbv zeta. rewrite log_bind.
  destruct (GetFeatureCount layer' =? 0) eqn:Hcount.
  { rewrite log_bind. cbn. eexists. split; [reflexivity|].
    repeat constructor; eauto. }
  assert (Hne : layer_features layer' <> []).
  { intros Hnil. unfold GetFeatureCount in Hcount. now rewrite Hnil in Hcount. }
  rewrite dn_field_known, Hdefn, (bool_decide_eq_true_2 _ (Hdn Hne)).
  cbn [negb]. rewrite dn_loop_eq, bind_eq. cbn [fst snd app].
  rewrite (filter_all _ (layer_features layer'))
    by (intros f Hin; rewrite Forall_forall in Hall; now apply Hall).
  assert (Hskip : (0 + Z.of_nat (length (layer_features layer'))
                   =? GetFeatureCount layer')
                  && (0 <? GetFeatureCount layer') = true).
  { apply andb_true_iff. unfold GetFeatureCount in *. split.
    - apply Z.eqb_eq. lia.
    - apply Z.ltb_lt. apply Z.eqb_neq in Hcount. lia. }
  rewrite Hskip, log_bind. cbn. eexists. split; [reflexivity|].
  repeat constructor; eauto.
Qed.

End DNAgainFacts.

Lemma dn_filter_idempotent_witness :
  exists layer',
    (filter_layer_by_dn healthy_driver
       (dn_layer [dn_feature 1 bow_tie 1; dn_feature 2 unit_square 1;
                  dn_feature 3 triangle 2]) 1).2 = Returned (true, layer')
    /\ (filter_layer_by_dn healthy_driver layer' 1).2 = Returned (true, layer').
Proof.
  pose (layer := dn_layer [dn_feature 1 bow_tie 1; dn_feature 2 unit_square 1;
                           dn_feature 3 triangle 2]).
  pose (r := filter_layer_by_dn healthy_driver layer 1).
  assert (Hrun : exists layer', r = (r.1, Returned (true, layer'))).
  { eexists. vm_compute. reflexivity. }
  destruct Hrun as (layer' & Hrun). exists layer'.
  split; [change (r.2 = Returned (true, layer')); now rewrite Hrun|].
  destruct (dn_filter_idempotent healthy_driver layer 1 r.1 layer' Hrun)
    as (t' & -> & _).
  reflexivity.
Defined.

(** ** The counters of the repair stage *)

Section RepairCounterFacts.
Context `{GeometryEngine} (drv : Driver).

Lemma IsEmpty_snoc_member (wrap : list Geometry -> Geometry) l part :
  (forall l, IsEmpty (wrap l) = forallb IsEmpty l) ->
  IsEmpty part = false -> IsEmpty (wrap (l ++ [part])) = false.
Proof.
  intros Hwrap Hne. rewrite Hwrap, forallb_app. cbn. rewrite Hne.
  now rewrite andb_false_r.
Qed.

Lemma AddGeometry_nonempty container part t err container' :
  AddGeometry container part = (t, Returned (err, container')) ->
  IsEmpty part = false -> IsEmpty container' = false.
Proof.
  unfold AddGeometry, AddGeometry_code.
  destruct container as [v|pts|pts|l|l|l|l|l], part as [v'|pts'|pts'|l'|l'|l'|l'|l'];
    cbn; try discriminate; intros [= _ _ <-] Hne;
    first [ now apply (IsEmpty_snoc_member Polygon)
          | now apply (IsEmpty_snoc_member MultiPoint)
          | now apply (IsEmpty_snoc_member MultiLineString)
          | now apply (IsEmpty_snoc_member MultiPolygon)
          | now apply (IsEmpty_snoc_member GeometryCollection) ].
Qed.

Lemma extract_loop_nonempty fid parts : forall st t st',
  foldM (extract_part fid) parts st = (t, Returned st') ->
  (st.2 = true -> IsEmpty st.1 = false) ->
  st'.2 = true -> IsEmpty st'.1 = false.
Proof.
  intros st t st' Hrun Hstart.
  eapply (foldM_invariant (fun st => st.2 = true -> IsEmpty st.1 = false));
    [|exact Hstart|exact Hrun].
  clear. intros st part t st' Hinv. unfold extract_part.
  destruct (negb (IsEmpty part) && _ && _) eqn:Htest;
    [|cbn; now intros [= _ <-]].
  apply andb_true_iff in Htest as [Htest _].
  apply andb_true_iff in Htest as [Hne _]. apply negb_true_iff in Hne.
  rewrite bind_eq.
  destruct (AddGeometry st.1 (Clone part)) as [ta [[err ce]|e]] eqn:Hadd;
    [|discriminate].
  pose proof (AddGeometry_nonempty _ _ _ _ _ Hadd Hne) as Hce.
  destruct (err =? OGRERR_NONE).
  - cbn. now intros [= _ <-].
  - rewrite log_bind. cbn. now intros [= _ <-].
Qed.

Ltac counts_done :=
  cbn; split_and!;
  first [ lia | discriminate | reflexivity | now intros [? ?]
        | now intros ? [= <-] | eauto ].

(** What one feature does to the three counters. *)
Lemma fix_geometry_counts target fid geom c t r c' :
  fix_geometry target fid geom c = (t, Returned (r, c')) ->
  invalid_count c' = invalid_count c + Z.b2z (geom_invalid geom)
  /\ repaired_count c'
     = repaired_count c
       + match r with Some _ => Z.b2z (geom_invalid geom) | None => 0 end
  /\ discarded_count c'
     = discarded_count c + match r with Some _ => 0 | None => 1 end
       + Z.b2z (geom_crashes geom)
  /\ (geom_valid geom = true -> is_Some r)
  /\ (is_Some r -> geom_valid geom = negb (geom_invalid geom))
  /\ (forall g, r = Some g -> IsEmpty g = false).
Proof.
  unfold fix_geometry, geom_valid, geom_invalid, geom_crashes, Clone.
  destruct geom as [g|]; [|cbn; intros [= _ <- <-]; counts_done].
  destruct (IsEmpty g) eqn:He; [cbn; intros [= _ <- <-]; counts_done|].
  destruct (IsValid g) eqn:Hv; [cbn; intros [= _ <- <-]; counts_done|].
  cbv zeta. cbn [negb andb]. intros Hrun. unfold engine_call in Hrun.
  destruct (MakeValid g) as [[repaired|]|e];
    rewrite try_except_eq, !bind_eq in Hrun; cbn in Hrun.
  - destruct (IsEmpty repaired) eqn:Her; cbn in Hrun.
    { injection Hrun as _ <- <-. counts_done. }
    destruct (bool_decide (_ = GT_Flatten target)) in Hrun.
    { destruct (IsValid repaired); cbn in Hrun; injection Hrun as _ <- <-;
        counts_done. }
    destruct (bool_decide _ && _) in Hrun; cbn in Hrun.
    2:{ injection Hrun as _ <- <-. counts_done. }
    rewrite bind_eq in Hrun.
    destruct (foldM _ _ (new_Geometry target, false))
      as [te [[ce found]|e]] eqn:Hloop; [|discriminate].
    pose proof (extract_loop_nonempty _ _ _ _ _ Hloop) as Hce.
    destruct found; cbn in Hrun.
    + destruct (IsValid ce); cbn in Hrun; injection Hrun as _ <- <-;
        cbn; split_and!;
        first [ lia | discriminate | reflexivity | now intros [? ?] | idtac ].
      intros ? [= <-]. apply Hce; [discriminate|reflexivity].
    + injection Hrun as _ <- <-. counts_done.
  - injection Hrun as _ <- <-. counts_done.
  - injection Hrun as _ <- <-. counts_done.
Qed.

Lemma count_features_cons test f fs :
  count_features test (f :: fs)
  = Z.b2z (test (geometry f)) + count_features test fs.
Proof.
  unfold count_features. rewrite filter_cons.
  destruct (decide (test (geometry f) = true)) as [->|Hno]; cbn [length Z.b2z].
  - lia.
  - apply not_true_is_false in Hno. rewrite Hno. cbn. lia.
Qed.

(** The counters and the candidates after the loop over the features
    (lines 517-593). *)
Lemma fix_loop_counts target field_names fs : forall acc c t data c',
  foldM (fix_feature target field_names) fs (acc, c)
  = (t, Returned (data, c')) ->
  invalid_count c' = invalid_count c + count_features geom_invalid fs
  /\ 0 <= repaired_count c' - repaired_count c <= count_features geom_invalid fs
  /\ Z.of_nat (length data)
     = Z.of_nat (length acc) + count_features geom_valid fs
       + (repaired_count c' - repaired_count c)
  /\ Z.of_nat (length data) + discarded_count c'
     = Z.of_nat (length acc) + discarded_count c + Z.of_nat (length fs)
       + count_features geom_crashes fs
  /\ (Forall (fun d => is_Some (kept_geometry d)) acc ->
      Forall (fun d => is_Some (kept_geometry d)) data).
Proof.
  induction fs as [|f fs IH]; intros acc c t data c' Hrun.
  - cbn in Hrun. injection Hrun as _ <- <-. unfold count_features. cbn.
    split_and!; try lia. auto.
  - cbn [foldM] in Hrun. rewrite bind_eq in Hrun.
    destruct (fix_feature target field_names (acc, c) f)
      as [t1 [[acc1 c1]|e]] eqn:Hstep; [|discriminate].
    destruct (foldM _ fs (acc1, c1)) as [t2 o2] eqn:Hrest. cbn in Hrun.
    injection Hrun as _ ->.
    destruct (IH _ _ _ _ _ Hrest) as (Hi & Hr & Hk & Hd & Hs).
    rewrite !count_features_cons. cbn [length].
    unfold fix_feature in Hstep. cbv zeta in Hstep. rewrite bind_eq in Hstep.
    destruct (fix_geometry target (FID f) (geometry f) (acc, c).2)
      as [tg [[r cg]|e]] eqn:Hgeom; [|discriminate].
    destruct (fix_geometry_counts _ _ _ _ _ _ _ Hgeom)
      as (Hgi & Hgr & Hgd & Hgv & Hgx & Hgne).
    cbn [snd] in Hgi, Hgr, Hgd.
    pose proof (Zle_bool_imp_le 0 (Z.b2z (geom_invalid (geometry f)))) as Hb0.
    assert (Hb : 0 <= Z.b2z (geom_invalid (geometry f)) <= 1
                 /\ 0 <= Z.b2z (geom_crashes (geometry f)) <= 1)
      by (destruct (geom_invalid (geometry f)), (geom_crashes (geometry f));
          cbn; lia).
    destruct r as [g|]; cbn in Hstep; injection Hstep as _ <- <-.
    + specialize (Hgx ltac:(eauto)). rewrite length_app in Hk, Hd. cbn in Hk, Hd.
      assert (Hsum : Z.b2z (geom_valid (geometry f))
                     + Z.b2z (geom_invalid (geometry f)) = 1).
      { rewrite Hgx. destruct (geom_invalid (geometry f)); reflexivity. }
      split_and!; try lia.
      intros Hacc. apply Hs. apply Forall_app. split; [exact Hacc|].
      constructor; [|constructor]. unfold kept_geometry. cbn.
      rewrite (Hgne g eq_refl). eauto.
    + assert (Hnv : Z.b2z (geom_valid (geometry f)) = 0).
      { destruct (geom_valid (geometry f)); [|reflexivity].
        destruct (Hgv eq_refl) as [? ?]. discriminate. }
      split_and!; try lia. exact Hs.
Qed.

Lemma omap_kept_all (data : list FeatureData) :
  Forall (fun d => is_Some (kept_geometry d)) data ->
  length (omap kept_geometry data) = length data.
Proof.
  induction 1 as [|d data [g Hg] _ IH]; [reflexivity|].
  cbn [omap list_omap]. rewrite Hg. cbn. now rewrite IH.
Qed.

(** X10: the summary the repair stage logs.  On a layer that is not
    empty, a stage that returns success has logged the three counters
    (invalid, repaired, discarded), and they satisfy: [invalid] is the
    number of features with a non-empty invalid geometry; the features
    left in the layer are the valid ones plus the [repaired] ones; and
    [discarded] is the number of features removed plus the number of
    features on which [MakeValid] raised, which are counted twice (in the
    handler at line 534 and again at line 578). *)
Theorem repair_counters (layer : Layer) t layer' :
  fix_layer_geometries drv layer = (t, Returned (true, layer')) ->
  layer_features layer <> [] ->
  exists invalid repaired discarded,
    Log (GeometryFixingComplete invalid repaired discarded) ∈ t
    /\ invalid = count_features geom_invalid (layer_features layer)
    /\ 0 <= repaired <= invalid
    /\ GetFeatureCount layer'
       = count_features geom_valid (layer_features layer) + repaired
    /\ discarded
       = (GetFeatureCount layer - GetFeatureCount layer')
         + count_features geom_crashes (layer_features layer).
Proof.
  unfold fix_layer_geometries. cbv zeta. rewrite log_bind.
  intros Hrun Hne.
  destruct (GetFeatureCount layer =? 0) eqn:Hcount.
  { now apply count_zero_features in Hcount. }
  rewrite bind_eq in Hrun.
  destruct (foldM _ (layer_features layer) ([], no_counts))
    as [tl [[data c]|e]] eqn:Hloop; [|discriminate].
  rewrite log_bind in Hrun. injection Hrun as <- Hres.
  apply stage_tail in Hres as (tr & Hrewrite & _).
  destruct (fix_loop_counts _ _ _ _ _ _ _ _ Hloop)
    as (Hi & Hr & Hk & Hd & Hs).
  cbn in Hi, Hr, Hk, Hd.
  assert (Hlen : GetFeatureCount layer' = Z.of_nat (length data)).
  { destruct (rewrite_stores _ _ _ _ _ Hrewrite) as (Hcontent & _).
    unfold GetFeatureCount. rewrite <- (length_map content), Hcontent.
    rewrite omap_written_length, omap_kept_all; [reflexivity|].
    apply Hs. constructor. }
  exists (invalid_count c), (repaired_count c), (discarded_count c).
  split_and!.
  - rewrite elem_of_cons, elem_of_app, elem_of_cons. auto.
  - lia.
  - lia.
  - lia.
  - lia.
  - unfold GetFeatureCount in *. lia.
Qed.

End RepairCounterFacts.

Lemma repair_counters_witness :
  exists layer',
    (@fix_layer_geometries crashing_engine healthy_driver repair_example).2
    = Returned (true, layer')
    /\ GetFeatureCount layer' = 1
    /\ Log (GeometryFixingComplete 1 0 2)
       ∈ (@fix_layer_geometries crashing_engine healthy_driver repair_example).1
    /\ @count_features (@geom_crashes crashing_engine)
         (layer_features repair_example) = 1.
Proof.
  pose (r := @fix_layer_geometries crashing_engine healthy_driver repair_example).
  assert (Hrun : exists layer', r = (r.1, Returned (true, layer'))
                                /\ GetFeatureCount layer' = 1).
  { eexists. split; vm_compute; reflexivity. }
  destruct Hrun as (layer' & Hrun & Hcount). exists layer'.
  split; [change (r.2 = Returned (true, layer')); now rewrite Hrun|].
  split; [exact Hcount|].
  destruct (@repair_counters crashing_engine healthy_driver repair_example
              r.1 layer' Hrun)
    as (i & rep & dis & Hin & Hi & Hrep & Hkept & Hdis); [discriminate|].
  assert (Hcrash : @count_features (@geom_crashes crashing_engine)
                     (layer_features repair_example) = 1)
    by (vm_compute; reflexivity).
  assert (Hinv : @count_features (@geom_invalid crashing_engine)
                   (layer_features repair_example) = 1)
    by (vm_compute; reflexivity).
  assert (Hval : @count_features (@geom_valid crashing_engine)
                   (layer_features repair_example) = 1)
    by (vm_compute; reflexivity).
  assert (Htotal : GetFeatureCount repair_example = 2)
    by (vm_compute; reflexivity).
  split; [|exact Hcrash].
  replace 1 with i at 1 by lia. replace 0 with rep by lia.
  replace 2 with dis by lia. exact Hin.
Defined.

(** ** Extraction into a layer *)

Lemma append_polygons_features dn_field regions : forall out_layer,
  exists new,
    layer_features (append_polygons dn_field regions out_layer)
    = layer_features out_layer ++ new
    /\ length new = length regions
    /\ layer_defn (append_polygons dn_field regions out_layer)
       = layer_defn out_layer
    /\ GetGeomType (append_polygons dn_field regions out_layer)
       = GetGeomType out_layer.
Proof.
  unfold append_polygons.
  induction regions as [|r regions IH]; intros out_layer.
  - exists []. cbn. rewrite app_nil_r. auto.
  - cbn [foldl].
    destruct (IH (create_feature
                    {| FID := -1; geometry := Some r.1;
                       fields := {[ dn_field := FInteger r.2 ]} |} out_layer))
      as (new & Hf & Hlen & Hd & Hg).
    eexists (_ :: new). rewrite Hf, Hd, Hg. cbn. rewrite <- app_assoc.
    split_and!; [reflexivity|now rewrite Hlen|reflexivity|reflexivity].
Qed.

(** X11: extraction only ever appends.  Whenever
    [initial_polygonize_band] returns, the features the layer held before
    are still there, unchanged and in order, before any new one, and the
    schema and geometry type are untouched.  The layer gains features
    only if the band number is in range, the band was read, at least one
    pixel reaches the cutoff and the schema has a DN field. *)
Theorem extraction_only_appends (ex : Extractor) (raster_ds : RasterDS)
    (band_num threshold_value : Z) (out_layer : Layer) t ok out_layer' :
  initial_polygonize_band ex raster_ds band_num threshold_value out_layer
  = (t, Returned (ok, out_layer')) ->
  layer_features out_layer `prefix_of` layer_features out_layer'
  /\ layer_defn out_layer' = layer_defn out_layer
  /\ GetGeomType out_layer' = GetGeomType out_layer
  /\ (layer_features out_layer' <> layer_features out_layer ->
      0 < band_num <= RasterCount raster_ds
      /\ "DN" ∈ layer_defn out_layer
      /\ exists band band_array,
           GetRasterBand raster_ds band_num = Some band
           /\ ReadAsArray band = Returned (Some band_array)
           /\ ~ below_cutoff threshold_value band_array).
Proof.
  assert (Hsame : forall l : Layer,
            layer_features l `prefix_of` layer_features l
            /\ layer_defn l = layer_defn l /\ GetGeomType l = GetGeomType l
            /\ (layer_features l <> layer_features l ->
                0 < band_num <= RasterCount raster_ds
                /\ "DN" ∈ layer_defn out_layer
                /\ exists band band_array,
                     GetRasterBand raster_ds band_num = Some band
                     /\ ReadAsArray band = Returned (Some band_array)
                     /\ ~ below_cutoff threshold_value band_array)).
  { intros l. split_and!; [reflexivity..|]. now intros []. }
  unfold initial_polygonize_band. cbv zeta.
  destruct ((band_num <=? 0) || (RasterCount raster_ds <? band_num)) eqn:Hband.
  { rewrite log_bind. cbn. intros [= _ _ <-]. apply Hsame. }
  apply orb_false_iff in Hband as [Hlow Hhigh].
  apply Z.leb_gt in Hlow. apply Z.ltb_ge in Hhigh.
  destruct (GetRasterBand raster_ds band_num) as [band|] eqn:Hgetband.
  2:{ rewrite log_bind. cbn. intros [= _ _ <-]. apply Hsame. }
  rewrite bind_eq, try_except_eq, bind_eq. unfold engine_call.
  destruct (ReadAsArray band) as [[band_array|]|e] eqn:Hread; cbn [fst snd app].
  2,3: (rewrite log_bind; cbn; intros [= _ _ <-]; apply Hsame).
  cbn [mret run_ret fst snd app]. rewrite log_bind.
  pose proof (np_sum_zero threshold_value band_array) as [_ Hzero].
  destruct (np_sum (thresholded_array threshold_value band_array) =? 0)
    eqn:Hpixels.
  { rewrite log_bind. cbn. intros [= _ _ <-]. apply Hsame. }
  apply Z.eqb_neq in Hpixels.
  rewrite log_bind, bind_eq, try_except_eq, bind_eq.
  destruct (mem_create ex) as [[|]|e]; cbn [fst snd app negb].
  2,3: (cbn; intros [= _ _ <-]; apply Hsame).
  cbn [mret run_ret fst snd app negb].
  pose proof (dn_field_known (layer_defn out_layer)) as Hdn.
  destruct (GetFieldIndex (layer_defn out_layer) "DN" <? 0).
  { rewrite log_bind. cbn. intros [= _ _ <-]. apply Hsame. }
  symmetry in Hdn. apply negb_false_iff, bool_decide_eq_true in Hdn.
  rewrite bind_eq.
  destruct (Polygonize ex _) as [[result regions]|e]; [|discriminate].
  cbn [fst snd app].
  destruct (result =? 0); cbn [negb]; rewrite log_bind; cbn;
    intros [= _ _ <-]; [|apply Hsame].
  destruct (append_polygons_features "DN" regions out_layer)
    as (new & Hf & _ & Hd & Hg).
  split_and!; [rewrite Hf; now apply prefix_app_r|exact Hd|exact Hg|].
  intros _. split_and!; [lia|lia|exact Hdn|].
  exists band, band_array. split_and!; [reflexivity|exact Hread|].
  intros Hbelow. apply Hpixels. now apply Hzero.
Qed.

Lemma extraction_only_appends_witness :
  exists out_layer',
    (initial_polygonize_band toy_extractor
       (toy_raster "EPSG:32633" [[0; 200]] [[0; 0]]) 1 102
       (dn_layer [dn_feature 1 triangle 1])).2 = Returned (true, out_layer')
    /\ map geometry (layer_features out_layer')
       = [Some triangle; Some unit_square]
    /\ [dn_feature 1 triangle 1] `prefix_of` layer_features out_layer'.
Proof.
  pose (r := initial_polygonize_band toy_extractor
               (toy_raster "EPSG:32633" [[0; 200]] [[0; 0]]) 1 102
               (dn_layer [dn_feature 1 triangle 1])).
  assert (Hrun : exists out_layer',
             r = (r.1, Returned (true, out_layer'))
             /\ map geometry (layer_features out_layer')
                = [Some triangle; Some unit_square]).
  { eexists. split; vm_compute; reflexivity. }
  destruct Hrun as (out_layer' & Hrun & Hgeom). exists out_layer'.
  split; [change (r.2 = Returned (true, out_layer')); now rewrite Hrun|].
  split; [exact Hgeom|].
  exact (proj1 (extraction_only_appends _ _ _ _ _ _ _ _ Hrun)).
Defined.

(** ** The mask and the cutoff *)

Lemma thresholded_cell_antitone t1 t2 pixel :
  t1 <= t2 ->
  0 <= thresholded_cell t2 pixel <= thresholded_cell t1 pixel
  /\ thresholded_cell t1 pixel <= 1.
Proof.
  intros Hle. unfold thresholded_cell.
  destruct (Z.leb_spec t2 pixel), (Z.leb_spec t1 pixel); lia.
Qed.

Lemma row_sum_antitone t1 t2 (row : list Z) :
  t1 <= t2 ->
  0 <= foldr Z.add 0 (map (thresholded_cell t2) row)
    <= foldr Z.add 0 (map (thresholded_cell t1) row)
  /\ foldr Z.add 0 (map (thresholded_cell t1) row) <= Z.of_nat (length row).
Proof.
  intros Hle. induction row as [|pixel row IH]; cbn [map foldr length]; [lia|].
  pose proof (thresholded_cell_antitone t1 t2 pixel Hle). lia.
Qed.

(** X12: raising the cutoff never adds a pixel to the mask.  For cutoffs
    [t1 <= t2] the number of pixels meeting [t2] is at most the number
    meeting [t1], and the count lies between 0 and the number of pixels
    of the band; so a band for which [initial_polygonize_band] warned
    that no pixel meets [t1] gives, at [t2], the same warning and the
    same result: success with the layer untouched. *)
Theorem mask_shrinks_with_cutoff (t1 t2 : Z) (band_array : list (list Z)) :
  t1 <= t2 ->
  0 <= np_sum (thresholded_array t2 band_array)
    <= np_sum (thresholded_array t1 band_array)
  /\ np_sum (thresholded_array t1 band_array)
     <= Z.of_nat (length (concat band_array))
  /\ (below_cutoff t1 band_array -> below_cutoff t2 band_array)
  /\ (forall ex raster_ds band_num band out_layer,
        0 < band_num <= RasterCount raster_ds ->
        GetRasterBand raster_ds band_num = Some band ->
        ReadAsArray band = Returned (Some band_array) ->
        Log (WarnNoPixels t1)
        ∈ (initial_polygonize_band ex raster_ds band_num t1 out_layer).1 ->
        (initial_polygonize_band ex raster_ds band_num t2 out_layer).2
        = Returned (true, out_layer)
        /\ Log (WarnNoPixels t2)
           ∈ (initial_polygonize_band ex raster_ds band_num t2 out_layer).1).
Proof.
  intros Hle.
  assert (Hsum : 0 <= np_sum (thresholded_array t2 band_array)
                   <= np_sum (thresholded_array t1 band_array)
                 /\ np_sum (thresholded_array t1 band_array)
                    <= Z.of_nat (length (concat band_array))).
  { unfold np_sum, thresholded_array.
    induction band_array as [|row rows IH]; cbn [map foldr concat]; [cbn; lia|].
    rewrite length_app. pose proof (row_sum_antitone t1 t2 row Hle). lia. }
  assert (Hbelow : below_cutoff t1 band_array -> below_cutoff t2 band_array).
  { intros Hbelow. apply np_sum_zero. apply np_sum_zero in Hbelow. lia. }
  split_and!; [lia|lia|lia|exact Hbelow|].
  intros ex raster_ds band_num band out_layer Hband Hget Hread Hrun.
  rewrite (initial_polygonize_band_zero ex raster_ds band_num band band_array);
    [split; [reflexivity|apply list_elem_of_further, list_elem_of_here]
    |exact Hband|exact Hget|exact Hread|].
  apply Hbelow. apply np_sum_zero.
  revert Hrun. unfold initial_polygonize_band. cbv zeta.
  replace ((band_num <=? 0) || (RasterCount raster_ds <? band_num)) with false
    by (symmetry; apply orb_false_iff; split;
        [apply Z.leb_gt|apply Z.ltb_ge]; lia).
  rewrite Hget, bind_eq, try_except_eq, bind_eq. unfold engine_call.
  rewrite Hread. cbn [fst snd app mret run_ret]. rewrite log_bind.
  destruct (np_sum (thresholded_array t1 band_array) =? 0) eqn:Hzero;
    [intros _; now apply Z.eqb_eq|].
  rewrite log_bind. cbn [fst]. intros Hin. exfalso.
  assert (Hquiet : traced (fun ev => ev <> Log (WarnNoPixels t1)) (fun _ => True)
                          (temp_ok ←
                             try_except
                               (temp_ds ← engine_call (mem_create ex);
                                if temp_ds : bool then mret true
                                else raise "RuntimeError")
                               (fun _ => _ ← log_message ErrMemRaster; mret false);
                           if negb temp_ok then mret (false, out_layer)
                           else
                             let dn_field_index :=
                               GetFieldIndex (layer_defn out_layer) "DN" in
                             if dn_field_index <? 0
                             then _ ← log_message ErrNoDNBeforePolygonize;
                                  mret (false, out_layer)
                             else
                               let count_before := GetFeatureCount out_layer in
                               '(result, regions) ←
                                 engine_call
                                   (Polygonize ex (thresholded_array t1 band_array));
                               let out_layer' :=
                                 if result =? 0
                                 then append_polygons "DN" regions out_layer
                                 else out_layer in
                               let count_after := GetFeatureCount out_layer' in
                               if negb (result =? 0)
                               then _ ← log_message (ErrPolygonize result);
                                    mret (false, out_layer')
                               else _ ← log_message
                                          (PolygonizeAdded
                                             (count_after - count_before));
                                    mret (true, out_layer'))).
  { cbv zeta.
    repeat first
      [ apply traced_ret | apply traced_raise | apply traced_engine_call
      | apply traced_log; [discriminate|exact I]
      | apply traced_bind; [|intros]
      | apply traced_try_except;
          [ |intros|intros; apply Forall_forall; intros; exact I]
      | match goal with
        | |- traced _ _ (if ?b then _ else _) => destruct b
        | |- traced _ _ (match ?x with _ => _ end) => destruct x
        | |- traced _ _ (let '(_, _) := ?x in _) => destruct x
        end ]. }
  destruct Hquiet as [Hall _]. rewrite Forall_forall in Hall.
  rewrite !elem_of_cons in Hin. destruct Hin as [Hin|[Hin|Hin]];
    [discriminate..|].
  now apply (Hall _ Hin).
Qed.

Lemma mask_shrinks_with_cutoff_witness :
  np_sum (thresholded_array 200 [[0; 150]; [220; 255]])
  <= np_sum (thresholded_array 102 [[0; 150]; [220; 255]])
  /\ np_sum (thresholded_array 102 [[0; 150]; [220; 255]]) = 3
  /\ np_sum (thresholded_array 200 [[0; 150]; [220; 255]]) = 2.
Proof.
  split; [|split; vm_compute; reflexivity].
  refine (proj2 (proj1 (mask_shrinks_with_cutoff 102 200
                          [[0; 150]; [220; 255]] _))). lia.
Defined.

(** ** Runs of the orchestrator: the completion signal *)

(** [quiet m]: [m] puts no completion signal on the queue. *)
Abbreviation quiet :=
  (traced (fun ev => is_signal ev = false) (fun _ => True)).

Create HintDb quiet.

(** Proves [quiet m] from the lemmas of the [quiet] database. *)
Ltac quiet_auto :=
  repeat first
    [ apply traced_ret | apply traced_raise | apply traced_engine_call
    | apply traced_log; [reflexivity|exact I]
    | apply traced_emit; [reflexivity|exact I]
    | apply traced_ogr_call; [reflexivity|intros; exact I]
    | solve [auto with quiet]
    | apply traced_bind; [|intros]
    | apply traced_try_except;
        [ |intros|intros; apply Forall_forall; intros; exact I]
    | apply traced_foldM; intros
    | match goal with
      | |- traced _ _ (if ?b then _ else _) => destruct b
      | |- traced _ _ (match ?x with _ => _ end) => destruct x
      | |- traced _ _ (let '(_, _) := ?x in _) => destruct x
      end ].

Lemma quiet_signals {X} (m : Run X) : quiet m -> completion_signals m.1 = [].
Proof.
  intros [Hall _]. unfold completion_signals.
  induction Hall as [|ev t Hev _ IH]; [reflexivity|].
  cbn [omap list_omap]. rewrite IH. now destruct ev.
Qed.

Lemma completion_signals_app t1 t2 :
  completion_signals (t1 ++ t2) = completion_signals t1 ++ completion_signals t2.
Proof. apply omap_app. Qed.

Section QuietFacts.
Context `{GeometryEngine} `{SpatialRef} (drv : Driver).

Lemma quiet_SetField feature name value : quiet (SetField feature name value).
Proof. unfold SetField. quiet_auto. Qed.
Hint Resolve quiet_SetField : quiet.

Lemma quiet_set_fields layer_defn feature attrs :
  quiet (set_fields layer_defn feature attrs).
Proof. unfold set_fields, set_field_step. quiet_auto. Qed.
Hint Resolve quiet_set_fields : quiet.

Lemma quiet_RollbackTransaction : quiet (RollbackTransaction drv).
Proof. unfold RollbackTransaction. quiet_auto. Qed.
Hint Resolve quiet_RollbackTransaction : quiet.

Lemma quiet_rewrite layer data : quiet (clear_and_repopulate_layer drv layer data).
Proof.
  unfold clear_and_repopulate_layer, clearing_try, adding_try, report_final,
    clear_block, add_block, add_block_step, delete_step.
  cbv zeta. quiet_auto.
Qed.
Hint Resolve quiet_rewrite : quiet.

Lemma quiet_simplify_layer layer tolerance :
  quiet (simplify_layer drv layer tolerance).
Proof. unfold simplify_layer, simplify_feature. cbv zeta. quiet_auto. Qed.
Hint Resolve quiet_simplify_layer : quiet.

Lemma quiet_filter_layer_by_min_area layer min_area :
  quiet (filter_layer_by_min_area drv layer min_area).
Proof.
  unfold filter_layer_by_min_area, area_filter_feature. cbv zeta. quiet_auto.
Qed.
Hint Resolve quiet_filter_layer_by_min_area : quiet.

Lemma quiet_AddGeometry container child : quiet (AddGeometry container child).
Proof. unfold AddGeometry. quiet_auto. Qed.
Hint Resolve quiet_AddGeometry : quiet.

Lemma quiet_fix_layer_geometries layer : quiet (fix_layer_geometries drv layer).
Proof.
  unfold fix_layer_geometries, fix_feature, fix_geometry, extract_part.
  cbv zeta. quiet_auto.
Qed.
Hint Resolve quiet_fix_layer_geometries : quiet.

Lemma quiet_run_chaikin points_2d iterations :
  quiet (run_chaikin points_2d iterations).
Proof.
  unfold run_chaikin. destruct (_apply_chaikin_to_ring _ _) as [pts msgs].
  split; [|intros; apply Forall_forall; intros; exact I].
  cbn. induction msgs; constructor; auto.
Qed.
Hint Resolve quiet_run_chaikin : quiet.

Lemma quiet_smooth_layer_chaikin layer iterations :
  quiet (smooth_layer_chaikin drv layer iterations).
Proof.
  unfold smooth_layer_chaikin, smooth_feature, smooth_geometry, smooth_part,
    smooth_ring, add_to.
  cbv zeta. quiet_auto.
Qed.
Hint Resolve quiet_smooth_layer_chaikin : quiet.

Lemma quiet_filter_layer_by_dn layer keep_dn_value :
  quiet (filter_layer_by_dn drv layer keep_dn_value).
Proof.
  unfold filter_layer_by_dn, dn_filter_feature. cbv zeta. quiet_auto.
Qed.
Hint Resolve quiet_filter_layer_by_dn : quiet.

Lemma quiet_initial_polygonize_band ex ds band_num threshold_value out_layer :
  quiet (initial_polygonize_band ex ds band_num threshold_value out_layer).
Proof. unfold initial_polygonize_band. cbv zeta. quiet_auto. Qed.
Hint Resolve quiet_initial_polygonize_band : quiet.

Lemma quiet_get_raster_info ds : quiet (get_raster_info ds).
Proof. unfold get_raster_info. cbv zeta. quiet_auto. Qed.
Hint Resolve quiet_get_raster_info : quiet.

End QuietFacts.

#[export] Hint Resolve quiet_rewrite quiet_simplify_layer
  quiet_filter_layer_by_min_area quiet_fix_layer_geometries
  quiet_smooth_layer_chaikin quiet_filter_layer_by_dn
  quiet_initial_polygonize_band quiet_get_raster_info : quiet.

Section SignalFacts.
Context `{GeometryEngine} `{SpatialRef} (w : World).

Lemma quiet_main_block params threshold_255_roads threshold_255_buildings :
  quiet (main_block w params threshold_255_roads threshold_255_buildings).
Proof.
  unfold main_block, create_class_layer, polygonize_raster, critical_error,
    post_process_roads, post_process_buildings.
  cbv zeta. quiet_auto.
Qed.

Lemma quiet_validated_info path : quiet (validated_info w path).
Proof. unfold validated_info. quiet_auto. Qed.

(** The output preparation returns, with one failure signal exactly when
    it reports failure. *)
Lemma prepare_output_signals params :
  exists t prepared,
    prepare_output w params = (t, Returned prepared)
    /\ completion_signals t
       = if prepared then [] else [PROCESS_COMPLETE_FAILURE].
Proof.
  unfold prepare_output, ogr_call.
  destruct (output_dir_exists w), (makedirs_ok w), (output_exists w),
    (force params), (gpkg_driver w),
    (delete_datasource_err w =? OGRERR_NONE) eqn:Herr, (remove_ok w);
    cbn; rewrite ?Herr; cbn; eauto.
Qed.

(** So does the validation. *)
Lemma validate_input_rasters_signals paths :
  exists t target_srs,
    validate_input_rasters w paths = (t, Returned target_srs)
    /\ completion_signals t
       = match target_srs with
         | Some _ => []
         | None => [PROCESS_COMPLETE_FAILURE]
         end.
Proof.
  unfold validate_input_rasters. destruct paths as [|first rest].
  { cbn. eauto. }
  rewrite try_except_eq, bind_eq.
  pose proof (quiet_signals _ (quiet_validated_info first)) as Hfirst.
  destruct (validated_info w first) as [t1 [info|e]]; cbn [fst] in Hfirst.
  2:{ cbn -[completion_signals]. eexists _, None. split; [reflexivity|].
      now rewrite completion_signals_app, Hfirst. }
  rewrite bind_eq.
  assert (Hloop : quiet (foldM (validate_against w first (info_srs info))
                               rest tt)).
  { unfold validate_against. pose proof quiet_validated_info. quiet_auto. }
  apply quiet_signals in Hloop.
  destruct (foldM _ rest tt) as [t2 [[]|e]]; cbn [fst] in Hloop;
    cbn -[completion_signals].
  - eexists _, (Some _). split; [reflexivity|].
    rewrite !completion_signals_app, Hfirst, Hloop. reflexivity.
  - eexists _, None. split; [reflexivity|].
    rewrite !completion_signals_app, Hfirst, Hloop. reflexivity.
Qed.

Lemma completion_signals_log msg t :
  completion_signals (Log msg :: t) = completion_signals t.
Proof. reflexivity. Qed.

Lemma completion_signals_put s t :
  completion_signals (QueuePut s :: t) = s :: completion_signals t.
Proof. reflexivity. Qed.

(** X13: a run whose two confidence percentages convert to a cutoff
    always returns, whatever the file system, GDAL and the driver do, and
    it puts exactly one completion signal on the queue: the success
    signal when it returns [True], the failure signal when it returns
    [False].  The value returned is the conjunction of the two class
    flags.  A percentage that does not convert (NaN or infinite) makes
    the call raise without any completion signal. *)
Theorem one_completion_signal (params : Params) :
  (is_Some (threshold_255 (conf_thresh_bldg_pct params)) ->
   is_Some (threshold_255 (conf_thresh_road_pct params)) ->
   exists t overall_success res,
     run_processing w params = (t, Returned (overall_success, res))
     /\ overall_success = success_roads res && success_buildings res
     /\ completion_signals t
        = [if overall_success then PROCESS_COMPLETE_SUCCESS
           else PROCESS_COMPLETE_FAILURE])
  /\ (threshold_255 (conf_thresh_bldg_pct params) = None
      \/ threshold_255 (conf_thresh_road_pct params) = None ->
      exists t e, run_processing w params = (t, Raised e)
                  /\ completion_signals t = []).
Proof.
  unfold run_processing. cbv zeta. split.
  - intros [tb ->] [tr ->].
    destruct (prepare_output_signals params) as (tp & prepared & -> & Hsp).
    rewrite bind_eq. cbn [fst snd].
    destruct prepared; cbn [negb].
    2:{ cbn -[completion_signals]. eexists _, false, _.
        split; [reflexivity|]. split; [reflexivity|].
        now rewrite app_nil_r. }
    destruct (validate_input_rasters_signals (input_rasters params))
      as (tv & target_srs & -> & Hsv).
    rewrite bind_eq. cbn [fst snd].
    destruct target_srs as [target_srs|].
    2:{ cbn -[completion_signals]. eexists _, false, _.
        split; [reflexivity|]. split; [reflexivity|].
        now rewrite app_nil_r, completion_signals_app, Hsp, Hsv. }
    rewrite bind_eq.
    set (warn := if negb (IsProjected target_srs)
                 then log_message WarnGeographic else mret tt).
    assert (Hwarn : exists tw, warn = (tw, Returned tt)
                               /\ completion_signals tw = []).
    { subst warn. destruct (negb _); cbn; eauto. }
    destruct Hwarn as (tw & -> & Hsw). cbn [fst snd].
    destruct (gpkg_driver w); cbn [negb].
    2:{ cbn -[completion_signals]. eexists _, false, _.
        split; [reflexivity|]. split; [reflexivity|].
        rewrite !completion_signals_app, Hsp, Hsv, Hsw. reflexivity. }
    rewrite bind_eq, try_except_eq.
    pose proof (quiet_signals _ (quiet_main_block params tr tb)) as Hsm.
    destruct (main_block w params tr tb) as [tm [res|e]]; cbn [fst snd] in Hsm |- *.
    + rewrite !log_bind. cbn [fst snd].
      destruct (success_roads res && success_buildings res) eqn:Hok;
        destruct (final_layers res) as [[r b]|];
        cbn -[completion_signals]; eexists _, _, res;
        (split; [reflexivity|]); (split; [symmetry; exact Hok|]);
        rewrite !completion_signals_app, Hsp, Hsv, Hsw, Hsm; reflexivity.
    + rewrite !log_bind. cbn -[completion_signals].
      eexists _, false, _. split; [reflexivity|]. split; [reflexivity|].
      rewrite !completion_signals_app, Hsp, Hsv, Hsw, Hsm. reflexivity.
  - intros [->| ->]; [eexists _, _; split; reflexivity|].
    destruct (threshold_255 (conf_thresh_bldg_pct params));
      eexists _, _; split; reflexivity.
Qed.

(** X14: an existing output file is never touched without the force
    flag.  When the output path exists and [force] is off, the run makes
    no call that removes, creates or writes the output; if it returns, it
    returns [False] without layers, having signalled failure once, and
    (its directory existing) having logged that the output exists. *)
Theorem existing_output_needs_force (params : Params) :
  output_exists w = true -> force params = false ->
  (forall ev, ev ∈ (run_processing w params).1 -> touches_output ev = false)
  /\ (forall overall_success res,
        (run_processing w params).2 = Returned (overall_success, res) ->
        overall_success = false
        /\ final_layers res = None
        /\ completion_signals (run_processing w params).1
           = [PROCESS_COMPLETE_FAILURE]
        /\ (output_dir_exists w = true ->
            Log ErrOutputExists ∈ (run_processing w params).1)).
Proof.
  intros Hexists Hforce.
  assert (Hrun :
            (exists e, run_processing w params = ([], Raised e))
            \/ exists t, run_processing w params
                         = (t, Returned (false,
                                         {| success_roads := false;
                                            success_buildings := false;
                                            final_layers := None |}))
                         /\ (t = [makedirs_called false; Log ErrCreateDir;
                                  QueuePut PROCESS_COMPLETE_FAILURE]
                                 /\ output_dir_exists w = false
                             \/ t = [makedirs_called true; Log ErrOutputExists;
                                     QueuePut PROCESS_COMPLETE_FAILURE]
                                /\ output_dir_exists w = false
                             \/ t = [Log ErrOutputExists;
                                     QueuePut PROCESS_COMPLETE_FAILURE])).
  { unfold run_processing. cbv zeta.
    destruct (threshold_255 (conf_thresh_bldg_pct params)); [|left; eauto].
    destruct (threshold_255 (conf_thresh_road_pct params)); [|left; eauto].
    right. unfold prepare_output. rewrite Hexists, Hforce.
    destruct (output_dir_exists w); cbn; [eauto|].
    destruct (makedirs_ok w); cbn; eauto 6. }
  destruct Hrun as [[e ->]|(t & -> & Ht)]; cbn [fst snd].
  { split; [intros ev Hin; now apply elem_of_nil in Hin|discriminate]. }
  split.
  - intros ev Hin.
    destruct Ht as [[-> _]|[[-> _]| ->]]; rewrite !elem_of_cons in Hin;
      repeat (destruct Hin as [->|Hin]; [reflexivity|]);
      now apply elem_of_nil in Hin.
  - intros ok res [= <- <-]. split_and!; [reflexivity..| |].
    + destruct Ht as [[-> _]|[[-> _]| ->]]; reflexivity.
    + intros Hdir. destruct Ht as [[_ ?]|[[_ ?]| ->]]; [congruence..|].
      apply list_elem_of_here.
Qed.


End SignalFacts.

Lemma one_completion_signal_witness :
  exists res,
    (run_processing (toy_world no_roads_files) (toy_params ["a.tif"])).2
    = Returned (true, res)
    /\ completion_signals
         (run_processing (toy_world no_roads_files) (toy_params ["a.tif"])).1
       = [PROCESS_COMPLETE_SUCCESS].
Proof.
  pose (r := run_processing (toy_world no_roads_files) (toy_params ["a.tif"])).
  assert (Hres : exists res, r.2 = Returned (true, res)).
  { eexists. vm_compute. reflexivity. }
  destruct Hres as [res Hres]. exists res. split; [exact Hres|].
  destruct (proj1 (one_completion_signal (toy_world no_roads_files)
                     (toy_params ["a.tif"])))
    as (t & ok & res' & Hrun & _ & Hsignals).
  - exists 102. vm_compute. reflexivity.
  - exists 102. vm_compute. reflexivity.
  - unfold r in Hres. rewrite Hrun in Hres |- *. cbn in Hres.
    injection Hres as -> _. exact Hsignals.
Defined.

Lemma existing_output_needs_force_witness :
  (run_processing existing_output_world (toy_params ["a.tif"])).2
  = Returned (false, {| success_roads := false; success_buildings := false;
                        final_layers := None |})
  /\ forall ev,
       ev ∈ (run_processing existing_output_world (toy_params ["a.tif"])).1 ->
       touches_output ev = false.
Proof.
  split; [vm_compute; reflexivity|].
  apply (existing_output_needs_force existing_output_world
           (toy_params ["a.tif"])); reflexivity.
Defined.

(** ** What a successful run leaves in the layers *)

Section ResultFacts.
Context `{GeometryEngine} `{SpatialRef} (w : World).

Lemma empty_layer_count layer :
  (0 <? GetFeatureCount layer) = false -> layer_features layer = [].
Proof.
  unfold GetFeatureCount. intros Hcount. apply Z.ltb_ge in Hcount.
  destruct (layer_features layer); [reflexivity|cbn in Hcount; lia].
Qed.

Lemma post_process_roads_success params flag layer t layer' :
  post_process_roads w params flag layer = (t, Returned (true, layer')) ->
  flag = true
  /\ Forall (fun f => dn_keeps 1 f = true) (layer_features layer').
Proof.
  unfold post_process_roads. cbv zeta.
  destruct flag; [|rewrite log_bind; discriminate].
  destruct (0 <? GetFeatureCount layer) eqn:Hcount.
  2:{ rewrite log_bind. cbn. intros [= _ <-].
      rewrite (empty_layer_count _ Hcount). auto. }
  rewrite log_bind, bind_eq.
  destruct (simplify_layer _ layer _) as [t1 [[ok1 l1]|e]]; [|discriminate].
  cbn [fst snd]. rewrite bind_eq.
  destruct (if ok1 then _ else _) as [t2 [[ok2 l2]|e]]; [|discriminate].
  cbn [fst snd]. rewrite bind_eq.
  destruct (if ok1 && ok2 then _ else _) as [t3 [[ok3 l3]|e]]; [|discriminate].
  cbn [fst snd]. rewrite bind_eq.
  destruct (if 0 <? smooth_roads_chaikin params then _ else _)
    as [t4 [[ok4 l4]|e]]; [|discriminate].
  cbn [fst snd]. rewrite bind_eq.
  destruct (if ok1 && ok2 && ok3 && ok4 then _ else _)
    as [t5 [[ok5 l5]|e]] eqn:Hdn; [|discriminate].
  cbn. intros [= _ Hok <-].
  repeat (apply andb_true_iff in Hok as [Hok ?]). subst.
  cbn in Hdn. split; [reflexivity|].
  now apply (dn_filter_success _ _ _ _ _ Hdn).
Qed.

Lemma post_process_buildings_success params flag layer t layer' :
  post_process_buildings w params flag layer = (t, Returned (true, layer')) ->
  flag = true
  /\ Forall (fun f => dn_keeps 1 f = true) (layer_features layer').
Proof.
  unfold post_process_buildings. cbv zeta.
  destruct flag; [|rewrite log_bind; discriminate].
  destruct (0 <? GetFeatureCount layer) eqn:Hcount.
  2:{ rewrite log_bind. cbn. intros [= _ <-].
      rewrite (empty_layer_count _ Hcount). auto. }
  rewrite log_bind, bind_eq.
  destruct (simplify_layer _ layer _) as [t1 [[ok1 l1]|e]]; [|discriminate].
  cbn [fst snd]. rewrite bind_eq.
  destruct (if ok1 then _ else _) as [t2 [[ok2 l2]|e]]; [|discriminate].
  cbn [fst snd]. rewrite bind_eq.
  destruct (if ok1 && ok2 then _ else _) as [t3 [[ok3 l3]|e]]; [|discriminate].
  cbn [fst snd]. rewrite bind_eq.
  destruct (if ok1 && ok2 && ok3 then _ else _)
    as [t5 [[ok5 l5]|e]] eqn:Hdn; [|discriminate].
  cbn. intros [= _ Hok <-].
  repeat (apply andb_true_iff in Hok as [Hok ?]). subst.
  cbn in Hdn. split; [reflexivity|].
  now apply (dn_filter_success _ _ _ _ _ Hdn).
Qed.

(** The two post-processing calls behind the result of the main block. *)
Lemma main_block_result params threshold_255_roads threshold_255_buildings
    t res :
  main_block w params threshold_255_roads threshold_255_buildings
  = (t, Returned res) ->
  exists roads0 buildings0 tx ex t_r t_b roads buildings,
    foldM (polygonize_raster w threshold_255_roads threshold_255_buildings)
          (input_rasters params) (fresh_extraction roads0 buildings0)
    = (tx, Returned ex)
    /\ post_process_roads w params (all_poly_ok_roads ex) (roads_layer ex)
       = (t_r, Returned (success_roads res, roads))
    /\ post_process_buildings w params (all_poly_ok_buildings ex)
         (buildings_layer ex)
       = (t_b, Returned (success_buildings res, buildings))
    /\ final_layers res = Some (roads, buildings)
    /\ CreateDataSource_called true ∈ t
    /\ (forall ev, ev ∈ t_r \/ ev ∈ t_b -> ev ∈ t).
Proof.
  unfold main_block, fresh_extraction. rewrite bind_eq. unfold engine_call.
  rewrite bind_eq.
  destruct (create_datasource w) as [[|]|e]; cbn [fst snd app negb];
    [|discriminate..].
  rewrite bind_eq. cbn [fst snd app].
  rewrite bind_eq.
  destruct (create_class_layer w Roads) as [t1 [roads0|e]]; [|discriminate].
  cbn [fst snd]. rewrite bind_eq.
  destruct (create_class_layer w Buildings) as [t2 [buildings0|e]];
    [|discriminate].
  cbn [fst snd]. rewrite bind_eq.
  destruct (foldM _ (input_rasters params) _) as [tx [ex|e]] eqn:Hloop;
    [|discriminate].
  cbn [fst snd]. rewrite bind_eq.
  destruct (post_process_roads _ _ _ _) as [t_r [[ok_r roads]|e]] eqn:Hroads;
    [|discriminate].
  cbn [fst snd]. rewrite bind_eq.
  destruct (post_process_buildings _ _ _ _)
    as [t_b [[ok_b buildings]|e]] eqn:Hbuildings; [|discriminate].
  cbn. intros [= <- <-]. cbn.
  exists roads0, buildings0, tx, ex, t_r, t_b, roads, buildings.
  split_and!; [exact Hloop|exact Hroads|exact Hbuildings|reflexivity| |].
  - apply list_elem_of_here.
  - intros ev Hin. rewrite elem_of_cons, !elem_of_app. tauto.
Qed.

(** The main block behind a run that returns [True]. *)
Lemma successful_run_main_block params t res :
  run_processing w params = (t, Returned (true, res)) ->
  success_roads res = true /\ success_buildings res = true
  /\ exists threshold_255_roads threshold_255_buildings tm,
       threshold_255 (conf_thresh_road_pct params) = Some threshold_255_roads
       /\ threshold_255 (conf_thresh_bldg_pct params)
          = Some threshold_255_buildings
       /\ main_block w params threshold_255_roads threshold_255_buildings
          = (tm, Returned res)
       /\ forall ev, ev ∈ tm -> ev ∈ t.
Proof.
  unfold run_processing. cbv zeta.
  destruct (threshold_255 (conf_thresh_bldg_pct params)) as [tb|];
    [|discriminate].
  destruct (threshold_255 (conf_thresh_road_pct params)) as [tr|];
    [|discriminate].
  rewrite bind_eq.
  destruct (prepare_output w params) as [tp [[|]|e]]; cbn [fst snd negb];
    [|discriminate..].
  rewrite bind_eq.
  destruct (validate_input_rasters w _) as [tv [[target_srs|]|e]];
    cbn [fst snd]; [|discriminate..].
  rewrite bind_eq.
  destruct (if negb (IsProjected target_srs) then _ else _)
    as [tw [[]|e]]; [|discriminate].
  cbn [fst snd].
  destruct (gpkg_driver w); cbn [negb]; [|rewrite log_bind; discriminate].
  rewrite bind_eq, try_except_eq.
  destruct (main_block w params tr tb) as [tm [res'|e]] eqn:Hmain;
    cbn [fst snd].
  2:{ rewrite !log_bind. discriminate. }
  rewrite !log_bind. cbn [fst snd].
  destruct (success_roads res' && success_buildings res') eqn:Hok;
    [|cbn; discriminate].
  destruct (final_layers res') as [[r b]|]; cbn -[main_block];
    intros [= <- <-];
    apply andb_true_iff in Hok as [Hr Hb];
    (split_and!; [exact Hr|exact Hb|]);
    exists tr, tb, tm; (split_and!; [reflexivity|reflexivity|exact Hmain|]);
    intros ev Hin; rewrite !elem_of_app; auto.
Qed.

(** X15: what a run that returns [True] has produced.  The output data
    source was created, both classes report success, and every feature of
    the roads layer and of the buildings layer has a DN field equal to 1
    and a non-empty geometry that the engine finds valid. *)
Theorem successful_run_layers (params : Params) t res :
  run_processing w params = (t, Returned (true, res)) ->
  success_roads res = true /\ success_buildings res = true
  /\ CreateDataSource_called true ∈ t
  /\ exists roads buildings,
       final_layers res = Some (roads, buildings)
       /\ forall f, f ∈ layer_features roads ++ layer_features buildings ->
            py_eq_int (GetField f "DN") 1 = true
            /\ exists g, geometry f = Some g /\ IsEmpty g = false
                         /\ IsValid g = true.
Proof.
  intros Hrun.
  destruct (successful_run_main_block _ _ _ Hrun)
    as (Hr & Hb & tr & tb & tm & _ & _ & Hmain & Hsub).
  destruct (main_block_result _ _ _ _ _ Hmain)
    as (roads0 & buildings0 & tx & ex & t_r & t_b & roads & buildings
        & _ & Hroads & Hbuildings & Hfinal & Hcreated & _).
  rewrite Hr in Hroads. rewrite Hb in Hbuildings.
  apply post_process_roads_success in Hroads as [_ Hroads].
  apply post_process_buildings_success in Hbuildings as [_ Hbuildings].
  split_and!; [exact Hr|exact Hb|now apply Hsub|].
  exists roads, buildings. split; [exact Hfinal|].
  intros f Hin. apply dn_keeps_geometry.
  rewrite Forall_forall in Hroads, Hbuildings.
  apply elem_of_app in Hin as [Hin|Hin]; auto.
Qed.

(** Where the result of a run that returns comes from: an early exit or
    the handler of the main [try] (both class flags false, no layers), or
    the main block. *)
Lemma run_processing_result params t overall_success res :
  run_processing w params = (t, Returned (overall_success, res)) ->
  overall_success = success_roads res && success_buildings res
  /\ (res = {| success_roads := false; success_buildings := false;
               final_layers := None |}
      \/ exists threshold_255_roads threshold_255_buildings tm,
           main_block w params threshold_255_roads threshold_255_buildings
           = (tm, Returned res)
           /\ forall ev, ev ∈ tm -> ev ∈ t).
Proof.
  unfold run_processing. cbv zeta.
  destruct (threshold_255 (conf_thresh_bldg_pct params)) as [tb|];
    [|discriminate].
  destruct (threshold_255 (conf_thresh_road_pct params)) as [tr|];
    [|discriminate].
  rewrite bind_eq.
  destruct (prepare_output w params) as [tp [[|]|e]]; cbn [fst snd negb];
    [|cbn; intros [= _ <- <-]; auto|discriminate].
  rewrite bind_eq.
  destruct (validate_input_rasters w _) as [tv [[target_srs|]|e]];
    cbn [fst snd]; [|cbn; intros [= _ <- <-]; auto|discriminate].
  rewrite bind_eq.
  destruct (if negb (IsProjected target_srs) then _ else _)
    as [tw [[]|e]]; [|discriminate].
  cbn [fst snd].
  destruct (gpkg_driver w); cbn [negb];
    [|rewrite log_bind; cbn; intros [= _ <- <-]; auto].
  rewrite bind_eq, try_except_eq.
  destruct (main_block w params tr tb) as [tm [res'|e]] eqn:Hmain;
    cbn [fst snd].
  2:{ rewrite !log_bind. cbn. intros [= _ <- <-]. auto. }
  rewrite !log_bind. cbn [fst snd].
  destruct (success_roads res' && success_buildings res') eqn:Hok;
    destruct (final_layers res') as [[r b]|]; cbn -[main_block];
    intros [= <- <- <-]; (split; [now rewrite Hok|]); right;
    exists tr, tb, tm; (split; [exact Hmain|]);
    intros ev Hin; rewrite !elem_of_app; auto.
Qed.

(** ** A raster that does not open in the extraction loop *)

Lemma polygonize_raster_flags threshold_255_roads threshold_255_buildings
    st path :
  exists t st',
    polygonize_raster w threshold_255_roads threshold_255_buildings st path
    = (t, Returned st')
    /\ (all_poly_ok_roads st' = true -> all_poly_ok_roads st = true)
    /\ (all_poly_ok_buildings st' = true -> all_poly_ok_buildings st = true)
    /\ (unreadable_raster w path ->
        all_poly_ok_roads st' = false /\ all_poly_ok_buildings st' = false
        /\ roads_layer st' = roads_layer st
        /\ buildings_layer st' = buildings_layer st).
Proof.
  unfold polygonize_raster, critical_error, unreadable_raster, engine_call.
  cbv zeta. rewrite bind_eq, try_except_eq, bind_eq.
  destruct (open_for_processing w path) as [[ds|]|e]; cbn [fst snd app].
  - cbn [mret run_ret fst snd app]. rewrite bind_eq, try_except_eq, bind_eq.
    destruct (initial_polygonize_band _ ds 1 _ _) as [t1 [[ok_r roads]|e]];
      cbn [fst snd app].
    + cbn [mret run_ret fst snd app]. rewrite bind_eq.
      destruct (if negb ok_r then _ else _) as [tw [[]|e]] eqn:Hw.
      2:{ destruct (negb ok_r); discriminate. }
      cbn [fst snd]. rewrite bind_eq, try_except_eq, bind_eq.
      destruct (initial_polygonize_band _ ds 2 _ _)
        as [t2 [[ok_b buildings]|e]]; cbn [fst snd app].
      * cbn [mret run_ret fst snd app]. rewrite bind_eq.
        destruct (if negb ok_b then _ else _) as [tw' [[]|e]] eqn:Hw'.
        2:{ destruct (negb ok_b); discriminate. }
        cbn. eexists _, _. split; [reflexivity|]. cbn.
        split_and!.
        -- intros Hok. now apply andb_true_iff in Hok.
        -- intros Hok. now apply andb_true_iff in Hok.
        -- intros [[e He]|He]; discriminate.
      * cbn. eexists _, _. split; [reflexivity|]. cbn.
        split_and!; try discriminate. intros [[e' He]|He]; discriminate.
    + cbn. eexists _, _. split; [reflexivity|]. cbn.
      split_and!; try discriminate. intros [[e' He]|He]; discriminate.
  - cbn. eexists _, _. split; [reflexivity|]. cbn.
    split_and!; try discriminate. auto.
  - cbn. eexists _, _. split; [reflexivity|]. cbn.
    split_and!; try discriminate. auto.
Qed.

Lemma extraction_flags threshold_255_roads threshold_255_buildings paths :
  forall st, exists t st',
    foldM (polygonize_raster w threshold_255_roads threshold_255_buildings)
          paths st = (t, Returned st')
    /\ (all_poly_ok_roads st' = true -> all_poly_ok_roads st = true)
    /\ (all_poly_ok_buildings st' = true -> all_poly_ok_buildings st = true)
    /\ ((exists path, path ∈ paths /\ unreadable_raster w path) ->
        all_poly_ok_roads st' = false /\ all_poly_ok_buildings st' = false).
Proof.
  induction paths as [|path paths IH]; intros st.
  - cbn. eexists _, _. split; [reflexivity|]. split_and!; auto.
    intros (path & Hin & _). now apply elem_of_nil in Hin.
  - cbn [foldM]. rewrite bind_eq.
    destruct (polygonize_raster_flags threshold_255_roads
                threshold_255_buildings st path)
      as (t1 & st1 & -> & Hr1 & Hb1 & Hbad1).
    destruct (IH st1) as (t2 & st2 & -> & Hr2 & Hb2 & Hbad2).
    cbn. eexists _, _. split; [reflexivity|]. split_and!; auto.
    intros (bad & Hin & Hbad). apply elem_of_cons in Hin as [->|Hin].
    + destruct (Hbad1 Hbad) as (Hr & Hb & _).
      split.
      * destruct (all_poly_ok_roads st2); [|reflexivity].
        rewrite Hr2 in Hr; [discriminate|reflexivity].
      * destruct (all_poly_ok_buildings st2); [|reflexivity].
        rewrite Hb2 in Hb; [discriminate|reflexivity].
    + apply Hbad2. eauto.
Qed.

(** X16: a raster that does not open when the extraction loop reaches it
    (the open raises or returns nothing) fails both classes, also the one
    whose band it would not have contributed to: the loop goes on with
    the other rasters, but the post-processing of both classes is skipped
    and, whenever the run returns, it returns [False] with both class
    flags false. *)
Theorem unreadable_raster_fails_both (params : Params) (path : string) :
  path ∈ input_rasters params -> unreadable_raster w path ->
  (forall threshold_255_roads threshold_255_buildings t res,
     main_block w params threshold_255_roads threshold_255_buildings
     = (t, Returned res) ->
     success_roads res = false /\ success_buildings res = false
     /\ Log (SkipPostFailures Roads) ∈ t
     /\ Log (SkipPostFailures Buildings) ∈ t)
  /\ (forall t overall_success res,
        run_processing w params = (t, Returned (overall_success, res)) ->
        overall_success = false
        /\ success_roads res = false /\ success_buildings res = false).
Proof.
  intros Hin Hbad.
  assert (Hmain : forall threshold_255_roads threshold_255_buildings t res,
     main_block w params threshold_255_roads threshold_255_buildings
     = (t, Returned res) ->
     success_roads res = false /\ success_buildings res = false
     /\ Log (SkipPostFailures Roads) ∈ t
     /\ Log (SkipPostFailures Buildings) ∈ t).
  { intros tr tb t res Hrun.
    destruct (main_block_result _ _ _ _ _ Hrun)
      as (roads0 & buildings0 & tx & ex & t_r & t_b & roads & buildings
          & Hloop & Hroads & Hbuildings & _ & _ & Hsub).
    destruct (extraction_flags tr tb (input_rasters params)
                (fresh_extraction roads0 buildings0))
      as (tx' & ex' & Hloop' & _ & _ & Hflags).
    rewrite Hloop in Hloop'. injection Hloop' as _ <-.
    destruct Hflags as [Hr Hb]; [eauto|].
    rewrite Hr in Hroads. rewrite Hb in Hbuildings.
    unfold post_process_roads in Hroads.
    unfold post_process_buildings in Hbuildings.
    rewrite log_bind in Hroads, Hbuildings. cbn in Hroads, Hbuildings.
    injection Hroads as <- <- _. injection Hbuildings as <- <- _.
    split_and!; [reflexivity..| |]; apply Hsub.
    - left. apply list_elem_of_here.
    - right. apply list_elem_of_here. }
  split; [exact Hmain|].
  intros t ok res Hrun.
  destruct (run_processing_result _ _ _ _ Hrun)
    as [-> [->|(tr & tb & tm & Hmb & _)]]; [now split_and!|].
  destruct (Hmain _ _ _ _ Hmb) as (Hr & Hb & _).
  rewrite Hr, Hb. now split_and!.
Qed.


End ResultFacts.

(** ** Runs that stop at the validation *)

Section ValidationFacts.
Context `{GeometryEngine} `{SpatialRef} (w : World).

Lemma prepare_output_writes_nothing params :
  traced (fun ev => writes_output ev = false) (fun _ => True)
         (prepare_output w params).
Proof. unfold prepare_output. traced_auto. Qed.

Lemma validation_writes_nothing paths :
  traced (fun ev => writes_output ev = false) (fun _ => True)
         (validate_input_rasters w paths).
Proof.
  unfold validate_input_rasters, validate_against, validated_info,
    get_raster_info.
  cbv zeta. traced_auto.
Qed.

Lemma get_raster_info_returns ds :
  exists t info, get_raster_info ds = (t, Returned info)
                 /\ info_bands info = RasterCount ds.
Proof.
  unfold get_raster_info, engine_call, try_except. cbv zeta.
  repeat (cbn;
          match goal with
          | |- context [if ?b then _ else _] => destruct b
          | |- context [match ?o with Returned _ => _ | Raised _ => _ end] =>
              destruct o
          end).
  all: cbn; eauto.
Qed.

Lemma validated_info_unusable path :
  unusable_raster w path -> exists t e, validated_info w path = (t, Raised e).
Proof.
  unfold validated_info, engine_call. rewrite bind_eq.
  intros [[e ->]|[->|(ds & -> & Hbands)]]; cbn [fst snd app]; [eauto..|].
  destruct (get_raster_info_returns ds) as (t & info & -> & Hinfo).
  rewrite bind_eq. cbn [fst snd].
  destruct (negb (truthy (info_projection_wkt info))); [cbn; eauto|].
  rewrite Hinfo. apply Z.ltb_lt in Hbands. rewrite Hbands. cbn. eauto.
Qed.

Lemma validation_fails paths path :
  path ∈ paths -> unusable_raster w path ->
  exists t, validate_input_rasters w paths = (t, Returned None)
            /\ Log ErrValidation ∈ t.
Proof.
  intros Hin Hbad. unfold validate_input_rasters.
  destruct paths as [|first rest]; [now apply elem_of_nil in Hin|].
  assert (Hbody : exists t e,
            (first_raster_info_val ← validated_info w first;
             _ ← foldM (validate_against w first
                          (info_srs first_raster_info_val)) rest tt;
             _ ← log_message AllProjectionsMatch;
             mret (Some (info_srs first_raster_info_val)))
            = (t, Raised e)).
  { rewrite bind_eq. apply elem_of_cons in Hin as [->|Hin].
    - destruct (validated_info_unusable _ Hbad) as (t & e & ->). eauto.
    - destruct (validated_info w first) as [t1 [info|e]]; [|eauto].
      cbn [fst snd]. rewrite bind_eq.
      assert (Hloop : exists t e,
                foldM (validate_against w first (info_srs info)) rest tt
                = (t, Raised e)).
      { clear -Hin Hbad. induction rest as [|p rest IH];
          [now apply elem_of_nil in Hin|].
        cbn [foldM]. rewrite bind_eq.
        destruct (validate_against w first (info_srs info) () p)
          as [t1 [[]|e]] eqn:Hstep; [|eauto].
        apply elem_of_cons in Hin as [->|Hin].
        - exfalso. unfold validate_against in Hstep. rewrite bind_eq in Hstep.
          destruct (validated_info_unusable _ Hbad) as (t & e & Heq).
          rewrite Heq in Hstep. discriminate.
        - destruct (IH Hin) as (t2 & e & ->). cbn. eauto. }
      destruct Hloop as (t2 & e & ->). cbn. eauto. }
  destruct Hbody as (t & e & ->). rewrite try_except_eq. cbn.
  eexists. split; [reflexivity|].
  rewrite elem_of_app, elem_of_cons. auto.
Qed.

(** A run whose validation fails. *)
Lemma run_after_failed_validation params tv :
  validate_input_rasters w (input_rasters params) = (tv, Returned None) ->
  (forall ev, ev ∈ (run_processing w params).1 -> writes_output ev = false)
  /\ (forall overall_success res,
        (run_processing w params).2 = Returned (overall_success, res) ->
        overall_success = false /\ final_layers res = None).
Proof.
  intros Hv.
  pose proof (prepare_output_writes_nothing params) as [Hp _].
  pose proof (validation_writes_nothing (input_rasters params)) as [Hvw _].
  rewrite Hv in Hvw. cbn [fst] in Hvw.
  unfold run_processing. cbv zeta.
  destruct (threshold_255 (conf_thresh_bldg_pct params)) as [tb|].
  2:{ cbn. split; [intros ev Hin; now apply elem_of_nil in Hin|discriminate]. }
  destruct (threshold_255 (conf_thresh_road_pct params)) as [tr|].
  2:{ cbn. split; [intros ev Hin; now apply elem_of_nil in Hin|discriminate]. }
  rewrite bind_eq.
  destruct (prepare_output w params) as [tp [[|]|e]]; cbn [fst snd negb] in *.
  - rewrite bind_eq, Hv. cbn. split.
    + intros ev Hin. rewrite app_nil_r in Hin.
      rewrite Forall_forall in Hp, Hvw.
      apply elem_of_app in Hin as [Hin|Hin]; auto.
    + now intros ok res [= <- <-].
  - cbn. split.
    + intros ev Hin. rewrite app_nil_r in Hin.
      rewrite Forall_forall in Hp. auto.
    + now intros ok res [= <- <-].
  - split; [|discriminate].
    rewrite Forall_forall in Hp. auto.
Qed.

(** X17: a raster the validation cannot use stops the run before
    anything is created.  If some input raster does not open for the
    validation, or has fewer than two bands, the validation fails; the
    run makes no call that creates or writes the output and, if it
    returns, returns [False] without layers. *)
Theorem unusable_raster_stops_run (params : Params) (path : string) :
  path ∈ input_rasters params -> unusable_raster w path ->
  (exists t, validate_input_rasters w (input_rasters params)
             = (t, Returned None)
             /\ Log ErrValidation ∈ t)
  /\ (forall ev, ev ∈ (run_processing w params).1 -> writes_output ev = false)
  /\ (forall overall_success res,
        (run_processing w params).2 = Returned (overall_success, res) ->
        overall_success = false /\ final_layers res = None).
Proof.
  intros Hin Hbad.
  destruct (validation_fails _ _ Hin Hbad) as (t & Hv & Hlog).
  split; [eauto|]. exact (run_after_failed_validation params t Hv).
Qed.

(** X18: an empty list of input rasters.  The run creates and writes
    nothing and, if it returns, returns [False] without layers, having
    logged that there is no raster.  The list is only looked at after the
    output has been prepared: with the force flag set, an existing output
    file has already been deleted when the run reports that there is
    nothing to process. *)
Theorem empty_input_list (params : Params) :
  input_rasters params = [] ->
  (forall ev, ev ∈ (run_processing w params).1 -> writes_output ev = false)
  /\ (forall overall_success res,
        (run_processing w params).2 = Returned (overall_success, res) ->
        overall_success = false /\ final_layers res = None)
  /\ (is_Some (threshold_255 (conf_thresh_bldg_pct params)) ->
      is_Some (threshold_255 (conf_thresh_road_pct params)) ->
      output_dir_exists w = true ->
      (output_exists w = false ->
       Log ErrNoRasters ∈ (run_processing w params).1
       /\ completion_signals (run_processing w params).1
          = [PROCESS_COMPLETE_FAILURE])
      /\ (output_exists w = true -> force params = true ->
          gpkg_driver w = true -> delete_datasource_err w = OGRERR_NONE ->
          exists before after,
            (run_processing w params).1
            = before ++ DeleteDataSource_called OGRERR_NONE :: after
            /\ Log ErrNoRasters ∈ after
            /\ completion_signals (run_processing w params).1
               = [PROCESS_COMPLETE_FAILURE])).
Proof.
  intros Hempty.
  assert (Hv : validate_input_rasters w (input_rasters params)
               = ([Log ErrNoRasters; QueuePut PROCESS_COMPLETE_FAILURE],
                  Returned None))
    by now rewrite Hempty.
  destruct (run_after_failed_validation params _ Hv) as [Hwrites Hresult].
  split_and!; [exact Hwrites|exact Hresult|].
  intros [tb Htb] [tr Htr] Hdir. unfold run_processing. cbv zeta.
  rewrite Htb, Htr, Hv. unfold prepare_output. rewrite Hdir. split.
  - intros ->. cbn. split; [apply list_elem_of_here|reflexivity].
  - intros -> -> -> ->. cbn. exists [], [Log ErrNoRasters;
                                        QueuePut PROCESS_COMPLETE_FAILURE].
    split_and!; [reflexivity|apply list_elem_of_here|reflexivity].
Qed.

End ValidationFacts.

Lemma unusable_raster_stops_run_witness :
  (run_processing (toy_world one_band_files) (toy_params ["a.tif"; "b.tif"])).2
  = Returned (false, {| success_roads := false; success_buildings := false;
                        final_layers := None |})
  /\ forall ev,
       ev ∈ (run_processing (toy_world one_band_files)
               (toy_params ["a.tif"; "b.tif"])).1 ->
       writes_output ev = false.
Proof.
  split; [vm_compute; reflexivity|].
  apply (unusable_raster_stops_run (toy_world one_band_files)
           (toy_params ["a.tif"; "b.tif"]) "b.tif").
  - apply list_elem_of_further, list_elem_of_here.
  - right. right. exists one_band_raster. split; [reflexivity|cbn; lia].
Defined.

Lemma empty_input_list_witness :
  (run_processing existing_output_world (forced_params [])).2
  = Returned (false, {| success_roads := false; success_buildings := false;
                        final_layers := None |})
  /\ exists before after,
       (run_processing existing_output_world (forced_params [])).1
       = before ++ DeleteDataSource_called OGRERR_NONE :: after
       /\ Log ErrNoRasters ∈ after
       /\ completion_signals
            (run_processing existing_output_world (forced_params [])).1
          = [PROCESS_COMPLETE_FAILURE].
Proof.
  split; [vm_compute; reflexivity|].
  destruct (empty_input_list existing_output_world (forced_params []) eq_refl)
    as (_ & _ & Hforce).
  apply Hforce; try reflexivity; exists 102; vm_compute; reflexivity.
Defined.

Lemma successful_run_layers_witness :
  exists res roads buildings,
    (run_processing (toy_world no_roads_files) (toy_params ["a.tif"])).2
    = Returned (true, res)
    /\ final_layers res = Some (roads, buildings)
    /\ length (layer_features buildings) = 1%nat
    /\ forall f, f ∈ layer_features roads ++ layer_features buildings ->
         py_eq_int (GetField f "DN") 1 = true
         /\ exists g, geometry f = Some g /\ IsEmpty g = false
                      /\ IsValid g = true.
Proof.
  pose (r := run_processing (toy_world no_roads_files) (toy_params ["a.tif"])).
  assert (Hrun : exists res roads buildings,
             r = (r.1, Returned (true, res))
             /\ final_layers res = Some (roads, buildings)
             /\ length (layer_features buildings) = 1%nat).
  { eexists _, _, _. split_and!; vm_compute; reflexivity. }
  destruct Hrun as (res & roads & buildings & Hrun & Hfinal & Hlen).
  exists res, roads, buildings.
  split; [change (r.2 = Returned (true, res)); now rewrite Hrun|].
  split; [exact Hfinal|]. split; [exact Hlen|].
  destruct (successful_run_layers (toy_world no_roads_files)
              (toy_params ["a.tif"]) r.1 res Hrun)
    as (_ & _ & _ & roads' & buildings' & Hfinal' & Hall).
  rewrite Hfinal in Hfinal'. injection Hfinal' as <- <-. exact Hall.
Defined.

Lemma unreadable_raster_fails_both_witness :
  (run_processing vanishing_files_world (toy_params ["a.tif"])).2
  = Returned (false,
              {| success_roads := false; success_buildings := false;
                 final_layers :=
                   Some ({| layer_defn := ["DN"];
                            GetGeomType := wkbMultiPolygon_type;
                            layer_features := []; next_fid := 1 |},
                         {| layer_defn := ["DN"];
                            GetGeomType := wkbMultiPolygon_type;
                            layer_features := []; next_fid := 1 |}) |})
  /\ forall t overall_success res,
       run_processing vanishing_files_world (toy_params ["a.tif"])
       = (t, Returned (overall_success, res)) ->
       overall_success = false.
Proof.
  split; [vm_compute; reflexivity|].
  intros t ok res Hrun.
  destruct (unreadable_raster_fails_both vanishing_files_world
              (toy_params ["a.tif"]) "a.tif") as [_ Hresult].
  - apply list_elem_of_here.
  - right. reflexivity.
  - exact (proj1 (Hresult t ok res Hrun)).
Defined.

Lemma failed_stage_leaves_layer_witness :
  (simplify_layer second_create_fails
     (dn_layer [dn_feature 1 unit_square 1; dn_feature 2 triangle 1]) 1.5).2
  = Returned (false,
              dn_layer [dn_feature 1 unit_square 1; dn_feature 2 triangle 1])
  /\ RollbackTransaction_called OGRERR_NONE
     ∈ (simplify_layer second_create_fails
          (dn_layer [dn_feature 1 unit_square 1; dn_feature 2 triangle 1])
          1.5).1.
Proof.
  pose (layer := dn_layer [dn_feature 1 unit_square 1; dn_feature 2 triangle 1]).
  pose (r := simplify_layer second_create_fails layer 1.5).
  assert (Hrun : r = (r.1, Returned (false, layer)))
    by (vm_compute; reflexivity).
  split; [change (r.2 = Returned (false, layer)); now rewrite Hrun|].
  exact (proj2 (proj1 (failed_stage_leaves_layer second_create_fails layer)
                  1.5%float r.1 layer Hrun)).
Defined.

(** ** The extraction loop merges *)

Section MergeFacts.
Context `{GeometryEngine} `{SpatialRef} (w : World).

Lemma layer_extends_refl layer : layer_extends layer layer.
Proof. now split_and!. Qed.

Lemma layer_extends_trans l1 l2 l3 :
  layer_extends l1 l2 -> layer_extends l2 l3 -> layer_extends l1 l3.
Proof.
  intros (Hp1 & Hd1 & Hg1) (Hp2 & Hd2 & Hg2).
  split_and!; [now transitivity (layer_features l2)|congruence|congruence].
Qed.

Lemma initial_polygonize_band_extends ex ds band_num threshold_value out_layer
    t ok out_layer' :
  initial_polygonize_band ex ds band_num threshold_value out_layer
  = (t, Returned (ok, out_layer')) ->
  layer_extends out_layer out_layer'.
Proof.
  unfold initial_polygonize_band. cbv zeta.
  destruct (_ || _); [rewrite log_bind; cbn; intros [= _ _ <-];
                      apply layer_extends_refl|].
  destruct (GetRasterBand ds band_num) as [band|];
    [|rewrite log_bind; cbn; intros [= _ _ <-]; apply layer_extends_refl].
  rewrite bind_eq, try_except_eq, bind_eq. unfold engine_call.
  destruct (ReadAsArray band) as [[band_array|]|e]; cbn [fst snd app].
  2,3: (rewrite log_bind; cbn; intros [= _ _ <-]; apply layer_extends_refl).
  cbn [mret run_ret fst snd app]. rewrite log_bind.
  destruct (np_sum _ =? 0);
    [rewrite log_bind; cbn; intros [= _ _ <-]; apply layer_extends_refl|].
  rewrite log_bind, bind_eq, try_except_eq, bind_eq.
  destruct (mem_create ex) as [[|]|e]; cbn [fst snd app negb].
  2,3: (cbn; intros [= _ _ <-]; apply layer_extends_refl).
  cbn [mret run_ret fst snd app negb].
  destruct (GetFieldIndex (layer_defn out_layer) "DN" <? 0);
    [rewrite log_bind; cbn; intros [= _ _ <-]; apply layer_extends_refl|].
  rewrite bind_eq.
  destruct (Polygonize ex _) as [[result regions]|e]; [|discriminate].
  cbn [fst snd app].
  destruct (result =? 0); cbn [negb]; rewrite log_bind; cbn;
    intros [= _ _ <-]; [|apply layer_extends_refl].
  destruct (append_polygons_features "DN" regions out_layer)
    as (new & Hf & _ & Hd & Hg).
  split_and!; [rewrite Hf; now apply prefix_app_r|exact Hd|exact Hg].
Qed.

Lemma polygonize_raster_extends threshold_255_roads threshold_255_buildings
    st path t st' :
  polygonize_raster w threshold_255_roads threshold_255_buildings st path
  = (t, Returned st') ->
  layer_extends (roads_layer st) (roads_layer st')
  /\ layer_extends (buildings_layer st) (buildings_layer st').
Proof.
  unfold polygonize_raster, critical_error, engine_call.
  cbv zeta. rewrite bind_eq, try_except_eq, bind_eq.
  destruct (open_for_processing w path) as [[ds|]|e]; cbn [fst snd app].
  2,3: (cbn; intros [= _ <-]; cbn; split; apply layer_extends_refl).
  cbn [mret run_ret fst snd app]. rewrite bind_eq, try_except_eq, bind_eq.
  destruct (initial_polygonize_band _ ds 1 _ _)
    as [t1 [[ok_r roads]|e]] eqn:Hroads; cbn [fst snd app].
  2:{ cbn. intros [= _ <-]. cbn. split; apply layer_extends_refl. }
  apply initial_polygonize_band_extends in Hroads.
  cbn [mret run_ret fst snd app]. rewrite bind_eq.
  destruct (if negb ok_r then _ else _) as [tw [[]|e]] eqn:Hw.
  2:{ destruct (negb ok_r); discriminate. }
  cbn [fst snd]. rewrite bind_eq, try_except_eq, bind_eq.
  destruct (initial_polygonize_band _ ds 2 _ _)
    as [t2 [[ok_b buildings]|e]] eqn:Hbuildings; cbn [fst snd app].
  2:{ cbn. intros [= _ <-]. cbn. split; [exact Hroads|apply layer_extends_refl]. }
  apply initial_polygonize_band_extends in Hbuildings.
  cbn [mret run_ret fst snd app]. rewrite bind_eq.
  destruct (if negb ok_b then _ else _) as [tw' [[]|e]] eqn:Hw'.
  2:{ destruct (negb ok_b); discriminate. }
  cbn. intros [= _ <-]. cbn. now split.
Qed.

(** X19: the extraction loop merges.  Over any list of rasters, and
    whatever fails on the way, each class layer after the loop starts
    with the features it held before the loop, unchanged and in order:
    what one raster contributed is never removed or reordered by a later
    raster, and the schema and geometry type of the layers stay as
    created. *)
Theorem extraction_accumulates (threshold_255_roads threshold_255_buildings : Z)
    (paths : list string) (st : Extraction) t st' :
  foldM (polygonize_raster w threshold_255_roads threshold_255_buildings)
        paths st = (t, Returned st') ->
  layer_features (roads_layer st) `prefix_of` layer_features (roads_layer st')
  /\ layer_features (buildings_layer st)
     `prefix_of` layer_features (buildings_layer st')
  /\ layer_defn (roads_layer st') = layer_defn (roads_layer st)
  /\ layer_defn (buildings_layer st') = layer_defn (buildings_layer st)
  /\ GetGeomType (roads_layer st') = GetGeomType (roads_layer st)
  /\ GetGeomType (buildings_layer st') = GetGeomType (buildings_layer st).
Proof.
  intros Hrun.
  assert (Hext : layer_extends (roads_layer st) (roads_layer st')
                 /\ layer_extends (buildings_layer st) (buildings_layer st')).
  { revert Hrun.
    apply (foldM_invariant
             (fun s => layer_extends (roads_layer st) (roads_layer s)
                       /\ layer_extends (buildings_layer st)
                                        (buildings_layer s))).
    - intros s path t1 s1 [Hr Hb] Hstep.
      apply polygonize_raster_extends in Hstep as [Hr1 Hb1].
      split; eapply layer_extends_trans; eassumption.
    - split; apply layer_extends_refl. }
  destruct Hext as [(? & ? & ?) (? & ? & ?)]. now split_and!.
Qed.

End MergeFacts.

Lemma extraction_accumulates_witness :
  exists st',
    (foldM (polygonize_raster (toy_world two_crs_files) 102 102)
           ["a.tif"; "b.tif"]
           (fresh_extraction (dn_layer [dn_feature 1 triangle 1])
                             (dn_layer []))).2 = Returned st'
    /\ map geometry (layer_features (roads_layer st'))
       = [Some triangle; Some unit_square; Some unit_square]
    /\ [dn_feature 1 triangle 1] `prefix_of` layer_features (roads_layer st').
Proof.
  pose (r := foldM (polygonize_raster (toy_world two_crs_files) 102 102)
                   ["a.tif"; "b.tif"]
                   (fresh_extraction (dn_layer [dn_feature 1 triangle 1])
                                     (dn_layer []))).
  assert (Hrun : exists st',
             r = (r.1, Returned st')
             /\ map geometry (layer_features (roads_layer st'))
                = [Some triangle; Some unit_square; Some unit_square]).
  { eexists. split; vm_compute; reflexivity. }
  destruct Hrun as (st' & Hrun & Hgeom). exists st'.
  split; [change (r.2 = Returned st'); now rewrite Hrun|].
  split; [exact Hgeom|].
  exact (proj1 (extraction_accumulates (toy_world two_crs_files) 102 102
                  _ _ _ _ Hrun)).
Defined.

(** * The stages, feature by feature *)

(** ** From the loop of a stage to the layer it leaves, failure included *)

Section StageResultFacts.
Context `{GeometryEngine} (drv : Driver).

(** A stage that selects all the features of the layer and changes the
    geometry of none leaves the layer it was given. *)
Lemma stage_result_same keep made layer :
  (forall f, f ∈ layer_features layer -> keep f = true /\ made f = geometry f) ->
  stage_result keep made layer layer.
Proof.
  intros Hall. split; [reflexivity|].
  rewrite filter_all by (intros f Hin; now apply Hall).
  apply Forall_Forall2_diag, Forall_forall. intros f Hin.
  split; [now intros name _|]. symmetry. now apply Hall.
Qed.

(** What a stage leaves in the layer is what it made of a feature of the
    layer it was given. *)
Lemma stage_result_origin keep made layer layer' f' :
  stage_result keep made layer layer' -> f' ∈ layer_features layer' ->
  exists f, f ∈ layer_features layer /\ keep f = true
            /\ geometry f' = made f
            /\ same_attributes (layer_defn layer) f' f.
Proof.
  intros [_ Hall] Hin. apply list_elem_of_lookup in Hin as [i Hi].
  destruct (Forall2_lookup_l _ _ _ _ _ Hall Hi) as (f & Hf & Hattrs & Hgeom).
  assert (Hin : f ∈ filter (fun f => keep f = true) (layer_features layer))
    by (apply list_elem_of_lookup; eauto).
  apply list_elem_of_filter in Hin as [Hkeep Hin]. eauto.
Qed.

(** Every selected feature has its counterpart in the layer the stage
    leaves. *)
Lemma stage_result_kept keep made layer layer' f :
  stage_result keep made layer layer' ->
  f ∈ layer_features layer -> keep f = true ->
  exists f', f' ∈ layer_features layer'
             /\ geometry f' = made f
             /\ same_attributes (layer_defn layer) f' f.
Proof.
  intros [_ Hall] Hin Hkeep.
  assert (Hsel : f ∈ filter (fun f => keep f = true) (layer_features layer))
    by (apply list_elem_of_filter; auto).
  apply list_elem_of_lookup in Hsel as [i Hi].
  destruct (Forall2_lookup_r _ _ _ _ _ Hall Hi) as (f' & Hf' & Hattrs & Hgeom).
  exists f'. split_and!; [|assumption|assumption].
  apply list_elem_of_lookup. eauto.
Qed.

(** The loop of a stage, then the rewrite and the closing log line: on
    success the layer is what the loop selected and made, on failure it
    is the layer as it was. *)
Lemma loop_rewrite_result {S} (proj : S -> list FeatureData)
    (keep : Feature -> bool) (made : Feature -> option Geometry)
    (step : S -> Feature -> Run S) layer s0 tl s msg ok layer' :
  proj s0 = [] ->
  (forall st f t st', step st f = (t, Returned st') ->
     (keep f = false
      /\ (proj st' = proj st
          \/ exists d, proj st' = proj st ++ [d] /\ kept_geometry d = None))
     \/ (keep f = true
         /\ exists g, made f = Some g /\ IsEmpty g = false
              /\ proj st'
                 = proj st ++ [{| data_geom := Some g;
                                  data_attributes
                                  := read_attrs (layer_defn layer) f |}])) ->
  foldM step (layer_features layer) s0 = (tl, Returned s) ->
  (r ← clear_and_repopulate_layer drv layer (proj s);
   _ ← log_message msg; mret r).2 = Returned (ok, layer') ->
  if ok then stage_result keep made layer layer' else layer' = layer.
Proof.
  intros Hs0 Hstep Hloop Hres.
  apply stage_tail in Hres as (tr & Hrewrite & _).
  destruct ok; [|now apply rewrite_failed in Hrewrite as [-> _]].
  destruct (rewrite_stores _ _ _ _ _ Hrewrite) as (_ & Hdefn & _).
  split; [exact Hdefn|].
  pose proof (loop_then_rewrite_exact proj
                (fun d f => exists g, made f = Some g
                   /\ d = {| data_geom := Some g;
                             data_attributes := read_attrs (layer_defn layer) f |})
                keep step drv layer s0 tl s tr layer' Hs0) as Hexact.
  eapply Forall2_impl; [apply Hexact; [|exact Hloop|exact Hrewrite]|].
  - intros st f t0 st' Hf.
    destruct (Hstep _ _ _ _ Hf) as [Hno|(Hkeep & g & Hmade & Hne & Hst)];
      [now left|right].
    split; [exact Hkeep|]. eexists. split; [exact Hst|]. split.
    + unfold kept_geometry. cbn. rewrite Hne. eauto.
    + eauto.
  - intros f' f (d & g & (g0 & Hmade & ->) & Hdg & Hne & Hgeom & Hfields).
    cbn in Hdg, Hfields. injection Hdg as ->. split.
    + now apply stored_read_attrs.
    + now rewrite Hgeom, Hmade.
Qed.

End StageResultFacts.

(** ** The five stages *)

Section StageResults.
Context `{GeometryEngine} (drv : Driver).

Lemma simplify_layer_result layer tolerance t ok layer' :
  simplify_layer drv layer tolerance = (t, Returned (ok, layer')) ->
  if ok && negb (tolerance <=? 0)%float
  then stage_result (simplify_keeps tolerance)
         (fun f => simplified_geometry tolerance <$> geometry f) layer layer'
  else layer' = layer.
Proof.
  unfold simplify_layer. cbv zeta.
  destruct (tolerance <=? 0)%float.
  { rewrite log_bind. cbn. intros [= _ _ <-]. now rewrite andb_false_r. }
  rewrite log_bind, andb_true_r. intros Hrun.
  destruct (GetFeatureCount layer =? 0) eqn:Hcount.
  { rewrite log_bind in Hrun. cbn in Hrun. injection Hrun as _ <- <-.
    split; [reflexivity|].
    rewrite (count_zero_features _ Hcount). constructor. }
  rewrite bind_eq in Hrun.
  destruct (foldM _ (layer_features layer) [])
    as [tl [data|e]] eqn:Hloop; [|discriminate].
  injection Hrun as _ Hres.
  eapply (loop_rewrite_result drv (fun acc => acc));
    [reflexivity| |exact Hloop|exact Hres].
  intros st f t0 st' Hstep. apply simplify_feature_select in Hstep.
  unfold simplify_keeps, kept_geometry.
  destruct (geometry f) as [g|]; cbn in Hstep |- *.
  - destruct (IsEmpty (simplified_geometry tolerance g)) eqn:He.
    + left. split; [reflexivity|]. right. eexists. split; [exact Hstep|].
      cbn. now rewrite He.
    + right. split; [reflexivity|]. eauto.
  - left. split; [reflexivity|]. right. eexists. split; [exact Hstep|].
    reflexivity.
Qed.

Lemma filter_layer_by_min_area_result layer min_area t ok layer' :
  filter_layer_by_min_area drv layer min_area = (t, Returned (ok, layer')) ->
  if ok && negb (min_area <=? 0)%float
  then stage_result (area_keeps min_area) geometry layer layer'
  else layer' = layer.
Proof.
  unfold filter_layer_by_min_area. cbv zeta.
  destruct (min_area <=? 0)%float.
  { rewrite log_bind. cbn. intros [= _ _ <-]. now rewrite andb_false_r. }
  rewrite log_bind, andb_true_r. intros Hrun.
  destruct (GetFeatureCount layer =? 0) eqn:Hcount.
  { rewrite log_bind in Hrun. cbn in Hrun. injection Hrun as _ <- <-.
    split; [reflexivity|].
    rewrite (count_zero_features _ Hcount). constructor. }
  rewrite bind_eq in Hrun.
  destruct (foldM _ (layer_features layer) ([], 0))
    as [tl [[data n]|e]] eqn:Hloop; [|discriminate].
  rewrite log_bind in Hrun. cbn [fst snd] in Hrun. injection Hrun as _ Hres.
  eapply (loop_rewrite_result drv fst _ _ _ layer ([], 0) tl (data, n));
    [reflexivity| |exact Hloop|exact Hres].
  intros st f t0 st' Hstep.
  destruct (area_filter_feature_select _ _ _ _ _ _ Hstep)
    as [[Hno Hst]|[Hyes Hst]]; [left; auto|right].
  split; [exact Hyes|]. unfold area_keeps in Hyes.
  unfold dn_candidate_of, Clone in Hst.
  destruct (geometry f) as [g|]; [|discriminate].
  destruct (IsEmpty g) eqn:He; [discriminate|]. eauto.
Qed.

(** The counters a feature is examined with have no part in the decision
    taken for it. *)
Lemma fix_geometry_decision target fid geom c t r c' :
  fix_geometry target fid geom c = (t, Returned (r, c')) ->
  exists c0, fix_geometry target fid geom no_counts = (t, Returned (r, c0)).
Proof.
  unfold fix_geometry, Clone. cbv zeta.
  destruct geom as [g|]; [|cbn; intros [= <- <- _]; eauto].
  destruct (IsEmpty g); [cbn; intros [= <- <- _]; eauto|].
  destruct (IsValid g); [cbn; intros [= <- <- _]; eauto|].
  unfold engine_call.
  destruct (MakeValid g) as [[repaired|]|e];
    rewrite !try_except_eq, !bind_eq; cbn.
  - destruct (IsEmpty repaired); cbn; [intros [= <- <- _]; eauto|].
    destruct (bool_decide (_ = GT_Flatten target)).
    { destruct (IsValid repaired); cbn; intros [= <- <- _]; eauto. }
    destruct (bool_decide _ && _); cbn; [|intros [= <- <- _]; eauto].
    rewrite !bind_eq.
    destruct (foldM _ _ (new_Geometry target, false))
      as [te [[ce found]|e]]; [|discriminate].
    destruct found; cbn; [|intros [= <- <- _]; eauto].
    destruct (IsValid ce); cbn; intros [= <- <- _]; eauto.
  - intros [= <- <- _]. eauto.
  - intros [= <- <- _]. eauto.
Qed.

Lemma repair_result_run target f c t r c' :
  fix_geometry target (FID f) (geometry f) c = (t, Returned (r, c')) ->
  repair_result target f = r.
Proof.
  intros Hfix. destruct (fix_geometry_decision _ _ _ _ _ _ _ Hfix) as (c0 & Hdec).
  unfold repair_result. now rewrite Hdec.
Qed.

Lemma repair_result_nonempty target f g :
  repair_result target f = Some g ->
  IsEmpty g = false /\ IsValid g = true
  /\ exists g0, geometry f = Some g0 /\ IsEmpty g0 = false
                /\ repair_provenance g0 g.
Proof.
  unfold repair_result.
  destruct (fix_geometry target (FID f) (geometry f) no_counts)
    as [t [[r c]|e]] eqn:Hfix; [|discriminate].
  cbn. intros ->.
  destruct (fix_geometry_counts _ _ _ _ _ _ _ Hfix) as (_ & _ & _ & _ & _ & Hne).
  destruct (fix_geometry_kept _ _ _ _ _ _ _ Hfix) as (g0 & Hg0 & He0 & Hv & Hprov).
  split_and!; [now apply Hne|exact Hv|eauto].
Qed.

Lemma fix_feature_select target field_names st f t st' :
  fix_feature target field_names st f = (t, Returned st') ->
  (repair_keeps target f = false /\ st'.1 = st.1)
  \/ (repair_keeps target f = true
      /\ exists g, repair_result target f = Some g /\ IsEmpty g = false
           /\ st'.1 = st.1 ++ [{| data_geom := Some g;
                                  data_attributes := read_attrs field_names f |}]).
Proof.
  unfold fix_feature. cbv zeta. rewrite bind_eq.
  destruct (fix_geometry target (FID f) (geometry f) st.2)
    as [tg [[r c]|e]] eqn:Hfix; [|discriminate].
  pose proof (repair_result_run _ _ _ _ _ _ Hfix) as Hres.
  unfold repair_keeps. rewrite Hres.
  destruct r as [g|]; cbn; intros [= _ <-]; [right|now left].
  split; [reflexivity|]. exists g. split_and!; [reflexivity| |reflexivity].
  now apply (repair_result_nonempty target f).
Qed.

Lemma fix_layer_geometries_result layer t ok layer' :
  fix_layer_geometries drv layer = (t, Returned (ok, layer')) ->
  if ok
  then stage_result (repair_keeps (GetGeomType layer))
         (repair_result (GetGeomType layer)) layer layer'
  else layer' = layer.
Proof.
  unfold fix_layer_geometries. cbv zeta. rewrite log_bind. intros Hrun.
  destruct (GetFeatureCount layer =? 0) eqn:Hcount.
  { rewrite log_bind in Hrun. cbn in Hrun. injection Hrun as _ <- <-.
    split; [reflexivity|].
    rewrite (count_zero_features _ Hcount). constructor. }
  rewrite bind_eq in Hrun.
  destruct (foldM _ (layer_features layer) ([], no_counts))
    as [tl [[data c]|e]] eqn:Hloop; [|discriminate].
  rewrite log_bind in Hrun. cbn [fst snd] in Hrun. injection Hrun as _ Hres.
  eapply (loop_rewrite_result drv fst _ _ _ layer ([], no_counts) tl (data, c));
    [reflexivity| |exact Hloop|exact Hres].
  intros st f t0 st' Hstep.
  destruct (fix_feature_select _ _ _ _ _ _ Hstep)
    as [[Hno Hst]|(Hyes & g & Hg & Hne & Hst)]; [left; auto|right; eauto].
Qed.

Lemma smooth_feature_output iterations field_names acc f t acc' :
  smooth_feature iterations field_names acc f = (t, Returned acc') ->
  acc' = acc ++ [{| data_geom := smoothing_output iterations f;
                    data_attributes := read_attrs field_names f |}]
  /\ if has_geometry f
     then exists g, smoothing_output iterations f = Some g /\ IsEmpty g = false
     else smoothing_output iterations f = None.
Proof.
  unfold smooth_feature, smoothing_output. cbv zeta. rewrite bind_eq.
  destruct (smooth_geometry iterations (FID f) (geometry f))
    as [tg [r|e]] eqn:Hgeom; [|discriminate].
  cbn. intros [= _ <-]. split; [reflexivity|].
  pose proof (smooth_geometry_cases _ _ _ _ _ Hgeom) as Hcases.
  unfold has_geometry. destruct (geometry f) as [g|]; [|exact Hcases].
  destruct (IsEmpty g); cbn [negb]; [exact Hcases|].
  destruct Hcases as (g' & -> & Hne & _). eauto.
Qed.

Lemma smooth_layer_chaikin_result layer iterations t ok layer' :
  smooth_layer_chaikin drv layer iterations = (t, Returned (ok, layer')) ->
  if ok
  then stage_result has_geometry (smoothing_output iterations) layer layer'
  else layer' = layer.
Proof.
  unfold smooth_layer_chaikin. cbv zeta. rewrite log_bind. intros Hrun.
  destruct (GetFeatureCount layer =? 0) eqn:Hcount.
  { rewrite log_bind in Hrun. cbn in Hrun. injection Hrun as _ <- <-.
    split; [reflexivity|].
    rewrite (count_zero_features _ Hcount). constructor. }
  rewrite bind_eq in Hrun.
  destruct (foldM _ (layer_features layer) [])
    as [tl [data|e]] eqn:Hloop; [|discriminate].
  injection Hrun as _ Hres.
  eapply (loop_rewrite_result drv (fun acc => acc));
    [reflexivity| |exact Hloop|exact Hres].
  intros st f t0 st' Hstep.
  apply smooth_feature_output in Hstep as [Hst Hout].
  destruct (has_geometry f).
  - right. split; [reflexivity|]. destruct Hout as (g & Hg & Hne).
    exists g. rewrite Hg in Hst. auto.
  - left. split; [reflexivity|]. right. eexists. split; [exact Hst|].
    unfold kept_geometry. cbn. now rewrite Hout.
Qed.

Lemma filter_layer_by_dn_result layer keep_dn_value t ok layer' :
  filter_layer_by_dn drv layer keep_dn_value = (t, Returned (ok, layer')) ->
  if ok then stage_result (dn_keeps keep_dn_value) geometry layer layer'
  else layer' = layer.
Proof.
  unfold filter_layer_by_dn. cbv zeta. rewrite log_bind. intros Hrun.
  destruct (GetFeatureCount layer =? 0) eqn:Hcount.
  { rewrite log_bind in Hrun. cbn in Hrun. injection Hrun as _ <- <-.
    split; [reflexivity|].
    rewrite (count_zero_features _ Hcount). constructor. }
  destruct (GetFieldIndex (layer_defn layer) "DN" <? 0).
  { rewrite log_bind in Hrun. cbn in Hrun. now injection Hrun as _ <- <-. }
  rewrite bind_eq in Hrun.
  destruct (foldM _ (layer_features layer) ([], 0))
    as [tl [[data n]|e]] eqn:Hloop; [|discriminate].
  cbn [fst snd] in Hrun.
  assert (Hstep : forall st f t st',
            dn_filter_feature keep_dn_value (layer_defn layer) st f
            = (t, Returned st') ->
            (dn_keeps keep_dn_value f = false /\ st'.1 = st.1)
            \/ (dn_keeps keep_dn_value f = true
                /\ exists g, geometry f = Some g /\ IsEmpty g = false
                     /\ st'.1 = st.1 ++ [{| data_geom := Some g;
                                            data_attributes
                                            := read_attrs (layer_defn layer) f |}])).
  { intros st f t0 st'. rewrite dn_filter_feature_eq. intros [= _ <-].
    destruct (dn_keeps keep_dn_value f) eqn:Hkeep; [right|now left].
    split; [reflexivity|].
    destruct (dn_keeps_geometry _ _ Hkeep) as (_ & g & Hg & Hne & _).
    exists g. unfold dn_candidate_of, Clone. rewrite Hg. auto. }
  destruct ((n =? GetFeatureCount layer) && (0 <? GetFeatureCount layer))
    eqn:Hskip.
  { rewrite log_bind in Hrun. cbn in Hrun. injection Hrun as _ <- <-.
    rewrite dn_loop_eq in Hloop. injection Hloop as _ _ Hn.
    apply andb_true_iff in Hskip as [Hlen _]. apply Z.eqb_eq in Hlen.
    assert (Hfull : filter (fun f => dn_keeps keep_dn_value f = true)
                           (layer_features layer) = layer_features layer).
    { apply filter_full_length. unfold GetFeatureCount in Hlen. lia. }
    apply stage_result_same. intros f Hin. split; [|reflexivity].
    rewrite <- Hfull in Hin. now apply list_elem_of_filter in Hin. }
  injection Hrun as _ Hres.
  eapply (loop_rewrite_result drv fst _ _ _ layer ([], 0) tl (data, n));
    [reflexivity| |exact Hloop|exact Hres].
  intros st f t0 st' Hf.
  destruct (Hstep _ _ _ _ Hf) as [[Hno Hst]|Hyes]; [left; auto|now right].
Qed.

End StageResults.

(** ** The repair stage: what stays and what goes *)

Section RepairClaim.
Context `{GeometryEngine} (drv : Driver).


End RepairClaim.



(** ** Attributes through the stages *)

Section AttributeClaim.
Context `{GeometryEngine} (drv : Driver).

(** C10: every stage keeps the attribute values of every feature it
    keeps.  A stage that fails, or that is disabled, leaves the layer as
    it was.  A stage that succeeds leaves, in order, one feature for each
    feature of the layer that it selects, and no other; the feature left
    for a selected feature carries the geometry the stage made of that
    very feature and reads as that feature on every field of the schema
    (DN included): the stage copies the value of every schema field of
    the feature into its candidate, and the rewrite stores every
    attribute that names a schema field. *)
Theorem C10_attributes_preserved (layer : Layer) :
  (forall tolerance t ok layer',
     simplify_layer drv layer tolerance = (t, Returned (ok, layer')) ->
     if ok && negb (tolerance <=? 0)%float
     then stage_result (simplify_keeps tolerance)
            (fun f => simplified_geometry tolerance <$> geometry f) layer layer'
     else layer' = layer)
  /\ (forall min_area t ok layer',
        filter_layer_by_min_area drv layer min_area = (t, Returned (ok, layer')) ->
        if ok && negb (min_area <=? 0)%float
        then stage_result (area_keeps min_area) geometry layer layer'
        else layer' = layer)
  /\ (forall t ok layer',
        fix_layer_geometries drv layer = (t, Returned (ok, layer')) ->
        if ok
        then stage_result (repair_keeps (GetGeomType layer))
               (repair_result (GetGeomType layer)) layer layer'
        else layer' = layer)
  /\ (forall iterations t ok layer',
        smooth_layer_chaikin drv layer iterations = (t, Returned (ok, layer')) ->
        if ok
        then stage_result has_geometry (smoothing_output iterations) layer layer'
        else layer' = layer)
  /\ (forall keep_dn_value t ok layer',
        filter_layer_by_dn drv layer keep_dn_value = (t, Returned (ok, layer')) ->
        if ok then stage_result (dn_keeps keep_dn_value) geometry layer layer'
        else layer' = layer)
  /\ (forall keep made layer' f',
        stage_result keep made layer layer' -> f' ∈ layer_features layer' ->
        exists f, f ∈ layer_features layer /\ keep f = true
                  /\ geometry f' = made f
                  /\ forall name, name ∈ layer_defn layer' ->
                       GetField f' name = GetField f name)
  /\ (forall keep made layer' f,
        stage_result keep made layer layer' ->
        f ∈ layer_features layer -> keep f = true ->
        exists f', f' ∈ layer_features layer'
                   /\ geometry f' = made f
                   /\ forall name, name ∈ layer_defn layer' ->
                        GetField f' name = GetField f name)
  /\ (forall field_names f name,
        name ∈ field_names ->
        read_attrs field_names f !! name = Some (GetField f name))
  /\ (forall f' f,
        fields f' = stored_fields (layer_defn layer)
                      (read_attrs (layer_defn layer) f) ->
        same_attributes (layer_defn layer) f' f).
Proof.
  split_and!.
  - intros tolerance t ok layer'. apply simplify_layer_result.
  - intros min_area t ok layer'. apply filter_layer_by_min_area_result.
  - intros t ok layer'. apply fix_layer_geometries_result.
  - intros iterations t ok layer'. apply smooth_layer_chaikin_result.
  - intros keep_dn_value t ok layer'. apply filter_layer_by_dn_result.
  - intros keep made layer' f' Hresult Hin.
    destruct (stage_result_origin _ _ _ _ _ Hresult Hin)
      as (f & Hf & Hkeep & Hgeom & Hattrs).
    exists f. split_and!; [assumption|assumption|assumption|].
    destruct Hresult as [-> _]. exact Hattrs.
  - intros keep made layer' f Hresult Hin Hkeep.
    destruct (stage_result_kept _ _ _ _ _ Hresult Hin Hkeep)
      as (f' & Hf' & Hgeom & Hattrs).
    exists f'. split_and!; [assumption|assumption|].
    destruct Hresult as [-> _]. exact Hattrs.
  - intros field_names f name Hin. rewrite read_attrs_lookup.
    now rewrite (bool_decide_eq_true_2 _ Hin).
  - intros f' f. apply stored_read_attrs.
Qed.

End AttributeClaim.

(** The repair stage on the bow tie (DN 1) and the unit square (DN 1):
    each feature left reads DN as the feature it was made of. *)
Lemma C10_attributes_preserved_witness :
  (fix_layer_geometries healthy_driver repair_example).2
  = Returned (true, repaired_example)
  /\ stage_result (repair_keeps wkbMultiPolygon_type)
       (repair_result wkbMultiPolygon_type) repair_example repaired_example
  /\ map geometry (layer_features repaired_example)
     = map (repair_result wkbMultiPolygon_type) (layer_features repair_example).
Proof.
  pose (r := fix_layer_geometries healthy_driver repair_example).
  assert (Hrun : r = (r.1, Returned (true, repaired_example)))
    by (vm_compute; reflexivity).
  split; [vm_compute; reflexivity|]. split; [|vm_compute; reflexivity].
  exact (proj1 (proj2 (proj2 (C10_attributes_preserved healthy_driver
                                repair_example)))
           r.1 true repaired_example Hrun).
Defined.
